(** * DrvNATlibslirp: a shallow embedding of the NAT network transport driver

    The definitions below follow
    [src/VBox/Devices/Network/DrvNATlibslirp.cpp].  Machine integers are [Z]
    with their wrap-around written out, pointers are [N] with [0] for [NULL],
    the RTMem heap is a finite map from live pointers to objects, and every
    driver entry point is a function on the instance data.  Results that the
    source obtains from its collaborators (the request queue, the pipe, the
    device port, the allocator) are explicit arguments of the functions. *)

From Stdlib Require Import ZArith Lia List Bool.
From stdpp Require Import base option list gmap.

Local Open Scope Z_scope.

(** ** Machine integers *)

Definition wrap32 (x : Z) : Z := x mod 2 ^ 32.
Definition wrap64 (x : Z) : Z := x mod 2 ^ 64.

(** [(int64_t)u] for a 64-bit pattern [u]. *)
Definition to_int64 (x : Z) : Z :=
  let u := wrap64 x in if u <? 2 ^ 63 then u else u - 2 ^ 64.

(** [(int)u] for a 32-bit pattern [u]. *)
Definition to_int32 (x : Z) : Z :=
  let u := wrap32 x in if u <? 2 ^ 31 then u else u - 2 ^ 32.

(** The C truth value of [x & m]. *)
Definition tst (x m : Z) : bool := negb (Z.land x m =? 0).

(** ** Poll event translation *)

(** The two arms of [#ifndef RT_OS_WINDOWS]. *)
Inductive HostOS := RT_OS_POSIX | RT_OS_WINDOWS.

(** libslirp.h *)
Definition SLIRP_POLL_IN  : Z := Z.shiftl 1 0.
Definition SLIRP_POLL_OUT : Z := Z.shiftl 1 1.
Definition SLIRP_POLL_PRI : Z := Z.shiftl 1 2.
Definition SLIRP_POLL_ERR : Z := Z.shiftl 1 3.
Definition SLIRP_POLL_HUP : Z := Z.shiftl 1 4.

(** The host's poll flags: <poll.h> on the POSIX arm, <winsock2.h> on the
    Windows arm (where [POLLIN] is [POLLRDNORM | POLLRDBAND]). *)
Definition POLLRDNORM (os : HostOS) : Z :=
  match os with RT_OS_POSIX => 0x040 | RT_OS_WINDOWS => 0x100 end.
Definition POLLRDBAND (os : HostOS) : Z :=
  match os with RT_OS_POSIX => 0x080 | RT_OS_WINDOWS => 0x200 end.
Definition POLLWRNORM (os : HostOS) : Z :=
  match os with RT_OS_POSIX => 0x100 | RT_OS_WINDOWS => 0x010 end.
Definition POLLIN (os : HostOS) : Z :=
  match os with
  | RT_OS_POSIX => 0x001
  | RT_OS_WINDOWS => Z.lor (POLLRDNORM RT_OS_WINDOWS) (POLLRDBAND RT_OS_WINDOWS)
  end.
Definition POLLPRI (os : HostOS) : Z :=
  match os with RT_OS_POSIX => 0x002 | RT_OS_WINDOWS => 0x400 end.
Definition POLLOUT (os : HostOS) : Z :=
  match os with RT_OS_POSIX => 0x004 | RT_OS_WINDOWS => POLLWRNORM RT_OS_WINDOWS end.
Definition POLLERR (os : HostOS) : Z :=
  match os with RT_OS_POSIX => 0x008 | RT_OS_WINDOWS => 0x001 end.
Definition POLLHUP (os : HostOS) : Z :=
  match os with RT_OS_POSIX => 0x010 | RT_OS_WINDOWS => 0x002 end.

(** [if (iEvents & flag) iRet |= bits;] *)
Definition or_if (iEvents flag bits iRet : Z) : Z :=
  if tst iEvents flag then Z.lor iRet bits else iRet.

Definition drvNAT_PollEventSlirpToHost (os : HostOS) (iEvents : Z) : Z :=
  let iRet := 0 in
  match os with
  | RT_OS_POSIX =>
      let iRet := or_if iEvents SLIRP_POLL_IN  (POLLIN os)  iRet in
      let iRet := or_if iEvents SLIRP_POLL_OUT (POLLOUT os) iRet in
      let iRet := or_if iEvents SLIRP_POLL_PRI (POLLPRI os) iRet in
      let iRet := or_if iEvents SLIRP_POLL_ERR (POLLERR os) iRet in
      let iRet := or_if iEvents SLIRP_POLL_HUP (POLLHUP os) iRet in
      iRet
  | RT_OS_WINDOWS =>
      let iRet := or_if iEvents SLIRP_POLL_IN  (Z.lor (POLLRDNORM os) (POLLRDBAND os)) iRet in
      let iRet := or_if iEvents SLIRP_POLL_OUT (POLLWRNORM os) iRet in
      let iRet := or_if iEvents SLIRP_POLL_PRI (POLLIN os) iRet in
      let iRet := or_if iEvents SLIRP_POLL_ERR 0 iRet in
      let iRet := or_if iEvents SLIRP_POLL_HUP 0 iRet in
      iRet
  end.

Definition drvNAT_PollEventHostToSlirp (os : HostOS) (iEvents : Z) : Z :=
  let iRet := 0 in
  match os with
  | RT_OS_POSIX =>
      let iRet := or_if iEvents (POLLIN os)  SLIRP_POLL_IN  iRet in
      let iRet := or_if iEvents (POLLOUT os) SLIRP_POLL_OUT iRet in
      let iRet := or_if iEvents (POLLPRI os) SLIRP_POLL_PRI iRet in
      let iRet := or_if iEvents (POLLERR os) SLIRP_POLL_ERR iRet in
      let iRet := or_if iEvents (POLLHUP os) SLIRP_POLL_HUP iRet in
      iRet
  | RT_OS_WINDOWS =>
      let iRet := or_if iEvents (Z.lor (POLLRDNORM os) (POLLRDBAND os)) SLIRP_POLL_IN iRet in
      let iRet := or_if iEvents (POLLWRNORM os) SLIRP_POLL_OUT iRet in
      let iRet := or_if iEvents (POLLPRI os) SLIRP_POLL_PRI iRet in
      let iRet := or_if iEvents (POLLERR os) SLIRP_POLL_ERR iRet in
      let iRet := or_if iEvents (POLLHUP os) SLIRP_POLL_HUP iRet in
      iRet
  end.

(** Engine to host and back. *)
Definition poll_roundtrip (os : HostOS) (iEvents : Z) : Z :=
  drvNAT_PollEventHostToSlirp os (drvNAT_PollEventSlirpToHost os iEvents).

(** The engine flag values built from IN, OUT, PRI, ERR and HUP. *)
Definition slirp_flags (e : Z) : Prop := 0 <= e < 32.

(** ** Addressing derived from [Network] *)

(** iprt/asm.h on a little-endian host: [RT_H2N_U32] swaps the four bytes. *)
Definition RT_H2N_U32 (u : Z) : Z :=
  Z.lor (Z.lor (Z.shiftl (Z.land u 0xff) 24) (Z.shiftl (Z.land (Z.shiftr u 8) 0xff) 16))
        (Z.lor (Z.shiftl (Z.land (Z.shiftr u 16) 0xff) 8) (Z.land (Z.shiftr u 24) 0xff)).

(** iprt/net.h: host-endian [RTNETADDRIPV4] to [struct in_addr.s_addr]. *)
Definition RTNetIPv4AddrHEToInAddr (u : Z) : Z := RT_H2N_U32 u.

(** iprt/cdefs.h *)
Definition RT_BYTE1 (a : Z) : Z := Z.land a 0xff.
Definition RT_BYTE2 (a : Z) : Z := Z.land (Z.shiftr a 8) 0xff.
Definition RT_BYTE3 (a : Z) : Z := Z.land (Z.shiftr a 16) 0xff.
Definition RT_BYTE4 (a : Z) : Z := Z.land (Z.shiftr a 24) 0xff.

(** The [k]-th octet (1..4) of the dotted form A.B.C.D of a host-endian
    address. *)
Definition octet (k : Z) (u : Z) : Z := Z.land (Z.shiftr u (8 * (4 - k))) 0xff.

(** The fields of [SlirpConfig] that [drvNATConstruct] derives from the
    network; [struct in6_addr] is its sixteen bytes. *)
Record SlirpConfig := {
  version : Z;
  restricted : bool;
  in_enabled : bool;
  vnetwork : Z;
  vnetmask : Z;
  vhost : Z;
  in6_enabled : bool;
  vprefix_addr6 : list Z;
  vprefix_len : Z;
  vhost6 : list Z;
  vnameserver6 : list Z;
  vdhcp_start : Z;
  vnameserver : Z;
  if_mtu : Z
}.

(** [inet_pton(AF_INET6, ...)] of the three literals of the source. *)
Definition in6_fd17_625c_f037_0 (last : Z) : list Z :=
  [0xfd; 0x17; 0x62; 0x5c; 0xf0; 0x37; 0; 0; 0; 0; 0; 0; 0; 0; 0; last].

(** Lines 1626-1672 of [drvNATConstruct]: [Network] and [Netmask] are the
    host-endian results of [RTCidrStrToIPv4]. *)
Definition drvNATConstruct_slirpCfg (Network Netmask MTU : Z) : SlirpConfig :=
  let vnetwork_ := RTNetIPv4AddrHEToInAddr Network in
  let vnetmask_ := RTNetIPv4AddrHEToInAddr Netmask in
  let Nettemp := Z.lor Network 2 in
  let vhost_ := RTNetIPv4AddrHEToInAddr Nettemp in
  let Nettemp := Z.lor Network 15 in
  let vdhcp_start_ := RTNetIPv4AddrHEToInAddr Nettemp in
  let Nettemp := Z.lor Network 3 in
  let vnameserver_ := RTNetIPv4AddrHEToInAddr Nettemp in
  let prefix := in6_fd17_625c_f037_0 0 in
  let host6 := in6_fd17_625c_f037_0 2 in
  let ns6 := in6_fd17_625c_f037_0 3 in
  let prefix := <[6%nat := RT_BYTE2 vhost_]> prefix in
  let prefix := <[7%nat := RT_BYTE3 vhost_]> prefix in
  let host6 := <[6%nat := RT_BYTE2 vhost_]> host6 in
  let host6 := <[7%nat := RT_BYTE3 vhost_]> host6 in
  let ns6 := <[6%nat := RT_BYTE2 vnameserver_]> ns6 in
  let ns6 := <[7%nat := RT_BYTE3 vnameserver_]> ns6 in
  {| version := 4;
     restricted := false;
     in_enabled := true;
     vnetwork := vnetwork_;
     vnetmask := vnetmask_;
     vhost := vhost_;
     in6_enabled := true;
     vprefix_addr6 := prefix;
     vprefix_len := 64;
     vhost6 := host6;
     vnameserver6 := ns6;
     vdhcp_start := vdhcp_start_;
     vnameserver := vnameserver_;
     if_mtu := MTU |}.

(** 10.0.2.0 in host-endian form. *)
Definition net_10_0_2_0 : Z := 0x0a000200.

(** ** Status codes, enumerations and structures *)

(** iprt/err.h *)
Definition VINF_SUCCESS : Z := 0.
Definition VERR_INVALID_PARAMETER : Z := -2.
Definition VERR_NO_MEMORY : Z := -8.
Definition VERR_TIMEOUT : Z := -10.
Definition VERR_INTERRUPTED : Z := -39.
Definition VERR_TRY_AGAIN : Z := -52.
Definition VERR_NET_DOWN : Z := -450.
Definition VERR_NET_NO_BUFFER_SPACE : Z := -455.

Definition RT_SUCCESS (rc : Z) : bool := 0 <=? rc.
Definition RT_FAILURE (rc : Z) : bool := negb (RT_SUCCESS rc).

Definition INADDR_ANY : Z := 0.

(** VBox/vmm/pdmnetifs.h *)
Inductive PDMNETWORKLINKSTATE :=
  | PDMNETWORKLINKSTATE_INVALID
  | PDMNETWORKLINKSTATE_UP
  | PDMNETWORKLINKSTATE_DOWN
  | PDMNETWORKLINKSTATE_DOWN_RESUME.

(** VBox/vmm/pdmthread.h *)
Inductive PDMTHREADSTATE :=
  | PDMTHREADSTATE_INVALID
  | PDMTHREADSTATE_INITIALIZING
  | PDMTHREADSTATE_SUSPENDING
  | PDMTHREADSTATE_SUSPENDED
  | PDMTHREADSTATE_RESUMING
  | PDMTHREADSTATE_RUNNING
  | PDMTHREADSTATE_TERMINATING
  | PDMTHREADSTATE_TERMINATED.

Definition is_RUNNING (st : PDMTHREADSTATE) : bool :=
  match st with PDMTHREADSTATE_RUNNING => true | _ => false end.

Definition is_UP (st : PDMNETWORKLINKSTATE) : bool :=
  match st with PDMNETWORKLINKSTATE_UP => true | _ => false end.

Definition link_eqb (a b : PDMNETWORKLINKSTATE) : bool :=
  match a, b with
  | PDMNETWORKLINKSTATE_INVALID, PDMNETWORKLINKSTATE_INVALID
  | PDMNETWORKLINKSTATE_UP, PDMNETWORKLINKSTATE_UP
  | PDMNETWORKLINKSTATE_DOWN, PDMNETWORKLINKSTATE_DOWN
  | PDMNETWORKLINKSTATE_DOWN_RESUME, PDMNETWORKLINKSTATE_DOWN_RESUME => true
  | _, _ => false
  end.

(** Pointers; [0] is [NULL]. *)
Definition ptr := N.
Definition NULL : ptr := 0%N.
Definition is_null (p : ptr) : bool := (p =? 0)%N.

(** [PDMNETWORKGSO] (VBox/vmm/pdmnetifs.h). *)
Record PDMNETWORKGSO := {
  u8Type : Z;
  cbHdrsTotal : Z;
  cbMaxSeg : Z;
  offHdr1 : Z;
  offHdr2 : Z;
  cbHdrsSeg : Z;
  u8Unused : Z
}.

(** [PDMSCATTERGATHER] with its single segment [aSegs[0]]. *)
Record PDMSCATTERGATHER := {
  fFlags : Z;
  cbUsed : Z;
  cbAvailable : Z;
  pvAllocator : ptr;
  pvUser : ptr;
  cSegs : Z;
  aSegs0_pvSeg : ptr;
  aSegs0_cbSeg : Z
}.

Definition PDMSCATTERGATHER_FLAGS_MAGIC : Z := 0xb1b10000.
Definition PDMSCATTERGATHER_FLAGS_MAGIC_MASK : Z := 0xffff0000.
Definition PDMSCATTERGATHER_FLAGS_OWNER_MASK : Z := 0x00000003.
Definition PDMSCATTERGATHER_FLAGS_OWNER_1 : Z := 0x00000001.

(** What [RTMemAllocZ(sizeof(PDMSCATTERGATHER))] hands out. *)
Definition sg_zero : PDMSCATTERGATHER :=
  {| fFlags := 0; cbUsed := 0; cbAvailable := 0; pvAllocator := NULL;
     pvUser := NULL; cSegs := 0; aSegs0_pvSeg := NULL; aSegs0_cbSeg := 0 |}.

(** [struct slirpTimer]; the handler and its argument are opaque to the
    driver and kept as numbers. *)
Record SlirpTimer := {
  next : ptr;
  uTimeExpire : Z;
  pHandler : Z;
  opaque : Z
}.

Definition timer_set_expire (e : Z) (t : SlirpTimer) : SlirpTimer :=
  {| next := next t; uTimeExpire := e; pHandler := pHandler t; opaque := opaque t |}.

(** [struct pollfd] *)
Record pollfd := { fd : Z; events : Z; revents : Z }.

(** What a live RTMem block holds. *)
Inductive Obj :=
  | OSg (sg : PDMSCATTERGATHER)
  | OGso (g : PDMNETWORKGSO)
  | OTimer (t : SlirpTimer)
  | OMem (cb : Z).

(** A request parked on an [RTREQQUEUE]: the worker and its arguments
    ([pThis] is implicit). *)
Inductive Req :=
  | ReqSendWorker (pSgBuf : ptr)
  | ReqRecvWorker (pBuf : ptr) (cb : Z)
  | ReqLinkChangedWorker (enmLinkState : PDMNETWORKLINKSTATE)
  | ReqApplyPortForwardCommand (fRemove fUdp : bool) (pHostIp : option (list Z))
      (u16HostPort : Z) (pGuestIp : option (list Z)) (u16GuestPort : Z).

(** Calls that leave the driver. *)
Inductive Event :=
  | EvPipeWrite (cb : Z)
  | EvPipeRead (cbToRead cbRead : Z)
  | EvSlirpInput (pkt : ptr) (cb : Z)
  | EvAddHostFwd (fUdp : bool) (hostIp hostPort guestIp guestPort : Z)
  | EvRemoveHostFwd (fUdp : bool) (hostIp hostPort : Z)
  | EvWaitReceiveAvail (rc : Z)
  | EvReceive (pBuf : ptr) (cb : Z) (rc : Z)
  | EvSemEventSignal
  | EvTimerHandler (pHandler opaque : Z)
  | EvLogRel (fLinkUp : bool).

(** [struct SlirpState] without the engine handle. *)
Record SlirpState := {
  nsock : Z;
  polls : list pollfd;
  uPollCap : Z;
  pTimerHead : ptr
}.

(** [struct DRVNAT].  [pSlirpThread] is the thread's [enmState]; the two
    queues are their pending requests, oldest first; a critical section is
    its nesting count. *)
Record DRVNAT := {
  enmLinkState : PDMNETWORKLINKSTATE;
  pNATState : SlirpState;
  pSlirpThread : PDMTHREADSTATE;
  hSlirpReqQueue : list Req;
  GuestIP : Z;
  enmLinkStateWant : PDMNETWORKLINKSTATE;
  cbWakeupNotifs : Z;
  hRecvReqQueue : list Req;
  DevAccessLock : Z;
  cPkts : Z;
  XmitLock : Z
}.

(** The instance data together with what its collaborators hold: the RTMem
    heap ([brk] is the next address the allocator hands out), the log of
    [RTMemFree] calls, the bytes sitting in the control pipe, and the calls
    made into the engine, the device port and the host. *)
Record World := {
  this : DRVNAT;
  heap : gmap N Obj;
  brk : N;
  freed : list ptr;
  hPipe : Z;
  trace : list Event
}.

(** *** Field updates *)

Definition set_enmLinkState (v : PDMNETWORKLINKSTATE) (d : DRVNAT) : DRVNAT :=
  {| enmLinkState := v; pNATState := pNATState d; pSlirpThread := pSlirpThread d;
     hSlirpReqQueue := hSlirpReqQueue d; GuestIP := GuestIP d;
     enmLinkStateWant := enmLinkStateWant d; cbWakeupNotifs := cbWakeupNotifs d;
     hRecvReqQueue := hRecvReqQueue d; DevAccessLock := DevAccessLock d;
     cPkts := cPkts d; XmitLock := XmitLock d |}.

Definition set_pNATState (v : SlirpState) (d : DRVNAT) : DRVNAT :=
  {| enmLinkState := enmLinkState d; pNATState := v; pSlirpThread := pSlirpThread d;
     hSlirpReqQueue := hSlirpReqQueue d; GuestIP := GuestIP d;
     enmLinkStateWant := enmLinkStateWant d; cbWakeupNotifs := cbWakeupNotifs d;
     hRecvReqQueue := hRecvReqQueue d; DevAccessLock := DevAccessLock d;
     cPkts := cPkts d; XmitLock := XmitLock d |}.

Definition set_pSlirpThread (v : PDMTHREADSTATE) (d : DRVNAT) : DRVNAT :=
  {| enmLinkState := enmLinkState d; pNATState := pNATState d; pSlirpThread := v;
     hSlirpReqQueue := hSlirpReqQueue d; GuestIP := GuestIP d;
     enmLinkStateWant := enmLinkStateWant d; cbWakeupNotifs := cbWakeupNotifs d;
     hRecvReqQueue := hRecvReqQueue d; DevAccessLock := DevAccessLock d;
     cPkts := cPkts d; XmitLock := XmitLock d |}.

Definition set_hSlirpReqQueue (v : list Req) (d : DRVNAT) : DRVNAT :=
  {| enmLinkState := enmLinkState d; pNATState := pNATState d; pSlirpThread := pSlirpThread d;
     hSlirpReqQueue := v; GuestIP := GuestIP d;
     enmLinkStateWant := enmLinkStateWant d; cbWakeupNotifs := cbWakeupNotifs d;
     hRecvReqQueue := hRecvReqQueue d; DevAccessLock := DevAccessLock d;
     cPkts := cPkts d; XmitLock := XmitLock d |}.

Definition set_enmLinkStateWant (v : PDMNETWORKLINKSTATE) (d : DRVNAT) : DRVNAT :=
  {| enmLinkState := enmLinkState d; pNATState := pNATState d; pSlirpThread := pSlirpThread d;
     hSlirpReqQueue := hSlirpReqQueue d; GuestIP := GuestIP d;
     enmLinkStateWant := v; cbWakeupNotifs := cbWakeupNotifs d;
     hRecvReqQueue := hRecvReqQueue d; DevAccessLock := DevAccessLock d;
     cPkts := cPkts d; XmitLock := XmitLock d |}.

Definition set_cbWakeupNotifs (v : Z) (d : DRVNAT) : DRVNAT :=
  {| enmLinkState := enmLinkState d; pNATState := pNATState d; pSlirpThread := pSlirpThread d;
     hSlirpReqQueue := hSlirpReqQueue d; GuestIP := GuestIP d;
     enmLinkStateWant := enmLinkStateWant d; cbWakeupNotifs := v;
     hRecvReqQueue := hRecvReqQueue d; DevAccessLock := DevAccessLock d;
     cPkts := cPkts d; XmitLock := XmitLock d |}.

Definition set_hRecvReqQueue (v : list Req) (d : DRVNAT) : DRVNAT :=
  {| enmLinkState := enmLinkState d; pNATState := pNATState d; pSlirpThread := pSlirpThread d;
     hSlirpReqQueue := hSlirpReqQueue d; GuestIP := GuestIP d;
     enmLinkStateWant := enmLinkStateWant d; cbWakeupNotifs := cbWakeupNotifs d;
     hRecvReqQueue := v; DevAccessLock := DevAccessLock d;
     cPkts := cPkts d; XmitLock := XmitLock d |}.

Definition set_DevAccessLock (v : Z) (d : DRVNAT) : DRVNAT :=
  {| enmLinkState := enmLinkState d; pNATState := pNATState d; pSlirpThread := pSlirpThread d;
     hSlirpReqQueue := hSlirpReqQueue d; GuestIP := GuestIP d;
     enmLinkStateWant := enmLinkStateWant d; cbWakeupNotifs := cbWakeupNotifs d;
     hRecvReqQueue := hRecvReqQueue d; DevAccessLock := v;
     cPkts := cPkts d; XmitLock := XmitLock d |}.

Definition set_cPkts (v : Z) (d : DRVNAT) : DRVNAT :=
  {| enmLinkState := enmLinkState d; pNATState := pNATState d; pSlirpThread := pSlirpThread d;
     hSlirpReqQueue := hSlirpReqQueue d; GuestIP := GuestIP d;
     enmLinkStateWant := enmLinkStateWant d; cbWakeupNotifs := cbWakeupNotifs d;
     hRecvReqQueue := hRecvReqQueue d; DevAccessLock := DevAccessLock d;
     cPkts := v; XmitLock := XmitLock d |}.

Definition set_XmitLock (v : Z) (d : DRVNAT) : DRVNAT :=
  {| enmLinkState := enmLinkState d; pNATState := pNATState d; pSlirpThread := pSlirpThread d;
     hSlirpReqQueue := hSlirpReqQueue d; GuestIP := GuestIP d;
     enmLinkStateWant := enmLinkStateWant d; cbWakeupNotifs := cbWakeupNotifs d;
     hRecvReqQueue := hRecvReqQueue d; DevAccessLock := DevAccessLock d;
     cPkts := cPkts d; XmitLock := v |}.

Definition set_pTimerHead (v : ptr) (s : SlirpState) : SlirpState :=
  {| nsock := nsock s; polls := polls s; uPollCap := uPollCap s; pTimerHead := v |}.

Definition set_nsock (v : Z) (s : SlirpState) : SlirpState :=
  {| nsock := v; polls := polls s; uPollCap := uPollCap s; pTimerHead := pTimerHead s |}.

Definition set_polls (v : list pollfd) (cap : Z) (s : SlirpState) : SlirpState :=
  {| nsock := nsock s; polls := v; uPollCap := cap; pTimerHead := pTimerHead s |}.

(** Update of the instance data inside the world. *)
Definition upd (f : DRVNAT -> DRVNAT) (w : World) : World :=
  {| this := f (this w); heap := heap w; brk := brk w; freed := freed w;
     hPipe := hPipe w; trace := trace w |}.

Definition set_heap (h : gmap N Obj) (w : World) : World :=
  {| this := this w; heap := h; brk := brk w; freed := freed w;
     hPipe := hPipe w; trace := trace w |}.

Definition emit (e : Event) (w : World) : World :=
  {| this := this w; heap := heap w; brk := brk w; freed := freed w;
     hPipe := hPipe w; trace := trace w ++ [e] |}.

Definition set_hPipe (v : Z) (w : World) : World :=
  {| this := this w; heap := heap w; brk := brk w; freed := freed w;
     hPipe := v; trace := trace w |}.

(** ** The collaborators *)

Definition DRVNAT_MAXFRAMESIZE : Z := 16 * 1024.
Definition DRVNAT_DEFAULT_TIMEOUT : Z := 3600 * 1000.

(** iprt/cdefs.h: [RT_ALIGN_Z(cb, uAlignment)] is
    [((size_t)cb + (uAlignment - 1)) & ~(size_t)(uAlignment - 1)]. *)
Definition RT_ALIGN_Z (cb uAlignment : Z) : Z :=
  Z.land (wrap64 (cb + (uAlignment - 1))) (2 ^ 64 - 1 - (uAlignment - 1)).

(** The multiple of [a] at or above [cb]. *)
Definition round_up (cb a : Z) : Z := (cb + a - 1) / a * a.

(** Modelled from the spec: [RTMemAlloc], [RTMemAllocZ] and [RTMemDup] of
    IPRT are not part of the sources at hand.  A successful call hands out
    an address that was never handed out before and holds [o]; a failed one
    ([fOk = false]) returns [NULL]. *)
Definition RTMemAlloc (w : World) (fOk : bool) (o : Obj) : ptr * World :=
  if fOk then
    let p := N.succ (brk w) in
    (p, {| this := this w; heap := <[p := o]> (heap w); brk := p;
           freed := freed w; hPipe := hPipe w; trace := trace w |})
  else (NULL, w).

(** Modelled from the spec: [RTMemFree] of IPRT; [RTMemFree(NULL)] does
    nothing, any other call is logged in [freed]. *)
Definition RTMemFree (w : World) (p : ptr) : World :=
  if is_null p then w
  else {| this := this w; heap := delete p (heap w); brk := brk w;
          freed := freed w ++ [p]; hPipe := hPipe w; trace := trace w |}.

(** A store through a pointer to a live block. *)
Definition store (w : World) (p : ptr) (o : Obj) : World :=
  set_heap (<[p := o]> (heap w)) w.

Definition load_sg (w : World) (p : ptr) : option PDMSCATTERGATHER :=
  match heap w !! p with Some (OSg sg) => Some sg | _ => None end.

Definition load_gso (w : World) (p : ptr) : option PDMNETWORKGSO :=
  match heap w !! p with Some (OGso g) => Some g | _ => None end.

Definition load_timer (h : gmap N Obj) (p : ptr) : option SlirpTimer :=
  match h !! p with Some (OTimer t) => Some t | _ => None end.

(** Modelled from the spec: [RTReqQueueCallEx] of IPRT with
    [RTREQFLAGS_NO_WAIT]; [rc] is the status the queue answers with, and the
    request is parked exactly when that status is a success. *)
Definition RTReqQueueCallEx_NoWait (q : list Req) (rc : Z) (r : Req) : list Req :=
  if RT_SUCCESS rc then q ++ [r] else q.

(** Modelled from the spec: [RTPipeRead] of IPRT on the control pipe, which
    takes the bytes that are there, at most [cbToRead] of them. *)
Definition RTPipeRead (cbInPipe cbToRead : Z) : Z := Z.min cbToRead cbInPipe.

(** ** The driver *)

(** [drvNATNotifyNATThread]: [fWritten] tells whether the one-byte write to
    the wakeup channel succeeded. *)
Definition drvNATNotifyNATThread (w : World) (fWritten : bool) : World :=
  if fWritten then
    let w := emit (EvPipeWrite 1) (set_hPipe (hPipe w + 1) w) in
    upd (fun d => set_cbWakeupNotifs (wrap64 (cbWakeupNotifs d + 1)) d) w
  else w.

(** Lines 769-782 of [drvNATAsyncIoThread] (the POSIX arm); [revents0] is
    what [poll] left in [polls[0].revents]. *)
Definition drvNATAsyncIoThread_drain (w : World) (revents0 : Z) : World :=
  if tst revents0 (Z.lor (Z.lor (POLLRDNORM RT_OS_POSIX) (POLLPRI RT_OS_POSIX))
                         (POLLRDBAND RT_OS_POSIX))
  then
    let cbNotifs := cbWakeupNotifs (this w) in
    let cbToRead := Z.min cbNotifs 1024 in
    let cbRead := RTPipeRead (hPipe w) cbToRead in
    let w := emit (EvPipeRead cbToRead cbRead) (set_hPipe (hPipe w - cbRead) w) in
    upd (fun d => set_cbWakeupNotifs (wrap64 (cbWakeupNotifs d - cbRead)) d) w
  else w.

(** [drvNATFreeSgBuf]; [None] when [pSgBuf] does not point to a live S/G
    buffer. *)
Definition drvNATFreeSgBuf (w : World) (pSgBuf : ptr) : option World :=
  sg ← load_sg w pSgBuf;
  let sg0 :=
    {| fFlags := 0; cbUsed := cbUsed sg; cbAvailable := cbAvailable sg;
       pvAllocator := pvAllocator sg; pvUser := pvUser sg; cSegs := cSegs sg;
       aSegs0_pvSeg := aSegs0_pvSeg sg; aSegs0_cbSeg := aSegs0_cbSeg sg |} in
  let w := store w pSgBuf (OSg sg0) in
  let w :=
    if negb (is_null (pvAllocator sg)) then RTMemFree w (aSegs0_pvSeg sg)
    else if negb (is_null (pvUser sg)) then
      let w := RTMemFree w (aSegs0_pvSeg sg) in
      let w := RTMemFree w (pvUser sg) in
      store w pSgBuf
        (OSg {| fFlags := 0; cbUsed := cbUsed sg; cbAvailable := cbAvailable sg;
                pvAllocator := pvAllocator sg; pvUser := NULL; cSegs := cSegs sg;
                aSegs0_pvSeg := NULL; aSegs0_cbSeg := aSegs0_cbSeg sg |})
    else w in
  Some (RTMemFree w pSgBuf).

(** [drvNATNetworkUp_AllocBuf]; [pGso] is [None] for a null pointer.  The
    three flags tell whether the allocation of the S/G structure, of the GSO
    copy and of the segment succeed.  The middle component is what is stored
    to [*ppSgBuf] ([NULL] when nothing is stored). *)
Definition drvNATNetworkUp_AllocBuf (w : World) (cbMin : Z) (pGso : option PDMNETWORKGSO)
    (fSg fUser fSeg : bool) : Z * ptr * World :=
  if negb (is_RUNNING (pSlirpThread (this w))) then (VERR_NET_DOWN, NULL, w)
  else
    let '(pSgBuf, w) := RTMemAlloc w fSg (OSg sg_zero) in
    if is_null pSgBuf then (VERR_NO_MEMORY, NULL, w)
    else
      let finish (w : World) (pvAlloc pvUsr pvSeg : ptr) (cbSeg : Z) :=
        store w pSgBuf
          (OSg {| fFlags := Z.lor PDMSCATTERGATHER_FLAGS_MAGIC PDMSCATTERGATHER_FLAGS_OWNER_1;
                  cbUsed := 0; cbAvailable := cbSeg; pvAllocator := pvAlloc;
                  pvUser := pvUsr; cSegs := 1; aSegs0_pvSeg := pvSeg;
                  aSegs0_cbSeg := cbSeg |}) in
      match pGso with
      | None =>
          if DRVNAT_MAXFRAMESIZE <=? cbMin
          then (VERR_INVALID_PARAMETER, NULL, RTMemFree w pSgBuf)
          else
            let cbSeg := RT_ALIGN_Z cbMin 128 in
            let '(pvSeg, w) := RTMemAlloc w fSeg (OMem cbSeg) in
            if is_null pvSeg then (VERR_TRY_AGAIN, NULL, RTMemFree w pSgBuf)
            else (VINF_SUCCESS, pSgBuf, finish w pvSeg NULL pvSeg cbSeg)
      | Some g =>
          if DRVNAT_MAXFRAMESIZE <=? cbHdrsTotal g + cbMaxSeg g
          then (VERR_INVALID_PARAMETER, NULL, RTMemFree w pSgBuf)
          else
            let '(pvUsr, w) := RTMemAlloc w fUser (OGso g) in
            let cbSeg := RT_ALIGN_Z cbMin 128 in
            let '(pvSeg, w) := RTMemAlloc w fSeg (OMem cbSeg) in
            if is_null pvUsr || is_null pvSeg then
              let w := RTMemFree w pvSeg in
              let w := RTMemFree w pvUsr in
              (VERR_TRY_AGAIN, NULL, RTMemFree w pSgBuf)
            else (VINF_SUCCESS, pSgBuf, finish w NULL pvUsr pvSeg cbSeg)
      end.

(** [drvNATNetworkUp_FreeBuf] *)
Definition drvNATNetworkUp_FreeBuf (w : World) (pSgBuf : ptr) : option (Z * World) :=
  w ← drvNATFreeSgBuf w pSgBuf; Some (VINF_SUCCESS, w).

(** [drvNATNetworkUp_SendBuf]; [rcQueue] is the status of
    [RTReqQueueCallEx]. *)
Definition drvNATNetworkUp_SendBuf (w : World) (pSgBuf : ptr) (rcQueue : Z)
    (fWritten : bool) : option (Z * World) :=
  if is_RUNNING (pSlirpThread (this w)) then
    let w := upd (fun d => set_hSlirpReqQueue
                (RTReqQueueCallEx_NoWait (hSlirpReqQueue d) rcQueue (ReqSendWorker pSgBuf)) d) w in
    if RT_SUCCESS rcQueue then
      Some (VINF_SUCCESS, drvNATNotifyNATThread w fWritten)
    else
      w ← drvNATFreeSgBuf w pSgBuf; Some (VERR_NET_NO_BUFFER_SPACE, w)
  else
    w ← drvNATFreeSgBuf w pSgBuf; Some (VERR_NET_DOWN, w).

(** [drvNATNetworkUp_BeginXmit]; [rcEnter] is the status of
    [RTCritSectTryEnter]. *)
Definition drvNATNetworkUp_BeginXmit (w : World) (rcEnter : Z) : Z * World :=
  if RT_FAILURE rcEnter then (VERR_TRY_AGAIN, w)
  else (rcEnter, upd (fun d => set_XmitLock (XmitLock d + 1) d) w).

(** [drvNATNetworkUp_EndXmit] *)
Definition drvNATNetworkUp_EndXmit (w : World) : World :=
  upd (fun d => set_XmitLock (XmitLock d - 1) d) w.

(** [drvNATRecvWakeup] *)
Definition drvNATRecvWakeup (w : World) : World := emit EvSemEventSignal w.

(** [drvNATRecvWorker]; [rcWait] and [rcRecv] are the statuses of the device
    port's [pfnWaitReceiveAvail] and [pfnReceive]. *)
Definition drvNATRecvWorker (w : World) (pBuf : ptr) (cb : Z) (rcWait rcRecv : Z)
    (fWritten : bool) : World :=
  let w := upd (fun d => set_DevAccessLock (DevAccessLock d + 1) d) w in
  let w := emit (EvWaitReceiveAvail rcWait) w in
  let w :=
    if RT_SUCCESS rcWait then
      let w := emit (EvReceive pBuf cb rcRecv) w in
      RTMemFree w pBuf
    else w in
  let w := upd (fun d => set_DevAccessLock (DevAccessLock d - 1) d) w in
  let w := upd (fun d => set_cPkts (wrap32 (cPkts d - 1)) d) w in
  drvNATNotifyNATThread w fWritten.

(** [drvNAT_SendPacketCb]; [fAlloc] tells whether the copy could be
    allocated, [rcQueue] is the status of [RTReqQueueCallEx] on the receive
    queue. *)
Definition drvNAT_SendPacketCb (w : World) (cb : Z) (fAlloc : bool) (rcQueue : Z)
    (fWritten : bool) : Z * World :=
  let '(pNewBuf, w) := RTMemAlloc w fAlloc (OMem cb) in
  if is_null pNewBuf then (-1, w)
  else if negb (is_RUNNING (pSlirpThread (this w))) then (-1, w)
  else
    let w := upd (fun d => set_cPkts (wrap32 (cPkts d + 1)) d) w in
    let w := upd (fun d => set_hRecvReqQueue
                (RTReqQueueCallEx_NoWait (hRecvReqQueue d) rcQueue (ReqRecvWorker pNewBuf cb)) d) w in
    let w := drvNATRecvWakeup w in
    let w := drvNATNotifyNATThread w fWritten in
    (cb, w).

(** [drvNATNotifyLinkChangedWorker] *)
Definition drvNATNotifyLinkChangedWorker (w : World) (st : PDMNETWORKLINKSTATE) : World :=
  let w := upd (fun d => set_enmLinkState st (set_enmLinkStateWant st d)) w in
  match st with
  | PDMNETWORKLINKSTATE_UP => emit (EvLogRel true) w
  | PDMNETWORKLINKSTATE_DOWN | PDMNETWORKLINKSTATE_DOWN_RESUME => emit (EvLogRel false) w
  | PDMNETWORKLINKSTATE_INVALID => w
  end.

(** Functions of other files that the driver calls and whose results it
    only passes on: the GSO helpers of VBox/vmm/pdmnetinline.h
    ([PDMNetGsoCarveSegment] yields [offPayload], [cbHdrs] and [cbPayload])
    and the C library's [inet_aton] on a NUL-terminated string.  With them
    comes the answer of IPRT's allocator to the send worker's request for a
    scratch buffer: [RTMemAlloc_scratch brk iSeg] tells whether the
    allocator, standing at [brk], delivers the buffer of segment [iSeg]. *)
Record Externals := {
  PDMNetGsoIsValid : PDMNETWORKGSO -> Z -> bool;
  PDMNetGsoCalcSegmentCount : PDMNETWORKGSO -> Z -> Z;
  PDMNetGsoCarveSegment : PDMNETWORKGSO -> Z -> Z -> Z -> Z * Z * Z;
  inet_aton : list Z -> option Z;
  RTMemAlloc_scratch : N -> Z -> bool
}.

Section Driver.

Variable X : Externals.

(** The [for] loop of [drvNATSendWorker] with [n] iterations left.  The
    source does not test the scratch pointer: [PDMNetGsoCarveSegment] and
    [memcpy] write through it, so there is no result when the allocation
    fails.  [cbPayload + cbHdrs] is a [uint32_t] sum that [slirp_input]
    takes as an [int]. *)
Fixpoint drvNATSendWorker_segments (n : nat) (iSeg cSegs_ : Z) (pGso : PDMNETWORKGSO)
    (cbFrame : Z) (w : World) : option World :=
  match n with
  | O => Some w
  | S n' =>
      let '(pvSeg, w) := RTMemAlloc w (RTMemAlloc_scratch X (brk w) iSeg)
                           (OMem DRVNAT_MAXFRAMESIZE) in
      if is_null pvSeg then None
      else
        let '(_, cbHdrs, cbPayload) := PDMNetGsoCarveSegment X pGso cbFrame iSeg cSegs_ in
        let w := emit (EvSlirpInput pvSeg (to_int32 (wrap32 (cbPayload + cbHdrs)))) w in
        let w := RTMemFree w pvSeg in
        drvNATSendWorker_segments n' (iSeg + 1) cSegs_ pGso cbFrame w
  end.

(** [drvNATSendWorker]; [None] when a pointer that is dereferenced does not
    point to a live object of the expected kind.  An ordinary frame goes to
    [slirp_input] with [(int)pSgBuf->cbUsed]. *)
Definition drvNATSendWorker (w : World) (pSgBuf : ptr) : option World :=
  sg ← load_sg w pSgBuf;
  w ← (if is_UP (enmLinkState (this w)) then
         if negb (is_null (pvAllocator sg)) then
           Some (emit (EvSlirpInput (pvAllocator sg) (to_int32 (cbUsed sg))) w)
         else
           pGso ← load_gso w (pvUser sg);
           if PDMNetGsoIsValid X pGso (cbUsed sg) then
             let cSegs_ := PDMNetGsoCalcSegmentCount X pGso (cbUsed sg) in
             drvNATSendWorker_segments (Z.to_nat cSegs_) 0 cSegs_ pGso (cbUsed sg) w
           else Some w
       else Some w);
  drvNATFreeSgBuf w pSgBuf.

(** [drvNATNotifyApplyPortForwardCommand]; a null string is [None]. *)
Definition drvNATNotifyApplyPortForwardCommand (w : World) (fRemove fUdp : bool)
    (pHostIp : option (list Z)) (u16HostPort : Z)
    (pGuestIp : option (list Z)) (u16GuestPort : Z) : World :=
  let hostIp :=
    match pHostIp with
    | None => INADDR_ANY
    | Some sz => match inet_aton X sz with None => INADDR_ANY | Some a => a end
    end in
  let guestIp :=
    match pGuestIp with
    | None => GuestIP (this w)
    | Some sz => match inet_aton X sz with None => GuestIP (this w) | Some a => a end
    end in
  if fRemove then emit (EvRemoveHostFwd fUdp hostIp u16HostPort) w
  else emit (EvAddHostFwd fUdp hostIp u16HostPort guestIp u16GuestPort) w.

(** *** The timer list *)

(** [drvNAT_TimerNewCb] *)
Definition drvNAT_TimerNewCb (w : World) (slirpTimeCb cb_opaque : Z) (fAlloc : bool)
    : ptr * World :=
  let '(pNewTimer, w) :=
    RTMemAlloc w fAlloc
      (OTimer {| next := pTimerHead (pNATState (this w)); uTimeExpire := 0;
                 pHandler := slirpTimeCb; opaque := cb_opaque |}) in
  if is_null pNewTimer then (NULL, w)
  else (pNewTimer, upd (fun d => set_pNATState (set_pTimerHead pNewTimer (pNATState d)) d) w).

(** The [while] loop of [drvNAT_TimerFreeCb]; [None] when the loop reads a
    pointer that is not a live timer or does not end within [fuel] rounds. *)
Fixpoint drvNAT_TimerFreeCb_loop (fuel : nat) (w : World) (pTimer pCurrent : ptr)
    : option World :=
  if is_null pCurrent then Some w
  else
    match fuel with
    | O => None
    | S fuel' =>
        if (pCurrent =? pTimer)%N then
          t ← load_timer (heap w) pCurrent;
          let pTmp := next t in
          let w := RTMemFree w pCurrent in
          drvNAT_TimerFreeCb_loop fuel' w pTimer pTmp
        else
          t ← load_timer (heap w) pCurrent;
          drvNAT_TimerFreeCb_loop fuel' w pTimer (next t)
    end.

(** [drvNAT_TimerFreeCb] *)
Definition drvNAT_TimerFreeCb (fuel : nat) (w : World) (pTimer : ptr) : option World :=
  drvNAT_TimerFreeCb_loop fuel w pTimer (pTimerHead (pNATState (this w))).

(** [drvNAT_TimerModCb]: the 64-bit [expireTime] is stored in the 32-bit
    field. *)
Definition drvNAT_TimerModCb (w : World) (pTimer : ptr) (expireTime : Z) : option World :=
  t ← load_timer (heap w) pTimer;
  Some (store w pTimer (OTimer (timer_set_expire (wrap32 expireTime) t))).

(** The body of the [while] loop of [drvNAT_UpdateTimeout] for one timer:
    [uTimeExpire] and [currTime] are both [uint32_t], so their difference is
    taken modulo 2^32 before it is widened to [int64_t]. *)
Definition drvNAT_UpdateTimeout_body (currTime : Z) (t : SlirpTimer) (uTimeout : Z) : Z :=
  if negb (uTimeExpire t =? 0) then
    let diff := to_int64 (wrap32 (uTimeExpire t - currTime)) in
    let diff := if diff <? 0 then 0 else diff in
    if diff <? uTimeout then wrap32 diff else uTimeout
  else uTimeout.

Fixpoint drvNAT_UpdateTimeout_loop (fuel : nat) (h : gmap N Obj) (currTime : Z)
    (pCurrent : ptr) (uTimeout : Z) : option Z :=
  if is_null pCurrent then Some uTimeout
  else
    match fuel with
    | O => None
    | S fuel' =>
        t ← load_timer h pCurrent;
        drvNAT_UpdateTimeout_loop fuel' h currTime (next t)
          (drvNAT_UpdateTimeout_body currTime t uTimeout)
    end.

(** [drvNAT_UpdateTimeout]; [nowNs] is what [drvNAT_ClockGetNsCb] returns
    and the result is the new [*uTimeout]. *)
Definition drvNAT_UpdateTimeout (fuel : nat) (w : World) (nowNs : Z) (uTimeout : Z)
    : option Z :=
  let currTime := wrap32 (Z.quot nowNs (1000 * 1000)) in
  drvNAT_UpdateTimeout_loop fuel (heap w) currTime (pTimerHead (pNATState (this w))) uTimeout.

(** The [while] loop of [drvNAT_CheckTimeout]; here [currTime] is
    [int64_t].  A handler is engine code: its call is recorded. *)
Fixpoint drvNAT_CheckTimeout_loop (fuel : nat) (w : World) (currTime : Z)
    (pCurrent : ptr) : option World :=
  if is_null pCurrent then Some w
  else
    match fuel with
    | O => None
    | S fuel' =>
        t ← load_timer (heap w) pCurrent;
        let w :=
          if negb (uTimeExpire t =? 0) then
            let diff := to_int64 (uTimeExpire t - currTime) in
            if diff <=? 0 then
              let w := store w pCurrent (OTimer (timer_set_expire 0 t)) in
              emit (EvTimerHandler (pHandler t) (opaque t)) w
            else w
          else w in
        t' ← load_timer (heap w) pCurrent;
        drvNAT_CheckTimeout_loop fuel' w currTime (next t')
    end.

(** [drvNAT_CheckTimeout] *)
Definition drvNAT_CheckTimeout (fuel : nat) (w : World) (nowNs : Z) : option World :=
  drvNAT_CheckTimeout_loop fuel w (Z.quot nowNs (1000 * 1000))
    (pTimerHead (pNATState (this w))).

(** *** The poll set *)

Definition pollfd_zero : pollfd := {| fd := 0; events := 0; revents := 0 |}.

(** [sizeof(struct pollfd)]: an [int] and two [short]s in poll.h, a
    [SOCKET] and two [SHORT]s in winsock2.h on a 64-bit host. *)
Definition sizeof_pollfd (os : HostOS) : Z :=
  match os with RT_OS_POSIX => 8 | RT_OS_WINDOWS => 16 end.

(** Modelled from the spec: [RTMemRealloc] of IPRT on the poll array, when
    it succeeds: the block has [cbNew] bytes, [cbNew] taken as a [size_t];
    the entries that fit are kept and the new ones are zero here. *)
Definition RTMemRealloc_polls (os : HostOS) (l : list pollfd) (cbNew : Z) : list pollfd :=
  resize (Z.to_nat (wrap64 cbNew / sizeof_pollfd os)) pollfd_zero l.

(** [drvNAT_AddPollCb] with the descriptor as stored in the array;
    [fRealloc] tells whether [RTMemRealloc] succeeds.  [cbNew] is an [int]
    that takes the product of the [unsigned] [uPollCap * 2] and the
    [size_t] size of an entry; [idx] is an [int] too.  The stores to
    [polls[idx]] are not guarded: with [idx] outside the array there is no
    result ([None]). *)
Definition drvNAT_AddPollCb (os : HostOS) (w : World) (iFd iEvents : Z) (fRealloc : bool)
    : option (Z * World) :=
  let st := pNATState (this w) in
  let grow := uPollCap st <=? wrap32 (nsock st + 1) in
  let cbNew := to_int32 (wrap64 (wrap32 (uPollCap st * 2) * sizeof_pollfd os)) in
  if grow && negb fRealloc then Some (-1, w)
  else
    let st :=
      if grow then
        set_polls (RTMemRealloc_polls os (polls st) cbNew)
                  (wrap32 (uPollCap st * 2)) st
      else st in
    let idx := to_int32 (nsock st) in
    if (0 <=? idx) && (idx <? Z.of_nat (length (polls st))) then
      let st :=
        set_polls (<[Z.to_nat idx := {| fd := iFd;
                                        events := drvNAT_PollEventSlirpToHost os iEvents;
                                        revents := 0 |}]> (polls st))
                  (uPollCap st) st in
      let st := set_nsock (wrap32 (nsock st + 1)) st in
      Some (idx, upd (set_pNATState st) w)
    else None.

(** [drvNAT_GetREventsCb] *)
Definition drvNAT_GetREventsCb (os : HostOS) (w : World) (idx : Z) : option Z :=
  p ← polls (pNATState (this w)) !! Z.to_nat idx;
  Some (drvNAT_PollEventHostToSlirp os (revents p)).

(** *** Construction *)

(** The instance data as PDM hands it to the constructor: zeroed. *)
Definition DRVNAT_zero : DRVNAT :=
  {| enmLinkState := PDMNETWORKLINKSTATE_INVALID;
     pNATState := {| nsock := 0; polls := []; uPollCap := 0; pTimerHead := NULL |};
     pSlirpThread := PDMTHREADSTATE_INVALID;
     hSlirpReqQueue := [];
     GuestIP := 0;
     enmLinkStateWant := PDMNETWORKLINKSTATE_INVALID;
     cbWakeupNotifs := 0;
     hRecvReqQueue := [];
     DevAccessLock := 0;
     cPkts := 0;
     XmitLock := 0 |}.

(** One rule of the "PortForwarding" subtree as [drvNATConstructRedir] reads
    it: [fUDP], [BindIP], [iHostPort], [GuestIP], [iGuestPort]; the two
    addresses already default to [INADDR_ANY]. *)
Definition Redir : Type := bool * Z * Z * Z * Z.

(** The loop of [drvNATConstructRedir] over rules the engine accepts. *)
Definition drvNATConstructRedir (w : World) (rules : list Redir) : World :=
  fold_left (fun w '(fUDP, BindIP, iHostPort, GuestIP_, iGuestPort) =>
               emit (EvAddHostFwd fUDP BindIP iHostPort GuestIP_ iGuestPort) w)
            rules w.

(** The writes of a successful [drvNATConstruct] to the instance data. *)
Definition drvNATConstruct (pThis : DRVNAT) (rules : list Redir) : World :=
  let d := set_pNATState {| nsock := 0; polls := replicate 64 pollfd_zero;
                            uPollCap := 64; pTimerHead := NULL |} pThis in
  let d := set_hSlirpReqQueue [] d in
  let w := {| this := d; heap := ∅; brk := 0%N; freed := []; hPipe := 0; trace := [] |} in
  let w := drvNATConstructRedir w rules in
  let w := upd (set_hRecvReqQueue []) w in
  let w := upd (set_DevAccessLock 0) w in
  let w := upd (set_XmitLock 0) w in
  let w := upd (set_cbWakeupNotifs 0) w in
  let w := upd (set_pSlirpThread PDMTHREADSTATE_INITIALIZING) w in
  upd (fun d => set_enmLinkState PDMNETWORKLINKSTATE_UP
                  (set_enmLinkStateWant PDMNETWORKLINKSTATE_UP d)) w.

(** *** The NAT thread *)

(** Lines 716-733 of [drvNATAsyncIoThread] (the POSIX arm): slot 0 of the
    poll set is bound to the read end of the control pipe, then the wanted
    link state is applied.  The result of [drvNAT_AddPollCb] is not looked
    at, and the stores to [polls[0]] are not guarded: with an empty array
    there is no result. *)
Definition drvNATAsyncIoThread_entry (w : World) (fdPipeRead : Z) (fRealloc : bool)
    : option World :=
  '(_, w) ← drvNAT_AddPollCb RT_OS_POSIX w fdPipeRead
              (Z.lor SLIRP_POLL_IN SLIRP_POLL_HUP) fRealloc;
  match polls (pNATState (this w)) with
  | [] => None
  | _ :: _ =>
      let slot0 := {| fd := fdPipeRead;
                      events := Z.lor (Z.lor (POLLRDNORM RT_OS_POSIX) (POLLPRI RT_OS_POSIX))
                                      (POLLRDBAND RT_OS_POSIX);
                      revents := 0 |} in
      let w := upd (fun d => set_pNATState
                      (set_polls (<[0%nat := slot0]> (polls (pNATState d)))
                                 (uPollCap (pNATState d)) (pNATState d)) d) w in
      Some match pSlirpThread (this w) with
           | PDMTHREADSTATE_INITIALIZING => w
           | _ =>
               if negb (link_eqb (enmLinkStateWant (this w)) (enmLinkState (this w)))
               then drvNATNotifyLinkChangedWorker w (enmLinkStateWant (this w))
               else w
           end
  end.

(** The start of a round of the polling loop: [nsock = 1]. *)
Definition drvNATAsyncIoThread_round_start (w : World) : World :=
  upd (fun d => set_pNATState (set_nsock 1 (pNATState d)) d) w.

(** One request of the engine queue, as [RTReqQueueProcess] runs it. *)
Definition slirp_req (w : World) (r : Req) : option World :=
  match r with
  | ReqSendWorker pSgBuf => drvNATSendWorker w pSgBuf
  | ReqLinkChangedWorker st => Some (drvNATNotifyLinkChangedWorker w st)
  | ReqApplyPortForwardCommand fRemove fUdp pHostIp hp pGuestIp gp =>
      Some (drvNATNotifyApplyPortForwardCommand w fRemove fUdp pHostIp hp pGuestIp gp)
  | ReqRecvWorker _ _ => None
  end.

(** Modelled from the spec: [RTReqQueueProcess] of IPRT on the engine
    queue: the requests [q] are taken off and run one after the other,
    oldest first. *)
Fixpoint RTReqQueueProcess (w : World) (q : list Req) : option World :=
  match q with
  | [] => Some w
  | r :: q' =>
      w ← slirp_req (upd (set_hSlirpReqQueue q') w) r;
      RTReqQueueProcess w q'
  end.

(** The waiting form of [RTReqQueueCallEx] with [cMillies = 0]: on
    [VERR_TIMEOUT] the request is parked and the caller pokes the NAT thread
    and waits; on success the request was parked and the NAT thread has
    already run the queue up to and including it, the requests parked ahead
    of it first; on any other status nothing was parked. *)
Definition call_and_wait (w : World) (rcQueue : Z) (fWritten : bool) (r : Req)
    : option World :=
  if rcQueue =? VERR_TIMEOUT then
    let w := upd (fun d => set_hSlirpReqQueue (hSlirpReqQueue d ++ [r]) d) w in
    Some (drvNATNotifyNATThread w fWritten)
  else if RT_SUCCESS rcQueue then
    let w := upd (fun d => set_hSlirpReqQueue (hSlirpReqQueue d ++ [r]) d) w in
    RTReqQueueProcess w (hSlirpReqQueue (this w))
  else Some w.

(** [drvNATNetworkUp_NotifyLinkChanged] *)
Definition drvNATNetworkUp_NotifyLinkChanged (w : World) (st : PDMNETWORKLINKSTATE)
    (rcQueue : Z) (fWritten : bool) : option World :=
  if negb (is_RUNNING (pSlirpThread (this w))) then
    Some (upd (set_enmLinkStateWant st) w)
  else
    call_and_wait w rcQueue fWritten (ReqLinkChangedWorker st).

(** [drvNATNetworkNatConfigRedirect] *)
Definition drvNATNetworkNatConfigRedirect (w : World) (fRemove fUdp : bool)
    (pHostIp : option (list Z)) (u16HostPort : Z)
    (pGuestIp : option (list Z)) (u16GuestPort : Z)
    (rcQueue : Z) (fWritten : bool) : option (Z * World) :=
  if negb (is_RUNNING (pSlirpThread (this w))) then
    Some (VINF_SUCCESS,
          drvNATNotifyApplyPortForwardCommand w fRemove fUdp pHostIp u16HostPort
            pGuestIp u16GuestPort)
  else
    w ← call_and_wait w rcQueue fWritten
          (ReqApplyPortForwardCommand fRemove fUdp pHostIp u16HostPort pGuestIp u16GuestPort);
    Some ((if rcQueue =? VERR_TIMEOUT then VINF_SUCCESS else rcQueue), w).

(** ** Runs of the driver *)

(** What the other parties can do to an instance: each entry point with the
    answers of the collaborators it consults.  A worker runs when its queue
    hands it out, oldest request first. *)
Inductive Action :=
  | ActPdmThreadState (st : PDMTHREADSTATE)
  | ActBeginXmit (rcEnter : Z)
  | ActAllocBuf (cbMin : Z) (pGso : option PDMNETWORKGSO) (fSg fUser fSeg : bool)
  | ActFreeBuf (pSgBuf : ptr)
  | ActSendBuf (pSgBuf : ptr) (rcQueue : Z) (fWritten : bool)
  | ActEndXmit
  | ActNotifyLinkChanged (st : PDMNETWORKLINKSTATE) (rcQueue : Z) (fWritten : bool)
  | ActRedirect (fRemove fUdp : bool) (pHostIp : option (list Z)) (u16HostPort : Z)
      (pGuestIp : option (list Z)) (u16GuestPort : Z) (rcQueue : Z) (fWritten : bool)
  | ActAsyncIoWakeup (fWritten : bool)
  | ActThreadEntry (fdPipeRead : Z) (fRealloc : bool)
  | ActRoundStart
  | ActAddPoll (iFd iEvents : Z) (fRealloc : bool)
  | ActDrain (revents0 : Z)
  | ActSlirpReq
  | ActCheckTimeout (fuel : nat) (nowNs : Z)
  | ActSendPacket (cb : Z) (fAlloc : bool) (rcQueue : Z) (fWritten : bool)
  | ActRecvReq (rcWait rcRecv : Z) (fWritten : bool)
  | ActTimerNew (slirpTimeCb cb_opaque : Z) (fAlloc : bool)
  | ActTimerFree (fuel : nat) (pTimer : ptr)
  | ActTimerMod (pTimer : ptr) (expireTime : Z).

Definition step (w : World) (a : Action) : option World :=
  match a with
  | ActPdmThreadState st => Some (upd (set_pSlirpThread st) w)
  | ActBeginXmit rcEnter => Some (drvNATNetworkUp_BeginXmit w rcEnter).2
  | ActAllocBuf cbMin pGso fSg fUser fSeg =>
      Some (drvNATNetworkUp_AllocBuf w cbMin pGso fSg fUser fSeg).2
  | ActFreeBuf pSgBuf => snd <$> drvNATNetworkUp_FreeBuf w pSgBuf
  | ActSendBuf pSgBuf rcQueue fWritten =>
      snd <$> drvNATNetworkUp_SendBuf w pSgBuf rcQueue fWritten
  | ActEndXmit => Some (drvNATNetworkUp_EndXmit w)
  | ActNotifyLinkChanged st rcQueue fWritten =>
      drvNATNetworkUp_NotifyLinkChanged w st rcQueue fWritten
  | ActRedirect fRemove fUdp pHostIp hp pGuestIp gp rcQueue fWritten =>
      snd <$> drvNATNetworkNatConfigRedirect w fRemove fUdp pHostIp hp pGuestIp gp
                rcQueue fWritten
  | ActAsyncIoWakeup fWritten => Some (drvNATNotifyNATThread w fWritten)
  | ActThreadEntry fdPipeRead fRealloc =>
      drvNATAsyncIoThread_entry w fdPipeRead fRealloc
  | ActRoundStart => Some (drvNATAsyncIoThread_round_start w)
  | ActAddPoll iFd iEvents fRealloc =>
      snd <$> drvNAT_AddPollCb RT_OS_POSIX w iFd iEvents fRealloc
  | ActDrain revents0 => Some (drvNATAsyncIoThread_drain w revents0)
  | ActSlirpReq =>
      match hSlirpReqQueue (this w) with
      | [] => Some w
      | r :: q => slirp_req (upd (set_hSlirpReqQueue q) w) r
      end
  | ActCheckTimeout fuel nowNs => drvNAT_CheckTimeout fuel w nowNs
  | ActSendPacket cb fAlloc rcQueue fWritten =>
      Some (drvNAT_SendPacketCb w cb fAlloc rcQueue fWritten).2
  | ActRecvReq rcWait rcRecv fWritten =>
      match hRecvReqQueue (this w) with
      | [] => Some w
      | ReqRecvWorker pBuf cb :: q =>
          Some (drvNATRecvWorker (upd (set_hRecvReqQueue q) w) pBuf cb rcWait rcRecv fWritten)
      | _ :: _ => None
      end
  | ActTimerNew slirpTimeCb cb_opaque fAlloc =>
      Some (drvNAT_TimerNewCb w slirpTimeCb cb_opaque fAlloc).2
  | ActTimerFree fuel pTimer => drvNAT_TimerFreeCb fuel w pTimer
  | ActTimerMod pTimer expireTime => drvNAT_TimerModCb w pTimer expireTime
  end.

Fixpoint run (w : World) (acts : list Action) : option World :=
  match acts with
  | [] => Some w
  | a :: acts' => w' ← step w a; run w' acts'
  end.

End Driver.

(** ** Vocabulary of the statements *)

(** The timers reachable from [p], in list order, each with its address. *)
Fixpoint tlist (h : gmap N Obj) (p : ptr) (l : list (ptr * SlirpTimer)) : Prop :=
  match l with
  | [] => p = NULL
  | (a, t) :: l' => p = a /\ a <> NULL /\ h !! a = Some (OTimer t) /\ tlist h (next t) l'
  end.

(** The IPv6 address [fd17:625c:f037:XXXX::last] whose subnet bytes are the
    second and third octet of [u]. *)
Definition in6_with_subnet (u last : Z) : list Z :=
  [0xfd; 0x17; 0x62; 0x5c; 0xf0; 0x37; octet 2 u; octet 3 u; 0; 0; 0; 0; 0; 0; 0; last].

(** Between [w] and [w'] the block at [p] was handed to [RTMemFree] exactly
    once, and it is gone. *)
Definition released_once (w w' : World) (p : ptr) : Prop :=
  exists l, freed w' = freed w ++ l /\ count_occ N.eq_dec l p = 1%nat /\
            heap w' !! p = None.

(** The buffer is released: its segment, its structure and, for a GSO
    frame, the copy of the descriptor, each exactly once. *)
Definition buffer_released (w w' : World) (pSgBuf : ptr) (sg : PDMSCATTERGATHER) : Prop :=
  released_once w w' (aSegs0_pvSeg sg) /\
  released_once w w' pSgBuf /\
  (pvUser sg <> NULL -> released_once w w' (pvUser sg)).

(** Nothing was handed to [RTMemFree] between [w] and [w']. *)
Definition nothing_released (w w' : World) : Prop := freed w' = freed w.

(** No live block at addresses the allocator has not handed out yet. *)
Definition heap_fresh (w : World) : Prop :=
  forall p, (brk w < p)%N -> heap w !! p = None.

(** An S/G buffer as [drvNATNetworkUp_AllocBuf] leaves it: an ordinary frame
    owns its segment through [pvAllocator], a GSO frame owns a segment and
    a copy of the descriptor. *)
Definition sg_ordinary (w : World) (pSgBuf : ptr) (sg : PDMSCATTERGATHER) : Prop :=
  load_sg w pSgBuf = Some sg /\ pSgBuf <> NULL /\
  pvAllocator sg = aSegs0_pvSeg sg /\ pvUser sg = NULL /\
  aSegs0_pvSeg sg <> NULL /\
  heap w !! aSegs0_pvSeg sg = Some (OMem (aSegs0_cbSeg sg)).

Definition sg_gso (w : World) (pSgBuf : ptr) (sg : PDMSCATTERGATHER) (g : PDMNETWORKGSO) : Prop :=
  load_sg w pSgBuf = Some sg /\ pSgBuf <> NULL /\
  pvAllocator sg = NULL /\ pvUser sg <> NULL /\
  aSegs0_pvSeg sg <> NULL /\
  heap w !! aSegs0_pvSeg sg = Some (OMem (aSegs0_cbSeg sg)) /\
  heap w !! pvUser sg = Some (OGso g).

(** Bytes written to and read from the wakeup channel according to the
    trace. *)
Definition written (tr : list Event) : Z :=
  fold_right (fun e n => match e with EvPipeWrite cb => cb + n | _ => n end) 0 tr.

Definition drained (tr : list Event) : Z :=
  fold_right (fun e n => match e with EvPipeRead _ cbRead => cbRead + n | _ => n end) 0 tr.


(** [w'] differs from [w] at most in the heap, the allocator, the free log
    and in trace entries that are not pipe traffic. *)
Definition same_obs (w w' : World) : Prop :=
  this w' = this w /\ hPipe w' = hPipe w /\
  written (trace w') = written (trace w) /\
  drained (trace w') = drained (trace w).

(** The wakeup counter, the pipe and the trace agree. *)
Definition wakeup_inv (w : World) : Prop :=
  hPipe w = written (trace w) - drained (trace w) /\
  0 <= hPipe w /\
  cbWakeupNotifs (this w) = wrap64 (hPipe w).

(** The packet counter counts the parked receive requests. *)
Definition pkts_inv (w : World) : Prop :=
  cPkts (this w) = wrap32 (Z.of_nat (length (hRecvReqQueue (this w)))).

(** What the wakeup invariant and the packet invariant look at. *)
Definition wk (w : World) : Z * Z * Z * Z :=
  (cbWakeupNotifs (this w), hPipe w, written (trace w), drained (trace w)).

Definition pk (w : World) : Z * list Req :=
  (cPkts (this w), hRecvReqQueue (this w)).

(** [w'] is [w] after something that leaves the wakeup channel alone,
    followed by at most one notification. *)
Definition notified (w w' : World) : Prop :=
  exists w0 f, wk w0 = wk w /\ w' = drvNATNotifyNATThread w0 f.

(** Three short runs: a redirect command without addresses, traffic on the
    wakeup channel, and two deliveries to the guest. *)
Definition acts_redirect : list Action :=
  [ActPdmThreadState PDMTHREADSTATE_RUNNING;
   ActRedirect false false None 2222 None 22 VERR_TIMEOUT true;
   ActSlirpReq].

Definition acts_wakeup : list Action :=
  [ActAsyncIoWakeup true; ActAsyncIoWakeup true; ActDrain (POLLRDNORM RT_OS_POSIX);
   ActAsyncIoWakeup true].


(** A constructed instance whose NAT thread is running, a TCP/IPv4 GSO
    descriptor (54 bytes of headers, segments of 1400 bytes), and the same
    instance with the link taken down. *)
Definition w_running : World :=
  upd (set_pSlirpThread PDMTHREADSTATE_RUNNING) (drvNATConstruct DRVNAT_zero []).

Definition gso_tcp4 : PDMNETWORKGSO :=
  {| u8Type := 1; cbHdrsTotal := 54; cbMaxSeg := 1400; offHdr1 := 14; offHdr2 := 34;
     cbHdrsSeg := 54; u8Unused := 0 |}.

Definition w_link_down : World :=
  drvNATNotifyLinkChangedWorker w_running PDMNETWORKLINKSTATE_DOWN.

(** A timer armed for millisecond 5; two timers of which the newer one,
    the head of the list, is freed; a delivery whose worker finds the
    device port timing out. *)
Definition acts_timer_past : list Action :=
  [ActTimerNew 7 0 true; ActTimerMod 1%N 5].

Definition acts_timer_free : list Action :=
  [ActTimerNew 7 0 true; ActTimerNew 8 0 true; ActTimerFree 5 2%N].

Definition acts_recv_timeout : list Action :=
  [ActPdmThreadState PDMTHREADSTATE_RUNNING;
   ActSendPacket 60 true VINF_SUCCESS true;
   ActRecvReq VERR_TIMEOUT VINF_SUCCESS true].

(** Stand-ins for the external functions, for concrete runs. *)
Definition X0 : Externals :=
  {| PDMNetGsoIsValid := fun _ _ => true;
     PDMNetGsoCalcSegmentCount := fun g cb => (cb - cbHdrsSeg g + cbMaxSeg g - 1) / cbMaxSeg g;
     PDMNetGsoCarveSegment := fun g cb iSeg cSegs_ => (0, cbHdrsTotal g, cbMaxSeg g);
     inet_aton := fun _ => None;
     RTMemAlloc_scratch := fun _ _ => true |}.

(** ** Further vocabulary *)

(** The status [drvNATNetworkUp_AllocBuf] answers with, read off its
    branches in order. *)
Definition alloc_status (fRunning : bool) (cbMin : Z) (pGso : option PDMNETWORKGSO)
    (fSg fUser fSeg : bool) : Z :=
  if negb fRunning then VERR_NET_DOWN
  else if negb fSg then VERR_NO_MEMORY
  else if match pGso with
          | None => DRVNAT_MAXFRAMESIZE <=? cbMin
          | Some g => DRVNAT_MAXFRAMESIZE <=? cbHdrsTotal g + cbMaxSeg g
          end
  then VERR_INVALID_PARAMETER
  else if match pGso with None => true | Some _ => fUser end && fSeg
  then VINF_SUCCESS
  else VERR_TRY_AGAIN.

(** The device writes [cbUsed] into a buffer it owns. *)
Definition sg_set_cbUsed (cb : Z) (sg : PDMSCATTERGATHER) : PDMSCATTERGATHER :=
  {| fFlags := fFlags sg; cbUsed := cb; cbAvailable := cbAvailable sg;
     pvAllocator := pvAllocator sg; pvUser := pvUser sg; cSegs := cSegs sg;
     aSegs0_pvSeg := aSegs0_pvSeg sg; aSegs0_cbSeg := aSegs0_cbSeg sg |}.

Definition device_fill (w : World) (pSgBuf : ptr) (cb : Z) : option World :=
  sg ← load_sg w pSgBuf; Some (store w pSgBuf (OSg (sg_set_cbUsed cb sg))).

(** The length handed to the engine for segment [iSeg] of a GSO frame:
    the [uint32_t] sum of payload and headers, as an [int]. *)
Definition gso_segment_len (X : Externals) (g : PDMNETWORKGSO) (cbFrame iSeg cSegs_ : Z) : Z :=
  let '(_, cbHdrs, cbPayload) := PDMNetGsoCarveSegment X g cbFrame iSeg cSegs_ in
  to_int32 (wrap32 (cbPayload + cbHdrs)).

(** The allocator delivers every scratch buffer the send worker asks for. *)
Definition scratch_ok (X : Externals) : Prop :=
  forall (b : N) (iSeg : Z), RTMemAlloc_scratch X b iSeg = true.

(** The lengths of the [slirp_input] calls in a trace, in order. *)
Definition input_lens (tr : list Event) : list Z :=
  fold_right (fun e acc => match e with EvSlirpInput _ cb => cb :: acc | _ => acc end) [] tr.

(** What [drvNATSendWorker] hands to the engine for a buffer [sg], as a
    list of lengths: nothing with the link not up, the used bytes of an
    ordinary frame as an [int], one entry per segment of a GSO frame whose
    descriptor [pGso] is valid. *)
Definition worker_inputs (X : Externals) (fLinkUp : bool) (sg : PDMSCATTERGATHER)
    (pGso : option PDMNETWORKGSO) : list Z :=
  if fLinkUp then
    if negb (is_null (pvAllocator sg)) then [to_int32 (cbUsed sg)]
    else
      match pGso with
      | Some g =>
          if PDMNetGsoIsValid X g (cbUsed sg) then
            let cSegs_ := PDMNetGsoCalcSegmentCount X g (cbUsed sg) in
            map (fun i => gso_segment_len X g (cbUsed sg) (Z.of_nat i) cSegs_)
                (seq 0 (Z.to_nat cSegs_))
          else []
      | None => []
      end
  else [].

(** What the engine is handed for a frame of [cb] used bytes, ordinary
    ([pGso = None]) or GSO. *)
Definition frame_inputs (X : Externals) (fLinkUp : bool) (pGso : option PDMNETWORKGSO)
    (cb : Z) : list Z :=
  if fLinkUp then
    match pGso with
    | None => [to_int32 cb]
    | Some g =>
        if PDMNetGsoIsValid X g cb then
          let cSegs_ := PDMNetGsoCalcSegmentCount X g cb in
          map (fun i => gso_segment_len X g cb (Z.of_nat i) cSegs_) (seq 0 (Z.to_nat cSegs_))
        else []
    end
  else [].

(** The addresses of the timers of a list. *)
Definition addrs (l : list (ptr * SlirpTimer)) : list ptr := map fst l.

(** The test of [drvNAT_CheckTimeout] on one timer: armed, and the signed
    difference to the current time not positive. *)
Definition due (currTime : Z) (t : SlirpTimer) : bool :=
  negb (uTimeExpire t =? 0) && (to_int64 (uTimeExpire t - currTime) <=? 0).

(** The handler calls of the due timers of a list, in list order, and the
    list with those timers disarmed. *)
Definition fired (currTime : Z) (l : list (ptr * SlirpTimer)) : list Event :=
  map (fun at_ => EvTimerHandler (pHandler at_.2) (opaque at_.2))
      (List.filter (fun at_ => due currTime at_.2) l).

Definition disarm_due (currTime : Z) (l : list (ptr * SlirpTimer))
    : list (ptr * SlirpTimer) :=
  map (fun at_ => if due currTime at_.2 then (at_.1, timer_set_expire 0 at_.2) else at_) l.

(** The list with the expiry of the timer at [a] replaced. *)
Definition set_expire_at (a : ptr) (e : Z) (l : list (ptr * SlirpTimer))
    : list (ptr * SlirpTimer) :=
  map (fun at_ => if (at_.1 =? a)%N then (at_.1, timer_set_expire e at_.2) else at_) l.

(** A timer is armed. *)
Definition armed (t : SlirpTimer) : bool := negb (uTimeExpire t =? 0).

(** The poll set is within its capacity: the array has [uPollCap] entries
    and [nsock] of them, fewer than the capacity, are in use. *)
Definition polls_wf (st : SlirpState) : Prop :=
  0 <= nsock st < uPollCap st /\ Z.of_nat (length (polls st)) = uPollCap st.

(** What [drvNAT_AddPollCb] stores for a descriptor and its engine events. *)
Definition poll_entry (os : HostOS) (fe : Z * Z) : pollfd :=
  {| fd := fe.1; events := drvNAT_PollEventSlirpToHost os fe.2; revents := 0 |}.

(** Calls of [drvNAT_AddPollCb], one for each descriptor of [fds], whose
    reallocations succeed. *)
Fixpoint add_polls (os : HostOS) (w : World) (fds : list (Z * Z)) : option World :=
  match fds with
  | [] => Some w
  | fe :: fds' =>
      '(_, w) ← drvNAT_AddPollCb os w fe.1 fe.2 true;
      add_polls os w fds'
  end.

(** The entries of the poll set that are in use: what [poll] is handed. *)
Definition polls_in_use (st : SlirpState) : list pollfd :=
  take (Z.to_nat (nsock st)) (polls st).

(** What [drvNATNotifyLinkChangedWorker] writes to the release log. *)
Definition link_log (st : PDMNETWORKLINKSTATE) : list Event :=
  match st with
  | PDMNETWORKLINKSTATE_UP => [EvLogRel true]
  | PDMNETWORKLINKSTATE_DOWN | PDMNETWORKLINKSTATE_DOWN_RESUME => [EvLogRel false]
  | PDMNETWORKLINKSTATE_INVALID => []
  end.

(** The lengths of the packets handed to the device according to the
    trace, and the packets parked on a receive queue, both oldest first. *)
Definition recv_lens (tr : list Event) : list Z :=
  fold_right (fun e acc => match e with EvReceive _ cb _ => cb :: acc | _ => acc end) [] tr.

Definition parked_pkts (q : list Req) : list (ptr * Z) :=
  fold_right (fun r acc => match r with ReqRecvWorker p cb => (p, cb) :: acc | _ => acc end)
             [] q.

(** Traffic towards the guest in which nothing is refused: the copy of a
    packet can be allocated and parked, and the device takes what the
    receive thread offers. *)
Definition rx_action (a : Action) : Prop :=
  match a with
  | ActSendPacket _ fAlloc rcQueue _ => fAlloc = true /\ RT_SUCCESS rcQueue = true
  | ActRecvReq rcWait _ _ => RT_SUCCESS rcWait = true
  | _ => False
  end.

(** The lengths of the packets the engine puts out in [acts]. *)
Definition emitted (acts : list Action) : list Z :=
  fold_right (fun a acc => match a with ActSendPacket cb _ _ _ => cb :: acc | _ => acc end)
             [] acts.

(** The receive queue holds only receive requests, each with a live copy
    of its own, and the heap is [h0] plus these copies. *)
Definition rx_inv (h0 : gmap N Obj) (w : World) : Prop :=
  is_RUNNING (pSlirpThread (this w)) = true /\
  heap_fresh w /\
  Forall (fun r => match r with ReqRecvWorker _ _ => True | _ => False end)
         (hRecvReqQueue (this w)) /\
  List.NoDup (map fst (parked_pkts (hRecvReqQueue (this w)))) /\
  (forall p cb, In (p, cb) (parked_pkts (hRecvReqQueue (this w))) ->
     p <> NULL /\ heap w !! p = Some (OMem cb) /\ h0 !! p = None) /\
  (forall q, ~ In q (map fst (parked_pkts (hRecvReqQueue (this w)))) ->
     heap w !! q = h0 !! q).

(** The engine call of [drvNATNotifyApplyPortForwardCommand] for a command,
    given the guest address of the instance. *)
Definition fwd_call (X : Externals) (GuestIP_ : Z) (fRemove fUdp : bool)
    (pHostIp : option (list Z)) (u16HostPort : Z)
    (pGuestIp : option (list Z)) (u16GuestPort : Z) : Event :=
  let hostIp := default INADDR_ANY (pHostIp ≫= inet_aton X) in
  let guestIp := default GuestIP_ (pGuestIp ≫= inet_aton X) in
  if fRemove then EvRemoveHostFwd fUdp hostIp u16HostPort
  else EvAddHostFwd fUdp hostIp u16HostPort guestIp u16GuestPort.

(** Lines 752-765 of [drvNATAsyncIoThread]: what becomes of the result of
    [poll] and of the counter [cPollNegRet]; [fEINTR] tells whether [errno]
    is [EINTR].  The third component is the count that goes to the release
    log, when a line is written. *)
Definition drvNATAsyncIoThread_poll_result (cChangedFDs : Z) (fEINTR : bool)
    (cPollNegRet : Z) : Z * Z * option Z :=
  if cChangedFDs <? 0 then
    if fEINTR then (0, cPollNegRet, None)
    else
      let old := cPollNegRet in
      let cPollNegRet := wrap32 (cPollNegRet + 1) in
      if 128 <? old then (cChangedFDs, 0, Some cPollNegRet)
      else (cChangedFDs, cPollNegRet, None)
  else (cChangedFDs, cPollNegRet, None).

(** The counter and the logged counts over the rounds of the polling loop
    whose [poll] results and [errno] tests are [outs]. *)
Definition poll_rounds (outs : list (Z * bool)) (cPollNegRet : Z) : Z * list Z :=
  fold_left (fun '(c, logs) '(cChangedFDs, fEINTR) =>
               let '(_, c', l) := drvNATAsyncIoThread_poll_result cChangedFDs fEINTR c in
               (c', logs ++ match l with Some n => [n] | None => [] end))
            outs (cPollNegRet, []).

(** The rounds in which [poll] failed with something other than [EINTR]. *)
Definition hard_failures (outs : list (Z * bool)) : Z :=
  Z.of_nat (length (List.filter (fun '(cChangedFDs, fEINTR) =>
                                   (cChangedFDs <? 0) && negb fEINTR) outs)).

(** [k] rounds of the polling loop in each of which the wakeup pipe is
    readable. *)
Definition drain_rounds (k : nat) (w : World) (revents0 : Z) : World :=
  Nat.iter k (fun w => drvNATAsyncIoThread_drain w revents0) w.

(** * Properties *)

(** ** Bit-level facts *)

Lemma testbit_0xff (n : Z) : 0 <= n -> Z.testbit 0xff n = (n <? 8).
Proof.
  intros Hn. change 0xff with (Z.ones 8).
  rewrite Z.testbit_ones_nonneg by lia. reflexivity.
Qed.

(** Bit [n] of [(u >> k) & 0xff]. *)
Lemma testbit_byte (u k n : Z) :
  0 <= k -> 0 <= n ->
  Z.testbit (Z.land (Z.shiftr u k) 0xff) n = Z.testbit u (n + k) && (n <? 8).
Proof.
  intros Hk Hn. rewrite Z.land_spec, Z.shiftr_spec, testbit_0xff by lia. reflexivity.
Qed.

(** Bit [n] of [((u >> k) & 0xff) << j]. *)
Lemma testbit_byte_shl (u k j n : Z) :
  0 <= k -> 0 <= j -> 0 <= n ->
  Z.testbit (Z.shiftl (Z.land (Z.shiftr u k) 0xff) j) n
  = Z.testbit u (n - j + k) && (n - j <? 8) && (j <=? n).
Proof.
  intros Hk Hj Hn. rewrite Z.shiftl_spec by lia.
  destruct (Z.leb_spec j n).
  - rewrite testbit_byte by lia. rewrite andb_true_r. reflexivity.
  - rewrite Z.testbit_neg_r by lia. rewrite andb_false_r. reflexivity.
Qed.

Lemma testbit_H2N (u n : Z) :
  0 <= n ->
  Z.testbit (RT_H2N_U32 u) n =
    (Z.testbit u (n - 24) && (n - 24 <? 8) && (24 <=? n))
    || (Z.testbit u (n - 16 + 8) && (n - 16 <? 8) && (16 <=? n))
    || (Z.testbit u (n - 8 + 16) && (n - 8 <? 8) && (8 <=? n))
    || (Z.testbit u (n + 24) && (n <? 8)).
Proof.
  intros Hn. unfold RT_H2N_U32.
  rewrite !Z.lor_spec.
  replace (Z.land u 0xff) with (Z.land (Z.shiftr u 0) 0xff) by (rewrite Z.shiftr_0_r; reflexivity).
  rewrite !testbit_byte_shl, testbit_byte by lia.
  replace (n - 24 + 0) with (n - 24) by lia.
  rewrite !orb_assoc. reflexivity.
Qed.

Ltac byte_cases n :=
  repeat match goal with
  | |- context [?a <? ?b] => destruct (Z.ltb_spec a b)
  | |- context [?a <=? ?b] => destruct (Z.leb_spec a b)
  end;
  rewrite ?andb_true_r, ?andb_false_r, ?orb_false_r, ?orb_false_l;
  try reflexivity; try lia; try (f_equal; lia).

(** In memory order the bytes of [s_addr] are the octets of the dotted
    form. *)
Lemma RT_BYTE1_H2N (u : Z) : RT_BYTE1 (RT_H2N_U32 u) = octet 1 u.
Proof.
  unfold RT_BYTE1, octet. apply Z.bits_inj'. intros n Hn.
  rewrite Z.land_spec, testbit_0xff, testbit_H2N, testbit_byte by lia.
  byte_cases n.
Qed.

Lemma RT_BYTE2_H2N (u : Z) : RT_BYTE2 (RT_H2N_U32 u) = octet 2 u.
Proof.
  unfold RT_BYTE2, octet. apply Z.bits_inj'. intros n Hn.
  rewrite Z.land_spec, Z.shiftr_spec, testbit_0xff, testbit_H2N, testbit_byte by lia.
  byte_cases n.
Qed.

Lemma RT_BYTE3_H2N (u : Z) : RT_BYTE3 (RT_H2N_U32 u) = octet 3 u.
Proof.
  unfold RT_BYTE3, octet. apply Z.bits_inj'. intros n Hn.
  rewrite Z.land_spec, Z.shiftr_spec, testbit_0xff, testbit_H2N, testbit_byte by lia.
  byte_cases n.
Qed.

Lemma RT_BYTE4_H2N (u : Z) : RT_BYTE4 (RT_H2N_U32 u) = octet 4 u.
Proof.
  unfold RT_BYTE4, octet. apply Z.bits_inj'. intros n Hn.
  rewrite Z.land_spec, Z.shiftr_spec, testbit_0xff, testbit_H2N, testbit_byte by lia.
  byte_cases n.
Qed.

(** Or-ing a host number below 256 into the network leaves the first
    three octets alone. *)
Lemma octet_lor_low (k u m : Z) :
  1 <= k <= 3 -> 0 <= m < 256 -> octet k (Z.lor u m) = octet k u.
Proof.
  intros Hk Hm. unfold octet. apply Z.bits_inj'. intros n Hn.
  rewrite !testbit_byte by lia. rewrite Z.lor_spec.
  assert (Hz : Z.testbit m (n + 8 * (4 - k)) = false).
  { destruct (Z.eq_dec m 0) as [->|Hm0]; [apply Z.bits_0|].
    apply Z.bits_above_log2; [lia|].
    assert (Z.log2 m < 8) by (apply Z.log2_lt_pow2; lia). lia. }
  rewrite Hz, orb_false_r. reflexivity.
Qed.

Lemma octet4_lor (u m : Z) :
  0 <= m < 256 -> octet 4 (Z.lor u m) = Z.lor (octet 4 u) m.
Proof.
  intros Hm. unfold octet. apply Z.bits_inj'. intros n Hn.
  rewrite Z.lor_spec, !testbit_byte, Z.lor_spec by lia.
  replace (n + 8 * (4 - 4)) with n by lia.
  destruct (Z.ltb_spec n 8).
  - rewrite !andb_true_r. reflexivity.
  - rewrite !andb_false_r. simpl. symmetry.
    destruct (Z.eq_dec m 0) as [->|Hm0]; [apply Z.bits_0|].
    apply Z.bits_above_log2; [lia|].
    assert (Z.log2 m < 8) by (apply Z.log2_lt_pow2; lia). lia.
Qed.

(** ** Poll flags *)

Lemma slirp_flags_cases (e : Z) :
  slirp_flags e -> In e (map Z.of_nat (seq 0 32)).
Proof.
  unfold slirp_flags. intros H.
  replace e with (Z.of_nat (Z.to_nat e)) by lia.
  apply in_map, in_seq. lia.
Qed.

Ltac each_flag_value H :=
  apply slirp_flags_cases in H; simpl in H;
  repeat (destruct H as [<-|H]; [vm_compute; try reflexivity|]);
  try contradiction.

(** C7. On a POSIX host the engine flags survive the translation to host
    flags and back, for every combination of IN, OUT, PRI, ERR and HUP.  On
    a Windows host the round trip keeps every combination of IN and OUT,
    turns PRI into IN and turns ERR and HUP into no flag at all. *)
Theorem poll_flags_roundtrip :
  (forall e, slirp_flags e -> poll_roundtrip RT_OS_POSIX e = e) /\
  (forall e, slirp_flags e -> Z.land e (Z.lor SLIRP_POLL_IN SLIRP_POLL_OUT) = e ->
             poll_roundtrip RT_OS_WINDOWS e = e) /\
  poll_roundtrip RT_OS_WINDOWS SLIRP_POLL_PRI = SLIRP_POLL_IN /\
  poll_roundtrip RT_OS_WINDOWS SLIRP_POLL_ERR = 0 /\
  poll_roundtrip RT_OS_WINDOWS SLIRP_POLL_HUP = 0.
Proof.
  split; [|split; [|repeat split]].
  - intros e H. each_flag_value H.
  - intros e H. apply slirp_flags_cases in H; simpl in H.
    repeat (destruct H as [<-|H]; [vm_compute; intros Hm; try reflexivity; discriminate Hm|]).
    contradiction.
Qed.

Lemma poll_flags_roundtrip_witness :
  poll_roundtrip RT_OS_POSIX 31 = 31 /\ poll_roundtrip RT_OS_WINDOWS 3 = 3.
Proof.
  destruct poll_flags_roundtrip as (Hp & Hw & _).
  split.
  - apply Hp. unfold slirp_flags. lia.
  - apply Hw; [unfold slirp_flags; lia | reflexivity].
Defined.

(** On a Windows host the round trip of any combination is IN when IN or
    PRI was asked for, together with OUT when OUT was asked for. *)
Lemma poll_roundtrip_windows (e : Z) :
  slirp_flags e ->
  poll_roundtrip RT_OS_WINDOWS e =
    Z.lor (if tst e SLIRP_POLL_IN || tst e SLIRP_POLL_PRI then SLIRP_POLL_IN else 0)
          (if tst e SLIRP_POLL_OUT then SLIRP_POLL_OUT else 0).
Proof.
  intros H. each_flag_value H.
Qed.

(** ** Addressing *)

(** C9, as the spec words it, does not hold: for the network 10.0.2.0/24 the
    IPv6 prefix handed to the engine is fd17:625c:f037:2::, not the fixed
    fd17:625c:f037:0::. *)
Lemma ipv6_prefix_not_fixed :
  ~ (forall Network Netmask MTU,
       0 <= Network < 2 ^ 32 ->
       vprefix_addr6 (drvNATConstruct_slirpCfg Network Netmask MTU)
       = in6_fd17_625c_f037_0 0).
Proof.
  intros H. specialize (H net_10_0_2_0 0xffffff00 1500).
  assert (Hr : 0 <= net_10_0_2_0 < 2 ^ 32) by (unfold net_10_0_2_0; lia).
  specialize (H Hr). vm_compute in H. discriminate H.
Qed.

(** C9, amended.  For every network address the engine configuration has
    vhost = Network | 2, vdhcp_start = Network | 15 and
    vnameserver = Network | 3, which in dotted form are A.B.C.(D|2),
    A.B.C.(D|15) and A.B.C.(D|3); the IPv6 prefix has length 64 and is
    fd17:625c:f037:XXXX:: where XXXX, bytes 6-7, are bytes 2-3 of vhost;
    the IPv6 host and name server addresses are that prefix with last byte 2
    and 3, and their bytes 6-7 are bytes 2-3 of vhost and of vnameserver. *)
Theorem addressing_from_network (Network Netmask MTU : Z) :
  0 <= Network < 2 ^ 32 ->
  let c := drvNATConstruct_slirpCfg Network Netmask MTU in
  vhost c = RTNetIPv4AddrHEToInAddr (Z.lor Network 2) /\
  vdhcp_start c = RTNetIPv4AddrHEToInAddr (Z.lor Network 15) /\
  vnameserver c = RTNetIPv4AddrHEToInAddr (Z.lor Network 3) /\
  (forall a m, (a, m) ∈ [(vhost c, 2); (vdhcp_start c, 15); (vnameserver c, 3)] ->
     RT_BYTE1 a = octet 1 Network /\ RT_BYTE2 a = octet 2 Network /\
     RT_BYTE3 a = octet 3 Network /\ RT_BYTE4 a = Z.lor (octet 4 Network) m) /\
  vprefix_len c = 64 /\
  vprefix_addr6 c = in6_with_subnet Network 0 /\
  vhost6 c = in6_with_subnet Network 2 /\
  vnameserver6 c = in6_with_subnet Network 3 /\
  vprefix_addr6 c !! 6%nat = Some (RT_BYTE2 (vhost c)) /\
  vprefix_addr6 c !! 7%nat = Some (RT_BYTE3 (vhost c)) /\
  vhost6 c !! 6%nat = Some (RT_BYTE2 (vhost c)) /\
  vhost6 c !! 7%nat = Some (RT_BYTE3 (vhost c)) /\
  vnameserver6 c !! 6%nat = Some (RT_BYTE2 (vnameserver c)) /\
  vnameserver6 c !! 7%nat = Some (RT_BYTE3 (vnameserver c)).
Proof.
  intros HN c.
  assert (Hb : forall m, 0 <= m < 256 ->
            let a := RTNetIPv4AddrHEToInAddr (Z.lor Network m) in
            RT_BYTE1 a = octet 1 Network /\ RT_BYTE2 a = octet 2 Network /\
            RT_BYTE3 a = octet 3 Network /\ RT_BYTE4 a = Z.lor (octet 4 Network) m).
  { intros m Hm a. unfold a, RTNetIPv4AddrHEToInAddr.
    rewrite RT_BYTE1_H2N, RT_BYTE2_H2N, RT_BYTE3_H2N, RT_BYTE4_H2N.
    rewrite !octet_lor_low, octet4_lor by lia. auto. }
  pose proof (Hb 2 ltac:(lia)) as (_ & H22 & H23 & _).
  pose proof (Hb 3 ltac:(lia)) as (_ & H32 & H33 & _).
  cbv zeta in Hb.
  split; [reflexivity|]. split; [reflexivity|]. split; [reflexivity|].
  split.
  { intros a m Hin. rewrite !elem_of_cons, elem_of_nil in Hin.
    destruct Hin as [Hin|[Hin|[Hin|[]]]]; inversion Hin; subst a m;
      apply Hb; lia. }
  split; [reflexivity|].
  unfold c, drvNATConstruct_slirpCfg, in6_with_subnet, in6_fd17_625c_f037_0; cbn [vprefix_addr6 vhost6 vnameserver6 vhost vnameserver].
  fold (RTNetIPv4AddrHEToInAddr (Z.lor Network 2)) in *.
  unfold RTNetIPv4AddrHEToInAddr in *.
  cbn [list_insert insert]. 
  rewrite H22, H23, H32, H33.
  repeat split; reflexivity.
Qed.

Lemma addressing_from_network_witness :
  vhost6 (drvNATConstruct_slirpCfg net_10_0_2_0 0xffffff00 1500)
  = in6_with_subnet net_10_0_2_0 2.
Proof.
  assert (Hr : 0 <= net_10_0_2_0 < 2 ^ 32) by (unfold net_10_0_2_0; lia).
  pose proof (addressing_from_network net_10_0_2_0 0xffffff00 1500 Hr) as H.
  cbv zeta in H. destruct H as (_ & _ & _ & _ & _ & _ & H & _). exact H.
Defined.

(** ** The timer list *)

Section Timers.

Lemma UpdateTimeout_loop_tlist (h : gmap N Obj) (c : Z) (l : list (ptr * SlirpTimer)) :
  forall (fuel : nat) (p : ptr) (u : Z),
    tlist h p l -> (length l <= fuel)%nat ->
    drvNAT_UpdateTimeout_loop fuel h c p u
    = Some (fold_left (fun u at_ => drvNAT_UpdateTimeout_body c at_.2 u) l u).
Proof.
  induction l as [|[a t] l IH]; intros fuel p u Hl Hf; simpl in Hl.
  - subst p. destruct fuel; reflexivity.
  - destruct Hl as (-> & Ha & Hh & Hl). simpl in Hf.
    destruct fuel as [|fuel]; [lia|]. simpl.
    destruct (N.eqb_spec a 0) as [E|_]; [contradiction|].
    unfold is_null. destruct (N.eqb_spec a 0) as [E|_]; [contradiction|].
    unfold load_timer. rewrite Hh. simpl.
    apply IH; [assumption|lia].
Qed.

(** What one armed timer does to the timeout when its expiry is not in the
    past: the timeout becomes the smaller of itself and the time left. *)
Lemma UpdateTimeout_body_future (c u : Z) (t : SlirpTimer) :
  0 <= c <= uTimeExpire t -> uTimeExpire t < 2 ^ 32 -> uTimeExpire t <> 0 ->
  drvNAT_UpdateTimeout_body c t u = Z.min u (uTimeExpire t - c).
Proof.
  intros Hc He Hne. unfold drvNAT_UpdateTimeout_body.
  destruct (Z.eqb_spec (uTimeExpire t) 0) as [E|_]; [contradiction|]. simpl.
  assert (Hd : to_int64 (wrap32 (uTimeExpire t - c)) = uTimeExpire t - c).
  { unfold to_int64, wrap32, wrap64.
    rewrite (Z.mod_small (uTimeExpire t - c)) by lia.
    rewrite Z.mod_small by lia.
    destruct (Z.ltb_spec (uTimeExpire t - c) (2 ^ 63)); lia. }
  rewrite Hd.
  destruct (Z.ltb_spec (uTimeExpire t - c) 0); [lia|].
  destruct (Z.ltb_spec (uTimeExpire t - c) u).
  - unfold wrap32. rewrite Z.mod_small by lia. lia.
  - lia.
Qed.

(** What one armed timer does to the timeout when its expiry is in the
    past: the unsigned difference wraps to a large value and the timeout
    stays as it was. *)
Lemma UpdateTimeout_body_past (c u : Z) (t : SlirpTimer) :
  0 < uTimeExpire t < c -> c < 2 ^ 32 -> u <= 2 ^ 32 - (c - uTimeExpire t) ->
  drvNAT_UpdateTimeout_body c t u = u.
Proof.
  intros He Hc Hu. unfold drvNAT_UpdateTimeout_body.
  destruct (Z.eqb_spec (uTimeExpire t) 0) as [E|_]; [lia|]. simpl.
  assert (Hd : to_int64 (wrap32 (uTimeExpire t - c)) = uTimeExpire t - c + 2 ^ 32).
  { unfold to_int64, wrap32, wrap64.
    replace ((uTimeExpire t - c) mod 2 ^ 32) with (uTimeExpire t - c + 2 ^ 32).
    - rewrite Z.mod_small by lia.
      destruct (Z.ltb_spec (uTimeExpire t - c + 2 ^ 32) (2 ^ 63)); lia.
    - apply Z.mod_unique with (q := -1); lia. }
  rewrite Hd.
  destruct (Z.ltb_spec (uTimeExpire t - c + 2 ^ 32) 0); [lia|].
  destruct (Z.ltb_spec (uTimeExpire t - c + 2 ^ 32) u); [lia|reflexivity].
Qed.

(** [drvNAT_TimerFreeCb] writes nothing but the [RTMemFree] of the timer:
    the instance data, and with it [pTimerHead], and every other block,
    and with them every [next] field, are as before. *)
Lemma TimerFreeCb_loop_frame (pTimer : ptr) :
  forall (fuel : nat) (w : World) (pCurrent : ptr) (w' : World),
    drvNAT_TimerFreeCb_loop fuel w pTimer pCurrent = Some w' ->
    this w' = this w /\
    (forall q, q <> pTimer -> heap w' !! q = heap w !! q).
Proof.
  induction fuel as [|fuel IH]; intros w pCurrent w' H; simpl in H.
  - destruct (is_null pCurrent); [|discriminate]. inversion H; subst. auto.
  - destruct (is_null pCurrent) eqn:Hn; [inversion H; subst; auto|].
    destruct (N.eqb_spec pCurrent pTimer) as [->|Hne].
    + destruct (load_timer (heap w) pTimer) as [t|]; [|discriminate]. simpl in H.
      apply IH in H. destruct H as (Ht & Hh). split.
      * rewrite Ht. unfold RTMemFree. rewrite Hn. reflexivity.
      * intros q Hq. rewrite Hh by assumption.
        unfold RTMemFree. rewrite Hn. simpl. apply lookup_delete_ne. congruence.
    + destruct (load_timer (heap w) pCurrent) as [t|]; [|discriminate]. simpl in H.
      apply IH in H. exact H.
Qed.

End Timers.

(** ** Frames *)

Lemma written_app (tr : list Event) (e : Event) :
  written (tr ++ [e]) = written tr + match e with EvPipeWrite cb => cb | _ => 0 end.
Proof.
  induction tr as [|e' tr IH]; simpl.
  - destruct e; lia.
  - rewrite IH. destruct e'; lia.
Qed.

Lemma drained_app (tr : list Event) (e : Event) :
  drained (tr ++ [e]) = drained tr + match e with EvPipeRead _ cb => cb | _ => 0 end.
Proof.
  induction tr as [|e' tr IH]; simpl.
  - destruct e; lia.
  - rewrite IH. destruct e'; lia.
Qed.

Lemma is_null_succ (n : N) : is_null (N.succ n) = false.
Proof. unfold is_null. apply N.eqb_neq. lia. Qed.

Lemma is_null_false (p : ptr) : p <> NULL -> is_null p = false.
Proof. intros H. unfold is_null. apply N.eqb_neq. exact H. Qed.

Lemma same_obs_refl (w : World) : same_obs w w.
Proof. repeat split. Qed.

Lemma same_obs_trans (w1 w2 w3 : World) :
  same_obs w1 w2 -> same_obs w2 w3 -> same_obs w1 w3.
Proof.
  intros (A1 & A2 & A3 & A4) (B1 & B2 & B3 & B4).
  repeat split; congruence.
Qed.

Lemma same_obs_RTMemFree (w : World) (p : ptr) : same_obs w (RTMemFree w p).
Proof. unfold RTMemFree. destruct (is_null p); repeat split. Qed.

Lemma same_obs_store (w : World) (p : ptr) (o : Obj) : same_obs w (store w p o).
Proof. repeat split. Qed.

Lemma same_obs_RTMemAlloc (w : World) (f : bool) (o : Obj) :
  same_obs w (RTMemAlloc w f o).2.
Proof. unfold RTMemAlloc. destruct f; repeat split. Qed.

Lemma same_obs_emit (w : World) (e : Event) :
  match e with EvPipeWrite _ | EvPipeRead _ _ => False | _ => True end ->
  same_obs w (emit e w).
Proof.
  intros He. unfold same_obs; simpl. rewrite written_app, drained_app.
  destruct e; try contradiction; repeat split; lia.
Qed.

Lemma same_obs_FreeSgBuf (w : World) (p : ptr) (w' : World) :
  drvNATFreeSgBuf w p = Some w' -> same_obs w w'.
Proof.
  unfold drvNATFreeSgBuf. destruct (load_sg w p) as [sg|]; [|discriminate].
  simpl. intros H. inversion H; subst; clear H.
  eapply same_obs_trans; [|apply same_obs_RTMemFree].
  destruct (negb (is_null (pvAllocator sg))).
  - eapply same_obs_trans; [apply same_obs_store|apply same_obs_RTMemFree].
  - destruct (negb (is_null (pvUser sg))).
    + eapply same_obs_trans; [apply same_obs_store|].
      eapply same_obs_trans; [apply same_obs_RTMemFree|].
      eapply same_obs_trans; [apply same_obs_RTMemFree|].
      apply same_obs_store.
    + apply same_obs_store.
Qed.

Section Frames.

Variable X : Externals.

Lemma same_obs_segments (n : nat) :
  forall (iSeg cSegs_ : Z) (g : PDMNETWORKGSO) (cbFrame : Z) (w w' : World),
    drvNATSendWorker_segments X n iSeg cSegs_ g cbFrame w = Some w' -> same_obs w w'.
Proof.
  induction n as [|n IH]; intros iSeg cSegs_ g cbFrame w w' H; simpl in H.
  - injection H as <-. apply same_obs_refl.
  - unfold RTMemAlloc in H.
    destruct (RTMemAlloc_scratch X (brk w) iSeg); [|discriminate H].
    rewrite is_null_succ in H.
    destruct (PDMNetGsoCarveSegment X g cbFrame iSeg cSegs_) as [[off cbHdrs] cbPayload].
    apply IH in H.
    eapply same_obs_trans; [|exact H].
    eapply same_obs_trans; [|apply same_obs_RTMemFree].
    eapply same_obs_trans; [|apply same_obs_emit; exact I].
    repeat split.
Qed.

Lemma same_obs_SendWorker (w : World) (p : ptr) (w' : World) :
  drvNATSendWorker X w p = Some w' -> same_obs w w'.
Proof.
  unfold drvNATSendWorker. destruct (load_sg w p) as [sg|]; [|discriminate]. simpl.
  destruct (is_UP (enmLinkState (this w))).
  - destruct (negb (is_null (pvAllocator sg))); simpl.
    + intros H. apply same_obs_FreeSgBuf in H.
      eapply same_obs_trans; [|exact H]. apply same_obs_emit. exact I.
    + destruct (load_gso w (pvUser sg)) as [g|]; [|discriminate]. simpl.
      destruct (PDMNetGsoIsValid X g (cbUsed sg)); simpl.
      * destruct (drvNATSendWorker_segments X _ 0 _ g (cbUsed sg) w) as [w1|] eqn:Es;
          [|discriminate].
        simpl. intros H. apply same_obs_FreeSgBuf in H.
        eapply same_obs_trans; [eapply same_obs_segments; exact Es|exact H].
      * intros H. apply same_obs_FreeSgBuf in H. exact H.
  - simpl. apply same_obs_FreeSgBuf.
Qed.

Lemma same_obs_CheckTimeout_loop (c : Z) :
  forall (fuel : nat) (w : World) (p : ptr) (w' : World),
    drvNAT_CheckTimeout_loop fuel w c p = Some w' -> same_obs w w'.
Proof.
  induction fuel as [|fuel IH]; intros w p w' H; simpl in H.
  - destruct (is_null p); [|discriminate]. inversion H; subst. apply same_obs_refl.
  - destruct (is_null p); [inversion H; subst; apply same_obs_refl|].
    destruct (load_timer (heap w) p) as [t|]; [|discriminate]. simpl in H.
    match type of H with context [load_timer (heap ?w1) p] =>
      assert (Hs : same_obs w w1); [|destruct (load_timer (heap w1) p) as [t'|]; [|discriminate]] end.
    { destruct (negb (uTimeExpire t =? 0)); [|apply same_obs_refl].
      destruct (to_int64 (uTimeExpire t - c) <=? 0); [|apply same_obs_refl].
      eapply same_obs_trans; [apply same_obs_store|apply same_obs_emit; exact I]. }
    simpl in H. apply IH in H. eapply same_obs_trans; eassumption.
Qed.

Lemma same_obs_TimerFreeCb_loop (pTimer : ptr) :
  forall (fuel : nat) (w : World) (p : ptr) (w' : World),
    drvNAT_TimerFreeCb_loop fuel w pTimer p = Some w' -> same_obs w w'.
Proof.
  induction fuel as [|fuel IH]; intros w p w' H; simpl in H.
  - destruct (is_null p); [|discriminate]. inversion H; subst. apply same_obs_refl.
  - destruct (is_null p); [inversion H; subst; apply same_obs_refl|].
    destruct (p =? pTimer)%N;
      (destruct (load_timer (heap w) p) as [t|]; [|discriminate]); simpl in H;
      apply IH in H.
    + eapply same_obs_trans; [apply same_obs_RTMemFree|exact H].
    + exact H.
Qed.

Lemma same_obs_TimerModCb (w : World) (p : ptr) (e : Z) (w' : World) :
  drvNAT_TimerModCb w p e = Some w' -> same_obs w w'.
Proof.
  unfold drvNAT_TimerModCb. destruct (load_timer (heap w) p); [|discriminate].
  simpl. intros H. inversion H; subst. apply same_obs_store.
Qed.

End Frames.

(** ** Invariants of runs *)

Ltac split_cases :=
  repeat (simpl;
          match goal with
          | |- context [if ?b then _ else _] => destruct b
          | |- context [match ?x with Some _ => _ | None => _ end] => destruct x
          | |- context [let '(_, _) := ?x in _] => destruct x
          | |- context [match ?x with PDMTHREADSTATE_INVALID => _ | _ => _ end] => destruct x
          | |- context [match ?x with PDMNETWORKLINKSTATE_INVALID => _ | _ => _ end] => destruct x
          end);
  simpl.

Section Invariants.

Variable X : Externals.

Lemma run_invariant (P : World -> Prop) (Q : Action -> Prop) :
  (forall w a w', P w -> Q a -> step X w a = Some w' -> P w') ->
  forall acts w w', P w -> Forall Q acts -> run X w acts = Some w' -> P w'.
Proof.
  intros Hstep. induction acts as [|a acts IH]; intros w w' HP HQ Hrun; simpl in Hrun.
  - inversion Hrun; subst. exact HP.
  - destruct (step X w a) as [w1|] eqn:Hs; [|discriminate]. simpl in Hrun.
    inversion HQ; subst. eapply IH; [|eassumption|exact Hrun].
    eapply Hstep; eassumption.
Qed.

Lemma Forall_True_actions (acts : list Action) : Forall (fun _ => True) acts.
Proof. induction acts; constructor; auto. Qed.

(** *** [GuestIP] *)

Lemma GuestIP_Notify (w : World) (f : bool) :
  GuestIP (this (drvNATNotifyNATThread w f)) = GuestIP (this w).
Proof. unfold drvNATNotifyNATThread. destruct f; reflexivity. Qed.

Lemma GuestIP_LinkChangedWorker (w : World) (st : PDMNETWORKLINKSTATE) :
  GuestIP (this (drvNATNotifyLinkChangedWorker w st)) = GuestIP (this w).
Proof. unfold drvNATNotifyLinkChangedWorker. destruct st; reflexivity. Qed.

Lemma GuestIP_Apply (w : World) (fRemove fUdp : bool) (h : option (list Z)) (hp : Z)
    (g : option (list Z)) (gp : Z) :
  GuestIP (this (drvNATNotifyApplyPortForwardCommand X w fRemove fUdp h hp g gp))
  = GuestIP (this w).
Proof. unfold drvNATNotifyApplyPortForwardCommand. destruct fRemove; reflexivity. Qed.

(** What every request of the engine queue preserves is preserved by
    running the queue, and by a call that waits for its request. *)
Lemma RTReqQueueProcess_rel (R : World -> World -> Prop) :
  (forall w, R w w) -> (forall a b c, R a b -> R b c -> R a c) ->
  (forall w q, R w (upd (set_hSlirpReqQueue q) w)) ->
  (forall w r w', slirp_req X w r = Some w' -> R w w') ->
  forall q w w', RTReqQueueProcess X w q = Some w' -> R w w'.
Proof.
  intros Hrefl Htrans Hq Hreq. induction q as [|r q IH]; intros w w' H; simpl in H.
  - injection H as <-. apply Hrefl.
  - destruct (slirp_req X (upd (set_hSlirpReqQueue q) w) r) as [w1|] eqn:E; [|discriminate].
    simpl in H. eapply Htrans; [apply (Hq w q)|].
    eapply Htrans; [eapply Hreq; exact E|]. apply IH. exact H.
Qed.

Lemma call_and_wait_rel (R : World -> World -> Prop) :
  (forall w, R w w) -> (forall a b c, R a b -> R b c -> R a c) ->
  (forall w q, R w (upd (set_hSlirpReqQueue q) w)) ->
  (forall w f, R w (drvNATNotifyNATThread w f)) ->
  (forall w r w', slirp_req X w r = Some w' -> R w w') ->
  forall w rc f r w', call_and_wait X w rc f r = Some w' -> R w w'.
Proof.
  intros Hrefl Htrans Hq Hn Hreq w rc f r w' H. unfold call_and_wait in H.
  destruct (rc =? VERR_TIMEOUT).
  - injection H as <-. eapply Htrans; [|apply Hn].
    apply (Hq w (hSlirpReqQueue (this w) ++ [r])).
  - destruct (RT_SUCCESS rc).
    + eapply Htrans; [apply (Hq w (hSlirpReqQueue (this w) ++ [r]))|].
      eapply RTReqQueueProcess_rel; eassumption.
    + injection H as <-. apply Hrefl.
Qed.

Lemma GuestIP_slirp_req (w : World) (r : Req) (w' : World) :
  slirp_req X w r = Some w' -> GuestIP (this w') = GuestIP (this w).
Proof.
  destruct r; simpl; intros H.
  - apply same_obs_SendWorker in H. destruct H as (-> & _). reflexivity.
  - discriminate.
  - inversion H. rewrite GuestIP_LinkChangedWorker. reflexivity.
  - inversion H. rewrite GuestIP_Apply. reflexivity.
Qed.

Lemma GuestIP_call_and_wait (w : World) (rc : Z) (f : bool) (r : Req) (w' : World) :
  call_and_wait X w rc f r = Some w' -> GuestIP (this w') = GuestIP (this w).
Proof.
  apply (call_and_wait_rel (fun w w' => GuestIP (this w') = GuestIP (this w))).
  - reflexivity.
  - intros a b c H1 H2. congruence.
  - reflexivity.
  - intros w0 f0. apply GuestIP_Notify.
  - apply GuestIP_slirp_req.
Qed.

Lemma GuestIP_AllocBuf (w : World) (cbMin : Z) (g : option PDMNETWORKGSO) (f1 f2 f3 : bool) :
  GuestIP (this (drvNATNetworkUp_AllocBuf w cbMin g f1 f2 f3).2) = GuestIP (this w).
Proof.
  unfold drvNATNetworkUp_AllocBuf, RTMemAlloc, RTMemFree, store.
  destruct f1, f2, f3, g; split_cases; reflexivity.
Qed.

(** [drvNAT_AddPollCb] touches the poll set and nothing else. *)
Lemma AddPollCb_frame (os : HostOS) (w : World) (iFd iEvents : Z) (f : bool)
    (i : Z) (w' : World) :
  drvNAT_AddPollCb os w iFd iEvents f = Some (i, w') ->
  exists st', w' = upd (set_pNATState st') w.
Proof.
  unfold drvNAT_AddPollCb. intros H.
  destruct (_ && negb f).
  - injection H as _ <-. exists (pNATState (this w)).
    destruct w as [d h b fr hp t]. destruct d. reflexivity.
  - destruct (_ && _); [|discriminate H].
    injection H as _ <-. eexists. reflexivity.
Qed.

Lemma GuestIP_AddPoll (os : HostOS) (w : World) (iFd iEvents : Z) (f : bool)
    (i : Z) (w' : World) :
  drvNAT_AddPollCb os w iFd iEvents f = Some (i, w') ->
  GuestIP (this w') = GuestIP (this w).
Proof. intros H. apply AddPollCb_frame in H. destruct H as (st' & ->). reflexivity. Qed.

(** The thread's entry, unfolded. *)
Lemma AsyncIoThread_entry_frame (w : World) (fdPipeRead : Z) (fRealloc : bool) (w' : World) :
  drvNATAsyncIoThread_entry w fdPipeRead fRealloc = Some w' ->
  exists st' : SlirpState,
    let w1 := upd (set_pNATState st') w in
    w' = match pSlirpThread (this w) with
         | PDMTHREADSTATE_INITIALIZING => w1
         | _ =>
             if negb (link_eqb (enmLinkStateWant (this w)) (enmLinkState (this w)))
             then drvNATNotifyLinkChangedWorker w1 (enmLinkStateWant (this w))
             else w1
         end.
Proof.
  unfold drvNATAsyncIoThread_entry. intros H.
  destruct (drvNAT_AddPollCb RT_OS_POSIX w fdPipeRead _ fRealloc) as [[idx w1]|] eqn:E;
    [|discriminate H].
  cbn [mbind option_bind] in H.
  apply AddPollCb_frame in E. destruct E as (st' & ->).
  destruct (polls (pNATState (this (upd (set_pNATState st') w)))) as [|p0 ps] eqn:Ep;
    [discriminate H|].
  injection H as <-. eexists. cbv zeta. reflexivity.
Qed.

Lemma GuestIP_SendPacket (w : World) (cb : Z) (fAlloc : bool) (rc : Z) (f : bool) :
  GuestIP (this (drvNAT_SendPacketCb w cb fAlloc rc f).2) = GuestIP (this w).
Proof.
  unfold drvNAT_SendPacketCb, RTMemAlloc.
  destruct fAlloc; split_cases; rewrite ?GuestIP_Notify; reflexivity.
Qed.

Lemma GuestIP_RecvWorker (w : World) (p : ptr) (cb rcWait rcRecv : Z) (f : bool) :
  GuestIP (this (drvNATRecvWorker w p cb rcWait rcRecv f)) = GuestIP (this w).
Proof.
  unfold drvNATRecvWorker. rewrite GuestIP_Notify. unfold RTMemFree.
  split_cases; reflexivity.
Qed.

Lemma step_GuestIP (w : World) (a : Action) (w' : World) :
  step X w a = Some w' -> GuestIP (this w') = GuestIP (this w).
Proof.
  destruct a; simpl; intros H.
  - inversion H; reflexivity.
  - inversion H. unfold drvNATNetworkUp_BeginXmit. split_cases; reflexivity.
  - inversion H. apply GuestIP_AllocBuf.
  - unfold drvNATNetworkUp_FreeBuf in H.
    destruct (drvNATFreeSgBuf w pSgBuf) as [w1|] eqn:E; [|discriminate].
    simpl in H. inversion H; subst. apply same_obs_FreeSgBuf in E.
    destruct E as (-> & _). reflexivity.
  - unfold drvNATNetworkUp_SendBuf in H.
    destruct (is_RUNNING (pSlirpThread (this w))).
    + destruct (RT_SUCCESS rcQueue).
      * simpl in H. inversion H. rewrite GuestIP_Notify. reflexivity.
      * match type of H with context [drvNATFreeSgBuf ?w1 _] =>
          destruct (drvNATFreeSgBuf w1 pSgBuf) as [w2|] eqn:E; [|discriminate] end.
        simpl in H. inversion H; subst. apply same_obs_FreeSgBuf in E.
        destruct E as (-> & _). reflexivity.
    + destruct (drvNATFreeSgBuf w pSgBuf) as [w2|] eqn:E; [|discriminate].
      simpl in H. inversion H; subst. apply same_obs_FreeSgBuf in E.
      destruct E as (-> & _). reflexivity.
  - inversion H. reflexivity.
  - unfold drvNATNetworkUp_NotifyLinkChanged in H.
    destruct (negb (is_RUNNING (pSlirpThread (this w)))); [inversion H; reflexivity|].
    eapply GuestIP_call_and_wait. exact H.
  - unfold drvNATNetworkNatConfigRedirect in H.
    destruct (negb (is_RUNNING (pSlirpThread (this w)))); simpl in H.
    + inversion H. apply GuestIP_Apply.
    + destruct (call_and_wait X w rcQueue fWritten _) as [w1|] eqn:E; [|discriminate].
      simpl in H. inversion H; subst. eapply GuestIP_call_and_wait. exact E.
  - inversion H. apply GuestIP_Notify.
  - apply AsyncIoThread_entry_frame in H. destruct H as (st' & ->).
    split_cases; rewrite ?GuestIP_LinkChangedWorker; reflexivity.
  - inversion H. reflexivity.
  - destruct (drvNAT_AddPollCb RT_OS_POSIX w iFd iEvents fRealloc) as [[i w1]|] eqn:E;
      [|discriminate H].
    injection H as <-. exact (GuestIP_AddPoll _ _ _ _ _ _ _ E).
  - inversion H. unfold drvNATAsyncIoThread_drain. split_cases; reflexivity.
  - destruct (hSlirpReqQueue (this w)) as [|r q]; [inversion H; reflexivity|].
    apply GuestIP_slirp_req in H. exact H.
  - apply same_obs_CheckTimeout_loop in H. destruct H as (-> & _). reflexivity.
  - inversion H. apply GuestIP_SendPacket.
  - destruct (hRecvReqQueue (this w)) as [|r q]; [inversion H; reflexivity|].
    destruct r; try discriminate. inversion H. rewrite GuestIP_RecvWorker. reflexivity.
  - inversion H. unfold drvNAT_TimerNewCb, RTMemAlloc. destruct fAlloc; split_cases; reflexivity.
  - apply same_obs_TimerFreeCb_loop in H. destruct H as (-> & _). reflexivity.
  - apply same_obs_TimerModCb in H. destruct H as (-> & _). reflexivity.
Qed.

(** *** The wakeup channel *)

Lemma same_obs_wk (w w' : World) : same_obs w w' -> wk w' = wk w /\ pk w' = pk w.
Proof. intros (H1 & H2 & H3 & H4). unfold wk, pk. rewrite H1, H2, H3, H4. auto. Qed.

Ltac wk_solve :=
  unfold wk, pk; split_cases;
  rewrite ?written_app, ?drained_app; simpl; rewrite ?Z.add_0_r; reflexivity.

Lemma wk_LinkChangedWorker (w : World) (st : PDMNETWORKLINKSTATE) :
  wk (drvNATNotifyLinkChangedWorker w st) = wk w /\
  pk (drvNATNotifyLinkChangedWorker w st) = pk w.
Proof. unfold drvNATNotifyLinkChangedWorker. destruct st; split; wk_solve. Qed.

Lemma wk_Apply (w : World) (fRemove fUdp : bool) (h : option (list Z)) (hp : Z)
    (g : option (list Z)) (gp : Z) :
  wk (drvNATNotifyApplyPortForwardCommand X w fRemove fUdp h hp g gp) = wk w /\
  pk (drvNATNotifyApplyPortForwardCommand X w fRemove fUdp h hp g gp) = pk w.
Proof. unfold drvNATNotifyApplyPortForwardCommand. destruct fRemove; split; wk_solve. Qed.

Lemma wk_AllocBuf (w : World) (cbMin : Z) (g : option PDMNETWORKGSO) (f1 f2 f3 : bool) :
  wk (drvNATNetworkUp_AllocBuf w cbMin g f1 f2 f3).2 = wk w /\
  pk (drvNATNetworkUp_AllocBuf w cbMin g f1 f2 f3).2 = pk w.
Proof.
  unfold drvNATNetworkUp_AllocBuf, RTMemAlloc, RTMemFree, store.
  destruct f1, f2, f3, g; split; wk_solve.
Qed.

Lemma wk_AddPoll (os : HostOS) (w : World) (iFd iEvents : Z) (f : bool)
    (i : Z) (w' : World) :
  drvNAT_AddPollCb os w iFd iEvents f = Some (i, w') ->
  wk w' = wk w /\ pk w' = pk w.
Proof.
  intros H. apply AddPollCb_frame in H. destruct H as (st' & ->). split; reflexivity.
Qed.


Lemma notified_quiet (w w' : World) : wk w' = wk w -> notified w w'.
Proof. intros H. exists w', false. split; [exact H|reflexivity]. Qed.

Lemma wk_slirp_req (w : World) (r : Req) (w' : World) :
  slirp_req X w r = Some w' -> wk w' = wk w /\ pk w' = pk w.
Proof.
  destruct r; simpl; intros H.
  - apply same_obs_SendWorker, same_obs_wk in H. exact H.
  - discriminate.
  - inversion H. apply wk_LinkChangedWorker.
  - inversion H. apply wk_Apply.
Qed.

Lemma wk_RTReqQueueProcess (q : list Req) (w w' : World) :
  RTReqQueueProcess X w q = Some w' -> wk w' = wk w /\ pk w' = pk w.
Proof.
  apply (RTReqQueueProcess_rel (fun w w' => wk w' = wk w /\ pk w' = pk w)).
  - auto.
  - intros a b c (H1 & H2) (H3 & H4). split; congruence.
  - intros w0 q0. split; reflexivity.
  - apply wk_slirp_req.
Qed.

Lemma notified_call_and_wait (w : World) (rc : Z) (f : bool) (r : Req) (w' : World) :
  call_and_wait X w rc f r = Some w' -> notified w w'.
Proof.
  unfold call_and_wait. destruct (rc =? VERR_TIMEOUT).
  - intros H. injection H as <-. eexists _, f. split; [|reflexivity]. reflexivity.
  - destruct (RT_SUCCESS rc); intros H.
    + apply notified_quiet. apply wk_RTReqQueueProcess in H.
      destruct H as (-> & _). reflexivity.
    + injection H as <-. apply notified_quiet. reflexivity.
Qed.


Lemma step_wk (w : World) (a : Action) (w' : World) :
  step X w a = Some w' ->
  (exists revents0, w' = drvNATAsyncIoThread_drain w revents0) \/ notified w w'.
Proof.
  destruct a; simpl; intros H;
    try (left; eexists; inversion H; reflexivity; fail); right.
  - inversion H. apply notified_quiet. reflexivity.
  - inversion H. apply notified_quiet. unfold drvNATNetworkUp_BeginXmit. wk_solve.
  - inversion H. apply notified_quiet, wk_AllocBuf.
  - unfold drvNATNetworkUp_FreeBuf in H.
    destruct (drvNATFreeSgBuf w pSgBuf) as [w1|] eqn:E; [|discriminate].
    simpl in H. inversion H; subst. apply notified_quiet.
    apply same_obs_FreeSgBuf, same_obs_wk in E. apply E.
  - unfold drvNATNetworkUp_SendBuf in H.
    destruct (is_RUNNING (pSlirpThread (this w))).
    + destruct (RT_SUCCESS rcQueue).
      * simpl in H. inversion H. eexists _, fWritten. split; [|reflexivity]. reflexivity.
      * match type of H with context [drvNATFreeSgBuf ?w1 _] =>
          destruct (drvNATFreeSgBuf w1 pSgBuf) as [w2|] eqn:E; [|discriminate] end.
        simpl in H. inversion H; subst. apply notified_quiet.
        apply same_obs_FreeSgBuf, same_obs_wk in E. destruct E as (-> & _). reflexivity.
    + destruct (drvNATFreeSgBuf w pSgBuf) as [w2|] eqn:E; [|discriminate].
      simpl in H. inversion H; subst. apply notified_quiet.
      apply same_obs_FreeSgBuf, same_obs_wk in E. apply E.
  - inversion H. apply notified_quiet. reflexivity.
  - unfold drvNATNetworkUp_NotifyLinkChanged in H.
    destruct (negb (is_RUNNING (pSlirpThread (this w)))).
    + inversion H. apply notified_quiet. reflexivity.
    + eapply notified_call_and_wait. exact H.
  - unfold drvNATNetworkNatConfigRedirect in H.
    destruct (negb (is_RUNNING (pSlirpThread (this w)))); simpl in H.
    + inversion H. apply notified_quiet, wk_Apply.
    + destruct (call_and_wait X w rcQueue fWritten _) as [w1|] eqn:E; [|discriminate].
      simpl in H. inversion H; subst. eapply notified_call_and_wait. exact E.
  - inversion H. eexists _, fWritten. split; reflexivity.
  - apply notified_quiet.
    apply AsyncIoThread_entry_frame in H. destruct H as (st' & ->).
    split_cases; rewrite ?(proj1 (wk_LinkChangedWorker _ _)); reflexivity.
  - inversion H. apply notified_quiet. reflexivity.
  - destruct (drvNAT_AddPollCb RT_OS_POSIX w iFd iEvents fRealloc) as [[i w1]|] eqn:E;
      [|discriminate H].
    injection H as <-. apply notified_quiet. exact (proj1 (wk_AddPoll _ _ _ _ _ _ _ E)).
  - destruct (hSlirpReqQueue (this w)) as [|r q]; [inversion H; apply notified_quiet; reflexivity|].
    apply notified_quiet. apply wk_slirp_req in H. destruct H as (-> & _). reflexivity.
  - apply notified_quiet. apply same_obs_CheckTimeout_loop, same_obs_wk in H. apply H.
  - inversion H. unfold drvNAT_SendPacketCb, RTMemAlloc.
    destruct fAlloc; simpl.
    + rewrite is_null_succ; simpl.
      destruct (negb (is_RUNNING (pSlirpThread (this w)))); simpl.
      * apply notified_quiet. reflexivity.
      * eexists _, fWritten. split; [|reflexivity]. wk_solve.
    + apply notified_quiet. reflexivity.
  - destruct (hRecvReqQueue (this w)) as [|r q]; [inversion H; apply notified_quiet; reflexivity|].
    destruct r; try discriminate. inversion H. unfold drvNATRecvWorker.
    eexists _, fWritten. split; [|reflexivity]. unfold RTMemFree. wk_solve.
  - inversion H. apply notified_quiet. unfold drvNAT_TimerNewCb, RTMemAlloc.
    destruct fAlloc; wk_solve.
  - apply notified_quiet. apply same_obs_TimerFreeCb_loop, same_obs_wk in H. apply H.
  - apply notified_quiet. apply same_obs_TimerModCb, same_obs_wk in H. apply H.
Qed.

Lemma wakeup_inv_wk (w w' : World) : wk w' = wk w -> wakeup_inv w -> wakeup_inv w'.
Proof.
  unfold wk, wakeup_inv. intros H (H1 & H2 & H3). inversion H as [[E1 E2 E3 E4]].
  rewrite E1, E2, E3, E4. auto.
Qed.

Lemma wakeup_inv_Notify (w : World) (f : bool) :
  wakeup_inv w -> wakeup_inv (drvNATNotifyNATThread w f).
Proof.
  unfold wakeup_inv, drvNATNotifyNATThread. intros (H1 & H2 & H3).
  destruct f; [|auto]. simpl. rewrite written_app, drained_app, H3.
  repeat split; try lia.
  unfold wrap64. rewrite Zplus_mod_idemp_l. reflexivity.
Qed.

(** Under the invariant a drain reads exactly [min(1024, cbWakeupNotifs)]
    bytes. *)
Lemma drain_reads (w : World) :
  wakeup_inv w ->
  RTPipeRead (hPipe w) (Z.min (cbWakeupNotifs (this w)) 1024)
  = Z.min 1024 (cbWakeupNotifs (this w)) /\
  0 <= Z.min 1024 (cbWakeupNotifs (this w)) <= hPipe w.
Proof.
  intros (H1 & H2 & H3). unfold RTPipeRead.
  assert (0 <= cbWakeupNotifs (this w) <= hPipe w).
  { rewrite H3. unfold wrap64. split; [apply Z.mod_pos_bound; lia|].
    apply Z.mod_le; lia. }
  lia.
Qed.

Lemma wakeup_inv_drain (w : World) (revents0 : Z) :
  wakeup_inv w -> wakeup_inv (drvNATAsyncIoThread_drain w revents0).
Proof.
  intros Hi. pose proof (drain_reads w Hi) as (Hr & Hb).
  destruct Hi as (H1 & H2 & H3).
  unfold drvNATAsyncIoThread_drain. destruct (tst revents0 _); [|repeat split; assumption].
  unfold wakeup_inv. simpl. rewrite written_app, drained_app, Hr, H3.
  repeat split; try lia.
  unfold wrap64. rewrite Zminus_mod_idemp_l. reflexivity.
Qed.

Lemma step_wakeup_inv (w : World) (a : Action) (w' : World) :
  wakeup_inv w -> True -> step X w a = Some w' -> wakeup_inv w'.
Proof.
  intros Hi _ Hs. apply step_wk in Hs. destruct Hs as [[rev ->]|(w0 & f & Hw & ->)].
  - apply wakeup_inv_drain. exact Hi.
  - apply wakeup_inv_Notify. eapply wakeup_inv_wk; eassumption.
Qed.

Lemma ConstructRedir_frame (rules : list Redir) :
  forall w, same_obs w (drvNATConstructRedir w rules).
Proof.
  unfold drvNATConstructRedir.
  induction rules as [|[[[[u b] hp] g] gp] rules IH]; intros w; simpl.
  - apply same_obs_refl.
  - eapply same_obs_trans; [|apply IH]. apply same_obs_emit. exact I.
Qed.

(** The state a successful construction leaves. *)
Lemma Construct_facts (pThis : DRVNAT) (rules : list Redir) :
  let w := drvNATConstruct pThis rules in
  GuestIP (this w) = GuestIP pThis /\
  wakeup_inv w /\
  (cPkts pThis = 0 -> pkts_inv w) /\
  enmLinkState (this w) = PDMNETWORKLINKSTATE_UP.
Proof.
  unfold drvNATConstruct.
  match goal with |- context [drvNATConstructRedir ?w0 rules] =>
    pose proof (ConstructRedir_frame rules w0) as (Ht & Hp & Hw & Hd);
    set (w1 := drvNATConstructRedir w0 rules) in * end.
  simpl in *. unfold wakeup_inv, pkts_inv. simpl. rewrite Ht, Hp, Hw, Hd. simpl.
  repeat split; try reflexivity; try lia. intros ->. reflexivity.
Qed.

(** *** The packet counter *)






End Invariants.

(** ** Runs from a constructed instance *)

Section Runs.

Variable X : Externals.

(** No run writes [GuestIP]: it is what the instance data held when the
    constructor was entered. *)
Lemma run_GuestIP (pThis : DRVNAT) (rules : list Redir) (acts : list Action) (w : World) :
  run X (drvNATConstruct pThis rules) acts = Some w ->
  GuestIP (this w) = GuestIP pThis.
Proof.
  intros Hrun.
  pose proof (Construct_facts pThis rules) as (H0 & _). cbv zeta in H0.
  eapply (run_invariant X (fun w => GuestIP (this w) = GuestIP pThis) (fun _ => True));
    [|exact H0|apply Forall_True_actions|exact Hrun].
  intros w1 a w2 HP _ Hs. rewrite (step_GuestIP X _ _ _ Hs). exact HP.
Qed.

(** C10. [GuestIP] is zero after construction and no operation writes it:
    it is zero in every state a run reaches.  Hence a redirect command that
    adds a rule and whose guest address string is null or does not parse
    hands [INADDR_ANY] to the engine's [add_hostfwd] as the guest address. *)
Theorem guest_ip_never_written (rules : list Redir) (acts : list Action) (w : World) :
  run X (drvNATConstruct DRVNAT_zero rules) acts = Some w ->
  GuestIP (this (drvNATConstruct DRVNAT_zero rules)) = 0 /\
  GuestIP (this w) = 0 /\
  forall (fUdp : bool) (pHostIp pGuestIp : option (list Z)) (u16HostPort u16GuestPort : Z),
    match pGuestIp with None => True | Some sz => inet_aton X sz = None end ->
    exists hostIp,
      drvNATNotifyApplyPortForwardCommand X w false fUdp pHostIp u16HostPort
        pGuestIp u16GuestPort
      = emit (EvAddHostFwd fUdp hostIp u16HostPort INADDR_ANY u16GuestPort) w.
Proof.
  intros Hrun.
  pose proof (Construct_facts DRVNAT_zero rules) as (H0 & _).
  cbv zeta in H0. change (GuestIP DRVNAT_zero) with 0 in H0.
  assert (Hw : GuestIP (this w) = 0) by exact (run_GuestIP DRVNAT_zero rules acts w Hrun).
  split; [exact H0|]. split; [exact Hw|].
  intros fUdp pHostIp pGuestIp hp gp Hg.
  unfold drvNATNotifyApplyPortForwardCommand. eexists.
  destruct pGuestIp as [sz|]; [rewrite Hg|]; rewrite Hw; reflexivity.
Qed.

(** C8. In every state a run reaches (states are taken between entry
    points), [cbWakeupNotifs] is the number of
    bytes written to the wakeup channel minus the number of bytes drained
    from it (as a 64-bit counter).  A notification whose write succeeds
    writes one byte and adds one to the counter, one whose write fails
    changes nothing; a round in which slot 0 is readable reads
    min(1024, cbWakeupNotifs) bytes and subtracts what it read. *)
Theorem wakeup_counter_balance (rules : list Redir) (acts : list Action) (w : World) :
  run X (drvNATConstruct DRVNAT_zero rules) acts = Some w ->
  cbWakeupNotifs (this w) = wrap64 (written (trace w) - drained (trace w)) /\
  (written (trace w) - drained (trace w) < 2 ^ 64 ->
   cbWakeupNotifs (this w) = written (trace w) - drained (trace w)) /\
  (let w' := drvNATNotifyNATThread w true in
   trace w' = trace w ++ [EvPipeWrite 1] /\
   cbWakeupNotifs (this w') = wrap64 (cbWakeupNotifs (this w) + 1)) /\
  drvNATNotifyNATThread w false = w /\
  (forall revents0,
     tst revents0 (Z.lor (Z.lor (POLLRDNORM RT_OS_POSIX) (POLLPRI RT_OS_POSIX))
                         (POLLRDBAND RT_OS_POSIX)) = true ->
     let n := Z.min 1024 (cbWakeupNotifs (this w)) in
     let w' := drvNATAsyncIoThread_drain w revents0 in
     trace w' = trace w ++ [EvPipeRead n n] /\
     cbWakeupNotifs (this w') = cbWakeupNotifs (this w) - n).
Proof.
  intros Hrun.
  assert (Hi : wakeup_inv w).
  { eapply (run_invariant X wakeup_inv (fun _ => True));
      [apply step_wakeup_inv| |apply Forall_True_actions|exact Hrun].
    apply (Construct_facts DRVNAT_zero rules). }
  pose proof (drain_reads w Hi) as (Hr & Hb).
  destruct Hi as (H1 & H2 & H3). rewrite <- H1.
  split; [exact H3|]. split.
  { intros Hlt. rewrite H3. unfold wrap64. apply Z.mod_small. lia. }
  split; [split; reflexivity|]. split; [reflexivity|].
  intros revents0 Ht n w'. unfold w', drvNATAsyncIoThread_drain. rewrite Ht. simpl.
  rewrite Hr. fold n. replace (Z.min (cbWakeupNotifs (this w)) 1024) with n by (unfold n; lia).
  split; [reflexivity|].
  unfold wrap64. apply Z.mod_small.
  assert (0 <= cbWakeupNotifs (this w) < 2 ^ 64).
  { rewrite H3. unfold wrap64. apply Z.mod_pos_bound. lia. }
  unfold n in *. lia.
Qed.


End Runs.

Lemma guest_ip_never_written_witness :
  exists w,
    run X0 (drvNATConstruct DRVNAT_zero []) acts_redirect = Some w /\
    GuestIP (this w) = 0 /\
    exists hostIp,
      drvNATNotifyApplyPortForwardCommand X0 w false false None 2222 None 22
      = emit (EvAddHostFwd false hostIp 2222 INADDR_ANY 22) w.
Proof.
  destruct (run X0 (drvNATConstruct DRVNAT_zero []) acts_redirect) as [w|] eqn:E;
    [|vm_compute in E; discriminate E].
  exists w. split; [reflexivity|].
  destruct (guest_ip_never_written X0 [] acts_redirect w E) as (_ & Hz & Hadd).
  split; [exact Hz|].
  exact (Hadd false None None 2222 22 I).
Defined.

Lemma wakeup_counter_balance_witness :
  exists w,
    run X0 (drvNATConstruct DRVNAT_zero []) acts_wakeup = Some w /\
    cbWakeupNotifs (this w) = written (trace w) - drained (trace w) /\
    cbWakeupNotifs (this (drvNATAsyncIoThread_drain w (POLLRDNORM RT_OS_POSIX)))
    = cbWakeupNotifs (this w) - Z.min 1024 (cbWakeupNotifs (this w)).
Proof.
  destruct (run X0 (drvNATConstruct DRVNAT_zero []) acts_wakeup) as [w|] eqn:E;
    [|vm_compute in E; discriminate E].
  exists w. split; [reflexivity|].
  assert (Hlt : written (trace w) - drained (trace w) < 2 ^ 64).
  { pose proof E as E'. vm_compute in E'. injection E' as <-. reflexivity. }
  destruct (wakeup_counter_balance X0 [] acts_wakeup w E) as (_ & Heq & _ & _ & Hdrain).
  split; [exact (Heq Hlt)|].
  exact (proj2 (Hdrain (POLLRDNORM RT_OS_POSIX) eq_refl)).
Defined.


(** ** Scatter/gather buffers *)

Lemma FreeSgBuf_ordinary (w : World) (p : ptr) (sg : PDMSCATTERGATHER) :
  sg_ordinary w p sg ->
  exists w',
    drvNATFreeSgBuf w p = Some w' /\
    freed w' = freed w ++ [aSegs0_pvSeg sg; p] /\
    heap w' !! aSegs0_pvSeg sg = None /\
    heap w' !! p = None.
Proof.
  intros (Hl & Hp & Ha & Hu & Hs & Hm).
  unfold drvNATFreeSgBuf. rewrite Hl. simpl.
  rewrite Ha, (is_null_false _ Hs). simpl.
  unfold RTMemFree. simpl. rewrite (is_null_false _ Hs), (is_null_false _ Hp). simpl.
  eexists. split; [reflexivity|]. simpl.
  assert (Hne : p <> aSegs0_pvSeg sg).
  { intros E. unfold load_sg in Hl. rewrite E, Hm in Hl. discriminate. }
  rewrite <- app_assoc. split; [reflexivity|]. split.
  - rewrite lookup_delete_ne by exact Hne. apply lookup_delete_eq.
  - apply lookup_delete_eq.
Qed.

Lemma FreeSgBuf_gso (w : World) (p : ptr) (sg : PDMSCATTERGATHER) (g : PDMNETWORKGSO) :
  sg_gso w p sg g ->
  exists w',
    drvNATFreeSgBuf w p = Some w' /\
    freed w' = freed w ++ [aSegs0_pvSeg sg; pvUser sg; p] /\
    heap w' !! aSegs0_pvSeg sg = None /\
    heap w' !! pvUser sg = None /\
    heap w' !! p = None.
Proof.
  intros (Hl & Hp & Ha & Hu & Hs & Hm & Hg).
  unfold drvNATFreeSgBuf. rewrite Hl. simpl.
  rewrite Ha. simpl. rewrite (is_null_false _ Hu). simpl.
  unfold RTMemFree. simpl. rewrite (is_null_false _ Hs), (is_null_false _ Hu). simpl.
  rewrite (is_null_false _ Hp).
  eexists. split; [reflexivity|]. simpl.
  assert (Hne1 : p <> aSegs0_pvSeg sg).
  { intros E. unfold load_sg in Hl. rewrite E, Hm in Hl. discriminate. }
  assert (Hne2 : p <> pvUser sg).
  { intros E. unfold load_sg in Hl. rewrite E, Hg in Hl. discriminate. }
  assert (Hne3 : pvUser sg <> aSegs0_pvSeg sg).
  { intros E. rewrite E, Hm in Hg. discriminate. }
  rewrite <- !app_assoc. split; [reflexivity|]. split; [|split].
  - rewrite lookup_delete_ne, lookup_insert_ne, lookup_delete_ne by congruence.
    apply lookup_delete_eq.
  - rewrite lookup_delete_ne, lookup_insert_ne by congruence. apply lookup_delete_eq.
  - apply lookup_delete_eq.
Qed.

(** Either kind of buffer is released by [drvNATFreeSgBuf]. *)
Lemma FreeSgBuf_released (w : World) (p : ptr) (sg : PDMSCATTERGATHER) :
  sg_ordinary w p sg \/ (exists g, sg_gso w p sg g) ->
  exists w', drvNATFreeSgBuf w p = Some w' /\ buffer_released w w' p sg /\ same_obs w w'.
Proof.
  intros [Ho|(g & Hg)].
  - destruct (FreeSgBuf_ordinary w p sg Ho) as (w' & Hf & Hfr & Hs & Hp).
    exists w'. split; [exact Hf|]. split; [|eapply same_obs_FreeSgBuf; exact Hf].
    destruct Ho as (Hl & Hpn & Ha & Hu & Hsn & Hm).
    assert (Hne : p <> aSegs0_pvSeg sg).
    { intros E. unfold load_sg in Hl. rewrite E, Hm in Hl. discriminate. }
    repeat split.
    + eexists. split; [exact Hfr|]. split; [|exact Hs].
      simpl. destruct (N.eq_dec (aSegs0_pvSeg sg) (aSegs0_pvSeg sg)); [|contradiction].
      destruct (N.eq_dec p (aSegs0_pvSeg sg)); [contradiction|reflexivity].
    + eexists. split; [exact Hfr|]. split; [|exact Hp].
      simpl. destruct (N.eq_dec (aSegs0_pvSeg sg) p); [congruence|].
      destruct (N.eq_dec p p); [reflexivity|contradiction].
    + intros Hc. contradiction.
  - destruct (FreeSgBuf_gso w p sg g Hg) as (w' & Hf & Hfr & Hs & Hu' & Hp).
    exists w'. split; [exact Hf|]. split; [|eapply same_obs_FreeSgBuf; exact Hf].
    destruct Hg as (Hl & Hpn & Ha & Hu & Hsn & Hm & Hgl).
    assert (Hne1 : p <> aSegs0_pvSeg sg).
    { intros E. unfold load_sg in Hl. rewrite E, Hm in Hl. discriminate. }
    assert (Hne2 : p <> pvUser sg).
    { intros E. unfold load_sg in Hl. rewrite E, Hgl in Hl. discriminate. }
    assert (Hne3 : pvUser sg <> aSegs0_pvSeg sg).
    { intros E. rewrite E, Hm in Hgl. discriminate. }
    repeat split.
    + eexists. split; [exact Hfr|]. split; [|exact Hs].
      simpl. destruct (N.eq_dec (aSegs0_pvSeg sg) (aSegs0_pvSeg sg)); [|contradiction].
      destruct (N.eq_dec (pvUser sg) (aSegs0_pvSeg sg)); [contradiction|].
      destruct (N.eq_dec p (aSegs0_pvSeg sg)); [contradiction|reflexivity].
    + eexists. split; [exact Hfr|]. split; [|exact Hp].
      simpl. destruct (N.eq_dec (aSegs0_pvSeg sg) p); [congruence|].
      destruct (N.eq_dec (pvUser sg) p); [congruence|].
      destruct (N.eq_dec p p); [reflexivity|contradiction].
    + intros _. eexists. split; [exact Hfr|]. split; [|exact Hu'].
      simpl. destruct (N.eq_dec (aSegs0_pvSeg sg) (pvUser sg)); [congruence|].
      destruct (N.eq_dec (pvUser sg) (pvUser sg)); [|contradiction].
      destruct (N.eq_dec p (pvUser sg)); [contradiction|reflexivity].
Qed.

(** Being a well-formed buffer depends on the heap only. *)
Lemma sg_wf_heap (w w1 : World) (p : ptr) (sg : PDMSCATTERGATHER) :
  heap w1 = heap w ->
  sg_ordinary w p sg \/ (exists g, sg_gso w p sg g) ->
  sg_ordinary w1 p sg \/ (exists g, sg_gso w1 p sg g).
Proof.
  intros Hh. unfold sg_ordinary, sg_gso, load_sg. rewrite Hh. auto.
Qed.

(** A release carries over to a longer stretch that frees other blocks
    before it. *)
Lemma released_once_prefix (w w1 w' : World) (l : list ptr) (p : ptr) :
  freed w1 = freed w ++ l -> ~ In p l ->
  released_once w1 w' p -> released_once w w' p.
Proof.
  intros Hf Hn (l' & Hf' & Hc & Hh). exists (l ++ l').
  rewrite Hf', Hf, <- app_assoc. split; [reflexivity|]. split; [|exact Hh].
  apply (count_occ_not_In N.eq_dec) in Hn. unfold ptr in *.
  rewrite count_occ_app, Hc, Hn. reflexivity.
Qed.

Lemma FreeSgBuf_trace (w : World) (p : ptr) (w' : World) :
  drvNATFreeSgBuf w p = Some w' -> trace w' = trace w /\ this w' = this w.
Proof.
  unfold drvNATFreeSgBuf. destruct (load_sg w p) as [sg|]; [|discriminate].
  simpl. intros H. inversion H; subst; clear H.
  unfold RTMemFree, store. split_cases; auto.
Qed.

Lemma heap_fresh_live (w : World) (q : ptr) (o : Obj) :
  heap_fresh w -> heap w !! q = Some o -> ~ (brk w < q)%N.
Proof.
  intros Hf Hq Hlt. assert (E : heap w !! q = None) by exact (Hf q Hlt).
  rewrite E in Hq. discriminate.
Qed.

Lemma heap_fresh_RTMemAlloc (w : World) (f : bool) (o : Obj) :
  heap_fresh w -> heap_fresh (RTMemAlloc w f o).2.
Proof.
  intros Hf. unfold RTMemAlloc. destruct f; [|exact Hf].
  intros q Hq. simpl in *. rewrite lookup_insert_ne by lia. apply Hf. lia.
Qed.

Lemma heap_fresh_RTMemFree (w : World) (p : ptr) :
  heap_fresh w -> heap_fresh (RTMemFree w p).
Proof.
  intros Hf. unfold RTMemFree. destruct (is_null p); [exact Hf|].
  intros q Hq. simpl in *.
  destruct (N.eq_dec p q) as [->|Hne]; [apply lookup_delete_eq|].
  rewrite lookup_delete_ne by exact Hne. apply Hf. exact Hq.
Qed.

Lemma heap_fresh_store (w : World) (p : ptr) (o : Obj) :
  (p <= brk w)%N -> heap_fresh w -> heap_fresh (store w p o).
Proof.
  intros Hp Hf q Hq. unfold store. simpl in *.
  rewrite lookup_insert_ne by lia. apply Hf. exact Hq.
Qed.

Section Worker.

Variable X : Externals.

(** The segmentation loop gives back every scratch block it takes: the heap
    is as before, and what it frees are addresses handed out after [w]. *)
Lemma segments_spec (n : nat) :
  forall (iSeg cSegs_ : Z) (g : PDMNETWORKGSO) (cbFrame : Z) (w w' : World),
    heap_fresh w ->
    drvNATSendWorker_segments X n iSeg cSegs_ g cbFrame w = Some w' ->
    heap w' = heap w /\ heap_fresh w' /\ (brk w <= brk w')%N /\
    exists l, freed w' = freed w ++ l /\ Forall (fun q => (brk w < q)%N) l /\
              length l = n.
Proof.
  induction n as [|n IH]; intros iSeg cSegs_ g cbFrame w w' Hf Hrun; simpl in Hrun.
  - injection Hrun as <-.
    repeat split; [exact Hf|lia|]. exists []. rewrite app_nil_r. auto.
  - unfold RTMemAlloc in Hrun.
    destruct (RTMemAlloc_scratch X (brk w) iSeg); [|discriminate Hrun].
    rewrite is_null_succ in Hrun.
    destruct (PDMNetGsoCarveSegment X g cbFrame iSeg cSegs_) as [[off cbHdrs] cbPayload].
    unfold RTMemFree in Hrun. rewrite is_null_succ in Hrun. simpl in Hrun.
    match type of Hrun with context [drvNATSendWorker_segments X n _ _ _ _ ?w1] =>
      set (w2 := w1) in * end.
    assert (Hb2 : brk w2 = N.succ (brk w)) by reflexivity.
    assert (Hr2 : freed w2 = freed w ++ [N.succ (brk w)]) by reflexivity.
    assert (Hh2 : heap w2 = heap w).
    { unfold w2. simpl. apply delete_insert_id. apply Hf. lia. }
    assert (Hf2 : heap_fresh w2).
    { intros q Hq. rewrite Hh2. apply Hf. rewrite Hb2 in Hq. lia. }
    clearbody w2.
    destruct (IH (iSeg + 1) cSegs_ g cbFrame w2 w' Hf2 Hrun)
      as (H1 & H2 & H3 & l & H4 & H5 & H6).
    split; [congruence|]. split; [exact H2|].
    split; [lia|].
    exists (N.succ (brk w) :: l). split; [|split].
    + rewrite H4, Hr2, <- app_assoc. reflexivity.
    + constructor; [lia|].
      eapply Forall_impl; [exact H5|]. simpl. intros; lia.
    + simpl. rewrite H6. reflexivity.
Qed.

(** With an allocator that delivers the scratch buffers the segmentation
    loop runs to its end; without the first of them there is no result. *)
Lemma segments_run (Hok : scratch_ok X) (n : nat) :
  forall (iSeg cSegs_ : Z) (g : PDMNETWORKGSO) (cbFrame : Z) (w : World),
    exists w', drvNATSendWorker_segments X n iSeg cSegs_ g cbFrame w = Some w'.
Proof.
  induction n as [|n IH]; intros iSeg cSegs_ g cbFrame w; simpl.
  - exists w. reflexivity.
  - unfold RTMemAlloc. rewrite Hok, is_null_succ.
    destruct (PDMNetGsoCarveSegment X g cbFrame iSeg cSegs_) as [[off cbHdrs] cbPayload].
    apply IH.
Qed.

Lemma segments_no_scratch (n : nat) (iSeg cSegs_ : Z) (g : PDMNETWORKGSO)
    (cbFrame : Z) (w : World) :
  RTMemAlloc_scratch X (brk w) iSeg = false ->
  drvNATSendWorker_segments X (S n) iSeg cSegs_ g cbFrame w = None.
Proof. intros H. simpl. unfold RTMemAlloc. rewrite H. reflexivity. Qed.

(** [drvNATSendWorker] releases the buffer it is given exactly once, with
    the link up or down, for an ordinary frame and for a GSO frame whether
    the descriptor is valid or not; a GSO frame that is segmented needs the
    allocator to deliver the scratch buffers of the segments.  With the link
    not up nothing reaches the engine. *)
Lemma SendWorker_released (w : World) (p : ptr) (sg : PDMSCATTERGATHER) :
  scratch_ok X \/ sg_ordinary w p sg \/ is_UP (enmLinkState (this w)) = false ->
  heap_fresh w ->
  sg_ordinary w p sg \/ (exists g, sg_gso w p sg g) ->
  exists w',
    drvNATSendWorker X w p = Some w' /\ buffer_released w w' p sg /\
    (is_UP (enmLinkState (this w)) = false -> trace w' = trace w).
Proof.
  intros Hok Hf Hwf.
  assert (Hl : load_sg w p = Some sg).
  { destruct Hwf as [Ho|(g & Hg)]; [apply Ho|apply Hg]. }
  unfold drvNATSendWorker. rewrite Hl. simpl.
  destruct (is_UP (enmLinkState (this w))) eqn:Hup.
  - destruct Hwf as [Ho|(g & Hg)].
    + pose proof Ho as (_ & _ & Ha & _ & Hs & _).
      rewrite Ha, (is_null_false _ Hs). simpl.
      destruct (FreeSgBuf_released
                  (emit (EvSlirpInput (aSegs0_pvSeg sg) (to_int32 (cbUsed sg))) w) p sg)
        as (w' & Hfr & Hrel & _).
      { eapply sg_wf_heap; [|left; exact Ho]. reflexivity. }
      exists w'. split; [exact Hfr|]. split; [exact Hrel|discriminate].
    + pose proof Hg as (_ & _ & Ha & Hu & Hs & Hm & Hgl).
      rewrite Ha. simpl. unfold load_gso. rewrite Hgl. simpl.
      destruct (PDMNetGsoIsValid X g (cbUsed sg)); simpl.
      * assert (Hok' : scratch_ok X).
        { destruct Hok as [Hok|[Ho|Hd]]; [exact Hok| |discriminate Hd].
          destruct Ho as (_ & _ & Ha' & _ & Hs' & _). rewrite Ha' in Ha.
          exfalso. apply Hs'. exact Ha. }
        set (n := Z.to_nat (PDMNetGsoCalcSegmentCount X g (cbUsed sg))).
        destruct (segments_run Hok' n 0 (PDMNetGsoCalcSegmentCount X g (cbUsed sg)) g
                    (cbUsed sg) w) as (w1' & Hseg).
        rewrite Hseg. simpl.
        destruct (segments_spec n 0 (PDMNetGsoCalcSegmentCount X g (cbUsed sg)) g (cbUsed sg)
                    w w1' Hf Hseg) as (Hh & _ & _ & l & Hfl & Hall & _).
        destruct (FreeSgBuf_released w1' p sg) as (w' & Hfr & (R1 & R2 & R3) & _).
        { eapply sg_wf_heap; [exact Hh|right; exists g; exact Hg]. }
        exists w'. split; [exact Hfr|]. split; [|discriminate].
        assert (Hnot : forall q o, heap w !! q = Some o -> ~ In q l).
        { intros q o Hq Hin. rewrite List.Forall_forall in Hall.
          apply Hall in Hin. eapply heap_fresh_live; eassumption. }
        assert (Hps : heap w !! p = Some (OSg sg)).
        { unfold load_sg in Hl. destruct (heap w !! p) as [[]|]; congruence. }
        repeat split.
        -- eapply released_once_prefix; [exact Hfl|eapply Hnot; exact Hm|exact R1].
        -- eapply released_once_prefix; [exact Hfl|eapply Hnot; exact Hps|exact R2].
        -- intros Hn. eapply released_once_prefix; [exact Hfl|eapply Hnot; exact Hgl|auto].
      * destruct (FreeSgBuf_released w p sg) as (w' & Hfr & Hrel & _).
        { right. exists g. exact Hg. }
        exists w'. split; [exact Hfr|]. split; [exact Hrel|discriminate].
  - simpl. destruct (FreeSgBuf_released w p sg Hwf) as (w' & Hfr & Hrel & _).
    exists w'. split; [exact Hfr|]. split; [exact Hrel|].
    intros _. apply FreeSgBuf_trace in Hfr. apply Hfr.
Qed.

End Worker.

(** ** Allocation of buffers *)

(** For sizes that do not wrap, [RT_ALIGN_Z(cb, 128)] is [cb] rounded up to
    a multiple of 128. *)
Lemma RT_ALIGN_Z_128 (cb : Z) :
  0 <= cb <= 2 ^ 64 - 128 -> RT_ALIGN_Z cb 128 = round_up cb 128.
Proof.
  intros H. unfold RT_ALIGN_Z, round_up, wrap64.
  replace (cb + 128 - 1) with (cb + 127) by lia.
  replace (cb + (128 - 1)) with (cb + 127) by lia.
  rewrite Z.mod_small by lia.
  set (x := cb + 127). assert (Hx : 0 < x < 2 ^ 64) by (unfold x; lia).
  change (2 ^ 64 - 1 - (128 - 1)) with (Z.shiftl (Z.ones 57) 7).
  change 128 with (2 ^ 7).
  rewrite <- Z.shiftr_div_pow2, <- Z.shiftl_mul_pow2 by lia.
  apply Z.bits_inj'. intros n Hn.
  rewrite Z.land_spec, !Z.shiftl_spec by lia.
  destruct (Z.ltb_spec n 7).
  - rewrite (Z.testbit_neg_r (Z.ones 57) (n - 7)), (Z.testbit_neg_r (Z.shiftr x 7) (n - 7)) by lia.
    apply andb_false_r.
  - rewrite Z.shiftr_spec by lia. replace (n - 7 + 7) with n by lia.
    rewrite Z.testbit_ones_nonneg by lia.
    destruct (Z.ltb_spec (n - 7) 57).
    + apply andb_true_r.
    + rewrite andb_false_r. symmetry. apply Z.bits_above_log2; [lia|].
      assert (Z.log2 x < 64) by (apply Z.log2_lt_pow2; lia). lia.
Qed.

Lemma AllocBuf_flags :
  let f := Z.lor PDMSCATTERGATHER_FLAGS_MAGIC PDMSCATTERGATHER_FLAGS_OWNER_1 in
  Z.land f PDMSCATTERGATHER_FLAGS_OWNER_MASK = PDMSCATTERGATHER_FLAGS_OWNER_1 /\
  Z.land f PDMSCATTERGATHER_FLAGS_MAGIC_MASK = PDMSCATTERGATHER_FLAGS_MAGIC.
Proof. split; reflexivity. Qed.

(** A successful allocation of an ordinary frame. *)
Lemma AllocBuf_ordinary_ok (w : World) (cbMin : Z) (fUser : bool) :
  heap_fresh w ->
  is_RUNNING (pSlirpThread (this w)) = true ->
  (DRVNAT_MAXFRAMESIZE <=? cbMin) = false ->
  exists pSgBuf w' sg,
    drvNATNetworkUp_AllocBuf w cbMin None true fUser true = (VINF_SUCCESS, pSgBuf, w') /\
    sg_ordinary w' pSgBuf sg /\ heap_fresh w' /\ this w' = this w /\
    sg = {| fFlags := Z.lor PDMSCATTERGATHER_FLAGS_MAGIC PDMSCATTERGATHER_FLAGS_OWNER_1;
            cbUsed := 0; cbAvailable := RT_ALIGN_Z cbMin 128;
            pvAllocator := N.succ (N.succ (brk w)); pvUser := NULL; cSegs := 1;
            aSegs0_pvSeg := N.succ (N.succ (brk w));
            aSegs0_cbSeg := RT_ALIGN_Z cbMin 128 |}.
Proof.
  intros Hf Hr Hsz. unfold drvNATNetworkUp_AllocBuf. rewrite Hr. simpl.
  rewrite is_null_succ, Hsz. simpl. rewrite is_null_succ.
  eexists _, _, _. split; [reflexivity|].
  split; [|split; [|split; reflexivity]].
  - unfold sg_ordinary, load_sg, store. simpl.
    rewrite lookup_insert_eq.
    repeat split; try reflexivity; try (unfold NULL; lia).
    rewrite lookup_insert_ne by lia. apply lookup_insert_eq.
  - intros q Hq. unfold store in *. simpl in *.
    rewrite !lookup_insert_ne by lia. apply Hf. lia.
Qed.

(** A successful allocation of a GSO frame. *)
Lemma AllocBuf_gso_ok (w : World) (cbMin : Z) (g : PDMNETWORKGSO) :
  heap_fresh w ->
  is_RUNNING (pSlirpThread (this w)) = true ->
  (DRVNAT_MAXFRAMESIZE <=? cbHdrsTotal g + cbMaxSeg g) = false ->
  exists pSgBuf w' sg,
    drvNATNetworkUp_AllocBuf w cbMin (Some g) true true true = (VINF_SUCCESS, pSgBuf, w') /\
    sg_gso w' pSgBuf sg g /\ heap_fresh w' /\ this w' = this w /\
    sg = {| fFlags := Z.lor PDMSCATTERGATHER_FLAGS_MAGIC PDMSCATTERGATHER_FLAGS_OWNER_1;
            cbUsed := 0; cbAvailable := RT_ALIGN_Z cbMin 128;
            pvAllocator := NULL; pvUser := N.succ (N.succ (brk w)); cSegs := 1;
            aSegs0_pvSeg := N.succ (N.succ (N.succ (brk w)));
            aSegs0_cbSeg := RT_ALIGN_Z cbMin 128 |}.
Proof.
  intros Hf Hr Hsz. unfold drvNATNetworkUp_AllocBuf. rewrite Hr. simpl.
  rewrite is_null_succ, Hsz. simpl. rewrite !is_null_succ. simpl.
  eexists _, _, _. split; [reflexivity|].
  split; [|split; [|split; reflexivity]].
  - unfold sg_gso, load_sg, store. simpl.
    rewrite lookup_insert_eq.
    repeat split; try reflexivity; try (unfold NULL; lia).
    + rewrite lookup_insert_ne by lia. apply lookup_insert_eq.
    + rewrite !lookup_insert_ne by lia. apply lookup_insert_eq.
  - intros q Hq. unfold store in *. simpl in *.
    rewrite !lookup_insert_ne by lia. apply Hf. lia.
Qed.

Ltac heap_eq Hf :=
  apply map_eq; intros k;
  repeat (rewrite lookup_delete || rewrite lookup_insert);
  repeat case_decide; subst; try reflexivity; try lia;
  try (symmetry; apply Hf; lia); try (apply Hf; lia).

(** Above [2^64 - 128] the rounding wraps around to nothing. *)
Lemma RT_ALIGN_Z_wraps (cb : Z) :
  2 ^ 64 - 128 < cb < 2 ^ 64 -> RT_ALIGN_Z cb 128 = 0.
Proof.
  intros H. unfold RT_ALIGN_Z, wrap64.
  replace ((cb + (128 - 1)) mod 2 ^ 64) with (cb + 127 - 2 ^ 64)
    by (apply Z.mod_unique with (q := 1); lia).
  set (x := cb + 127 - 2 ^ 64). assert (Hx : 0 <= x < 2 ^ 7) by (unfold x; lia).
  change (2 ^ 64 - 1 - (128 - 1)) with (Z.shiftl (Z.ones 57) 7).
  apply Z.bits_inj'. intros n Hn. rewrite Z.land_spec, Z.bits_0, Z.shiftl_spec by lia.
  destruct (Z.ltb_spec n 7).
  - rewrite (Z.testbit_neg_r _ (n - 7)) by lia. apply andb_false_r.
  - destruct (Z.eq_dec x 0) as [->|Hx0]; [rewrite Z.bits_0; reflexivity|].
    rewrite (Z.bits_above_log2 x n); [reflexivity|lia|].
    assert (Z.log2 x < 7) by (apply Z.log2_lt_pow2; lia). lia.
Qed.

(** An allocation that fails half-way gives back what it took. *)
Lemma AllocBuf_try_again (w : World) (cbMin : Z) (pGso : option PDMNETWORKGSO)
    (fUser fSeg : bool) :
  heap_fresh w ->
  is_RUNNING (pSlirpThread (this w)) = true ->
  match pGso with
  | None => DRVNAT_MAXFRAMESIZE <=? cbMin
  | Some g => DRVNAT_MAXFRAMESIZE <=? cbHdrsTotal g + cbMaxSeg g
  end = false ->
  match pGso with None => true | Some _ => fUser end && fSeg = false ->
  exists w',
    drvNATNetworkUp_AllocBuf w cbMin pGso true fUser fSeg = (VERR_TRY_AGAIN, NULL, w') /\
    heap w' = heap w /\ this w' = this w.
Proof.
  intros Hf Hr Hsz Hfail. unfold drvNATNetworkUp_AllocBuf. rewrite Hr. simpl.
  rewrite is_null_succ.
  destruct pGso as [g|]; rewrite Hsz.
  - destruct fUser, fSeg; try discriminate Hfail; simpl; rewrite ?is_null_succ; simpl;
      (eexists; split; [reflexivity|]);
      unfold RTMemFree; simpl; rewrite ?is_null_succ; simpl;
      (split; [heap_eq Hf|reflexivity]).
  - destruct fSeg; try discriminate Hfail; simpl;
      (eexists; split; [reflexivity|]);
      unfold RTMemFree; simpl; rewrite ?is_null_succ; simpl;
      (split; [heap_eq Hf|reflexivity]).
Qed.

(** A refused allocation leaves the heap as it found it. *)
Lemma AllocBuf_too_big (w : World) (cbMin : Z) (pGso : option PDMNETWORKGSO)
    (fUser fSeg : bool) :
  heap_fresh w ->
  is_RUNNING (pSlirpThread (this w)) = true ->
  match pGso with
  | None => DRVNAT_MAXFRAMESIZE <=? cbMin
  | Some g => DRVNAT_MAXFRAMESIZE <=? cbHdrsTotal g + cbMaxSeg g
  end = true ->
  exists w',
    drvNATNetworkUp_AllocBuf w cbMin pGso true fUser fSeg = (VERR_INVALID_PARAMETER, NULL, w') /\
    heap w' = heap w /\ this w' = this w /\ freed w' = freed w ++ [N.succ (brk w)].
Proof.
  intros Hf Hr Hsz. unfold drvNATNetworkUp_AllocBuf. rewrite Hr. simpl.
  rewrite is_null_succ.
  destruct pGso as [g|]; rewrite Hsz; unfold RTMemFree; rewrite is_null_succ;
    (eexists; split; [reflexivity|]); simpl;
    (split; [apply delete_insert_id, Hf; lia|split; reflexivity]).
Qed.

Lemma heap_fresh_w_running : heap_fresh w_running.
Proof. intros q _. apply lookup_empty. Qed.

(** C6, as the spec words it, does not hold: a GSO frame of 20000 bytes
    whose headers and segment size add up to 1454 bytes is given a buffer,
    although its minimum size is above 16 KiB. *)
Lemma alloc_buf_gso_large_accepted :
  ~ (forall (w : World) (cbMin : Z) (pGso : option PDMNETWORKGSO) (fUser fSeg : bool),
       is_RUNNING (pSlirpThread (this w)) = true ->
       DRVNAT_MAXFRAMESIZE <= cbMin < 2 ^ 64 ->
       (drvNATNetworkUp_AllocBuf w cbMin pGso true fUser fSeg).1.1 = VERR_INVALID_PARAMETER).
Proof.
  intros H.
  specialize (H w_running 20000 (Some gso_tcp4) true true eq_refl).
  assert (Hr : DRVNAT_MAXFRAMESIZE <= 20000 < 2 ^ 64) by (unfold DRVNAT_MAXFRAMESIZE; lia).
  specialize (H Hr).
  destruct (AllocBuf_gso_ok w_running 20000 gso_tcp4 heap_fresh_w_running eq_refl eq_refl)
    as (p & w' & sg & Ha & _).
  rewrite Ha in H. discriminate H.
Qed.

(** C6, amended.  For every call of [drvNATNetworkUp_AllocBuf] with a
    minimum size [cbMin] (a [size_t]) in a world whose allocator hands out
    unused addresses: while the NAT thread is not running the call returns
    NET_DOWN and changes nothing; while it runs and the S/G structure cannot
    be allocated it returns NO_MEMORY and changes nothing.  Otherwise an
    ordinary frame whose minimum size is at least 16 KiB, and a GSO frame
    whose headers plus segment size are at least 16 KiB (whatever its
    minimum size), are refused with INVALID_PARAMETER and nothing is
    retained; a frame that passes this test and for which a remaining
    allocation fails is refused with TRY_AGAIN and nothing is retained;
    and when the remaining allocations succeed the result is a buffer with
    one segment of [RT_ALIGN_Z(cbMin, 128)] bytes, with cbUsed = 0,
    cbAvailable equal to the segment size and the magic and owner flags
    set.  The segment size is [cbMin] rounded up to a multiple of 128 when
    [cbMin <= 2^64 - 128], which an ordinary frame that passes the test
    always meets, and 0 above. *)
Theorem alloc_buf_spec (w : World) (cbMin : Z) (pGso : option PDMNETWORKGSO)
    (fSg fUser fSeg : bool) :
  0 <= cbMin < 2 ^ 64 -> heap_fresh w ->
  let res := drvNATNetworkUp_AllocBuf w cbMin pGso fSg fUser fSeg in
  let too_big :=
    match pGso with
    | None => DRVNAT_MAXFRAMESIZE <=? cbMin
    | Some g => DRVNAT_MAXFRAMESIZE <=? cbHdrsTotal g + cbMaxSeg g
    end in
  let fRest := match pGso with None => true | Some _ => fUser end && fSeg in
  (is_RUNNING (pSlirpThread (this w)) = false -> res = (VERR_NET_DOWN, NULL, w)) /\
  (is_RUNNING (pSlirpThread (this w)) = true -> fSg = false ->
     res = (VERR_NO_MEMORY, NULL, w)) /\
  (is_RUNNING (pSlirpThread (this w)) = true -> fSg = true -> too_big = true ->
     res.1.1 = VERR_INVALID_PARAMETER /\ res.1.2 = NULL /\
     heap res.2 = heap w /\ this res.2 = this w) /\
  (is_RUNNING (pSlirpThread (this w)) = true -> fSg = true -> too_big = false ->
     fRest = false ->
     res.1.1 = VERR_TRY_AGAIN /\ res.1.2 = NULL /\
     heap res.2 = heap w /\ this res.2 = this w) /\
  (is_RUNNING (pSlirpThread (this w)) = true -> fSg = true -> too_big = false ->
     fRest = true ->
     res.1.1 = VINF_SUCCESS /\
     exists sg,
       match pGso with
       | None => sg_ordinary res.2 res.1.2 sg
       | Some g => sg_gso res.2 res.1.2 sg g
       end /\
       cSegs sg = 1 /\
       aSegs0_cbSeg sg = RT_ALIGN_Z cbMin 128 /\
       aSegs0_cbSeg sg = (if cbMin <=? 2 ^ 64 - 128 then round_up cbMin 128 else 0) /\
       (pGso = None -> aSegs0_cbSeg sg = round_up cbMin 128) /\
       cbUsed sg = 0 /\
       cbAvailable sg = aSegs0_cbSeg sg /\
       Z.land (fFlags sg) PDMSCATTERGATHER_FLAGS_OWNER_MASK = PDMSCATTERGATHER_FLAGS_OWNER_1 /\
       Z.land (fFlags sg) PDMSCATTERGATHER_FLAGS_MAGIC_MASK = PDMSCATTERGATHER_FLAGS_MAGIC).
Proof.
  intros Hcb Hf res too_big fRest.
  assert (Hal : RT_ALIGN_Z cbMin 128
                = (if cbMin <=? 2 ^ 64 - 128 then round_up cbMin 128 else 0)).
  { destruct (Z.leb_spec cbMin (2 ^ 64 - 128)).
    - apply RT_ALIGN_Z_128. lia.
    - apply RT_ALIGN_Z_wraps. lia. }
  split; [|split; [|split; [|split]]].
  - intros Hr. unfold res, drvNATNetworkUp_AllocBuf. rewrite Hr. reflexivity.
  - intros Hr ->. unfold res, drvNATNetworkUp_AllocBuf. rewrite Hr. reflexivity.
  - intros Hr -> Hb.
    destruct (AllocBuf_too_big w cbMin pGso fUser fSeg Hf Hr Hb) as (w' & Ha & Hh & Ht & _).
    unfold res. rewrite Ha. auto.
  - intros Hr -> Hb Hfail.
    destruct (AllocBuf_try_again w cbMin pGso fUser fSeg Hf Hr Hb Hfail) as (w' & Ha & Hh & Ht).
    unfold res. rewrite Ha. auto.
  - intros Hr -> Hb Hok. apply andb_true_iff in Hok. destruct Hok as (Hu & ->).
    destruct pGso as [g|].
    + subst fUser.
      destruct (AllocBuf_gso_ok w cbMin g Hf Hr Hb) as (p & w' & sg & Ha & Hwf & _ & _ & Hsg).
      unfold res. rewrite Ha. simpl. split; [reflexivity|]. exists sg.
      split; [exact Hwf|]. rewrite Hsg. simpl.
      split; [reflexivity|]. split; [reflexivity|]. split; [exact Hal|].
      split; [discriminate|].
      repeat split; apply AllocBuf_flags.
    + destruct (AllocBuf_ordinary_ok w cbMin fUser Hf Hr Hb) as (p & w' & sg & Ha & Hwf & _ & _ & Hsg).
      unfold res. rewrite Ha. simpl. split; [reflexivity|]. exists sg.
      split; [exact Hwf|]. rewrite Hsg. simpl.
      split; [reflexivity|]. split; [reflexivity|]. split; [exact Hal|].
      split.
      { intros _. apply RT_ALIGN_Z_128.
        apply Z.leb_gt in Hb. unfold DRVNAT_MAXFRAMESIZE in Hb. lia. }
      repeat split; apply AllocBuf_flags.
Qed.

Lemma alloc_buf_spec_witness :
  (drvNATNetworkUp_AllocBuf w_running 60 None true true true).1.1 = VINF_SUCCESS /\
  (drvNATNetworkUp_AllocBuf w_running 16384 None true true true).1.1 = VERR_INVALID_PARAMETER /\
  drvNATNetworkUp_AllocBuf w_running (2 ^ 64 - 1) None false true true
  = (VERR_NO_MEMORY, NULL, w_running).
Proof.
  assert (H60 : 0 <= 60 < 2 ^ 64) by lia.
  assert (H16 : 0 <= 16384 < 2 ^ 64) by lia.
  assert (Hmax : 0 <= 2 ^ 64 - 1 < 2 ^ 64) by lia.
  split; [|split].
  - exact (proj1 (proj2 (proj2 (proj2 (proj2
             (alloc_buf_spec w_running 60 None true true true
                H60 heap_fresh_w_running))))
             eq_refl eq_refl eq_refl eq_refl)).
  - exact (proj1 (proj1 (proj2 (proj2
             (alloc_buf_spec w_running 16384 None true true true
                H16 heap_fresh_w_running)))
             eq_refl eq_refl eq_refl)).
  - exact (proj1 (proj2 (alloc_buf_spec w_running (2 ^ 64 - 1) None false true true
                           Hmax heap_fresh_w_running))
             eq_refl eq_refl).
Defined.

(** ** Sending *)

Lemma heap_fresh_w_link_down : heap_fresh w_link_down.
Proof. intros q _. apply lookup_empty. Qed.

(** C1, as the spec words it, does not hold: with the NAT thread running
    and the link down, a buffer handed to the send operation is accepted
    ([VINF_SUCCESS]), not refused with NET_DOWN. *)
Lemma send_buf_link_down_accepted :
  ~ (forall (w : World) (pSgBuf : ptr) (sg : PDMSCATTERGATHER) (rcQueue : Z)
            (fWritten : bool) (rc : Z) (w' : World),
       sg_ordinary w pSgBuf sg ->
       is_UP (enmLinkState (this w)) = false ->
       drvNATNetworkUp_SendBuf w pSgBuf rcQueue fWritten = Some (rc, w') ->
       rc = VERR_NET_DOWN).
Proof.
  intros H.
  destruct (AllocBuf_ordinary_ok w_link_down 60 true heap_fresh_w_link_down eq_refl eq_refl)
    as (p & w & sg & Ha & Hwf & _ & Ht & _).
  assert (Hdown : is_UP (enmLinkState (this w)) = false) by (rewrite Ht; reflexivity).
  assert (Hrun : is_RUNNING (pSlirpThread (this w)) = true) by (rewrite Ht; reflexivity).
  specialize (H w p sg VINF_SUCCESS true VINF_SUCCESS
                (drvNATNotifyNATThread
                   (upd (fun d => set_hSlirpReqQueue
                           (RTReqQueueCallEx_NoWait (hSlirpReqQueue d) VINF_SUCCESS
                              (ReqSendWorker p)) d) w) true)
                Hwf Hdown).
  unfold drvNATNetworkUp_SendBuf in H. rewrite Hrun in H.
  specialize (H eq_refl). discriminate H.
Qed.

Section Send.

Variable X : Externals.

(** C1, amended.  For every buffer as the allocation operation makes them,
    the send operation fails with NET_DOWN if the NAT thread is not running
    and with NET_NO_BUFFER_SPACE if the engine queue refuses the request;
    on both failure paths the buffer (segment, structure and GSO copy) is
    released exactly once before returning and the queue is as before.
    Otherwise it succeeds: [drvNATSendWorker] is parked at the end of the
    engine queue, the wakeup channel is poked and nothing is released yet.
    The worker then releases the buffer exactly once, and with the link not
    up it hands nothing to the engine; this holds for every ordinary frame,
    for every frame with the link not up, and for a GSO frame when the
    allocator delivers the scratch buffer of every segment.  The worker does
    not test the scratch pointer: for a valid GSO frame with the link up,
    when the allocation for the first segment fails, it writes through a
    null pointer and there is no result. *)
Theorem send_buf_spec (w : World) (pSgBuf : ptr) (sg : PDMSCATTERGATHER)
    (rcQueue : Z) (fWritten : bool) :
  heap_fresh w ->
  sg_ordinary w pSgBuf sg \/ (exists g, sg_gso w pSgBuf sg g) ->
  exists rc w',
    drvNATNetworkUp_SendBuf w pSgBuf rcQueue fWritten = Some (rc, w') /\
    if is_RUNNING (pSlirpThread (this w)) then
      if RT_SUCCESS rcQueue then
        rc = VINF_SUCCESS /\
        hSlirpReqQueue (this w') = hSlirpReqQueue (this w) ++ [ReqSendWorker pSgBuf] /\
        trace w' = trace w ++ (if fWritten then [EvPipeWrite 1] else []) /\
        nothing_released w w' /\
        (scratch_ok X \/ sg_ordinary w pSgBuf sg \/
         is_UP (enmLinkState (this w)) = false ->
         exists w'',
           drvNATSendWorker X w' pSgBuf = Some w'' /\
           buffer_released w' w'' pSgBuf sg /\
           (is_UP (enmLinkState (this w')) = false -> trace w'' = trace w')) /\
        (forall g,
           sg_gso w pSgBuf sg g ->
           is_UP (enmLinkState (this w)) = true ->
           PDMNetGsoIsValid X g (cbUsed sg) = true ->
           0 < PDMNetGsoCalcSegmentCount X g (cbUsed sg) ->
           RTMemAlloc_scratch X (brk w) 0 = false ->
           drvNATSendWorker X w' pSgBuf = None)
      else
        rc = VERR_NET_NO_BUFFER_SPACE /\
        buffer_released w w' pSgBuf sg /\
        hSlirpReqQueue (this w') = hSlirpReqQueue (this w)
    else
      rc = VERR_NET_DOWN /\
      buffer_released w w' pSgBuf sg /\
      hSlirpReqQueue (this w') = hSlirpReqQueue (this w).
Proof.
  intros Hf Hwf. unfold drvNATNetworkUp_SendBuf.
  destruct (is_RUNNING (pSlirpThread (this w))).
  - unfold RTReqQueueCallEx_NoWait. destruct (RT_SUCCESS rcQueue).
    + eexists _, _. split; [reflexivity|].
      set (w1 := upd _ w).
      assert (Hh : heap (drvNATNotifyNATThread w1 fWritten) = heap w).
      { unfold drvNATNotifyNATThread. destruct fWritten; reflexivity. }
      assert (Hb : brk (drvNATNotifyNATThread w1 fWritten) = brk w).
      { unfold drvNATNotifyNATThread. destruct fWritten; reflexivity. }
      split; [reflexivity|]. split.
      { unfold drvNATNotifyNATThread. destruct fWritten; reflexivity. }
      split.
      { unfold drvNATNotifyNATThread. destruct fWritten; simpl; [reflexivity|].
        rewrite app_nil_r. reflexivity. }
      split.
      { unfold nothing_released, drvNATNotifyNATThread. destruct fWritten; reflexivity. }
      assert (Ht : this (drvNATNotifyNATThread w1 fWritten)
                   = (if fWritten
                      then set_cbWakeupNotifs (wrap64 (cbWakeupNotifs (this w1) + 1)) (this w1)
                      else this w1))
        by (unfold drvNATNotifyNATThread; destruct fWritten; reflexivity).
      assert (Hup : enmLinkState (this (drvNATNotifyNATThread w1 fWritten))
                    = enmLinkState (this w))
        by (rewrite Ht; destruct fWritten; reflexivity).
      split.
      * intros Hok. apply SendWorker_released.
        -- destruct Hok as [Hok|[Ho|Hd]]; [left; exact Hok| |].
           ++ right; left. unfold sg_ordinary, load_sg in *. rewrite Hh. exact Ho.
           ++ right; right. rewrite Hup. exact Hd.
        -- intros q Hq. rewrite Hh. apply Hf. rewrite Hb in Hq. exact Hq.
        -- eapply sg_wf_heap; [exact Hh|exact Hwf].
      * intros g Hg Hlink Hvalid Hsegs Hna.
        destruct Hg as (Hl & _ & Ha & _ & _ & _ & Hgl).
        unfold drvNATSendWorker, load_sg, load_gso. rewrite Hh.
        unfold load_sg in Hl. rewrite Hl. simpl. rewrite Hup, Hlink, Ha. simpl.
        rewrite Hgl. simpl. rewrite Hvalid.
        destruct (Z.to_nat (PDMNetGsoCalcSegmentCount X g (cbUsed sg))) as [|n] eqn:En;
          [lia|].
        rewrite segments_no_scratch by (rewrite Hb; exact Hna). reflexivity.
    + set (w1 := upd _ w).
      destruct (FreeSgBuf_released w1 pSgBuf sg) as (w' & Hfr & Hrel & Hs & _).
      { eapply sg_wf_heap; [|exact Hwf]. reflexivity. }
      exists VERR_NET_NO_BUFFER_SPACE, w'. rewrite Hfr. simpl.
      split; [reflexivity|]. split; [reflexivity|]. split; [exact Hrel|].
      rewrite Hs. unfold w1. simpl. destruct (this w); reflexivity.
  - destruct (FreeSgBuf_released w pSgBuf sg Hwf) as (w' & Hfr & Hrel & Hs & _).
    exists VERR_NET_DOWN, w'. rewrite Hfr. simpl.
    split; [reflexivity|]. split; [reflexivity|]. split; [exact Hrel|].
    rewrite Hs. reflexivity.
Qed.

End Send.

Lemma send_buf_spec_witness :
  exists pSgBuf w sg rc w',
    drvNATNetworkUp_AllocBuf w_running 60 None true true true = (VINF_SUCCESS, pSgBuf, w) /\
    sg_ordinary w pSgBuf sg /\
    drvNATNetworkUp_SendBuf w pSgBuf VERR_NO_MEMORY true = Some (rc, w') /\
    rc = VERR_NET_NO_BUFFER_SPACE /\
    buffer_released w w' pSgBuf sg.
Proof.
  destruct (AllocBuf_ordinary_ok w_running 60 true heap_fresh_w_running eq_refl eq_refl)
    as (p & w & sg & Ha & Hwf & Hfresh & Ht & _).
  destruct (send_buf_spec X0 w p sg VERR_NO_MEMORY true Hfresh (or_introl Hwf))
    as (rc & w' & Hs & Hcase).
  rewrite Ht in Hcase. simpl in Hcase. destruct Hcase as (Hrc & Hrel & _).
  exists p, w, sg, rc, w'. auto.
Defined.

(** ** Where the code departs from its specification *)

Ltac concrete_run E :=
  vm_compute in E; injection E as E; subst.

(** C2: the code frees the timer but leaves it linked.  After two timers
    are created and the newer one (the head, at address 2) is freed,
    [pTimerHead] still points to the freed block: no list of live timers is
    reachable from it, and the next walk of the list reads freed memory. *)
Theorem timer_free_leaves_node_linked :
  exists w,
    run X0 (drvNATConstruct DRVNAT_zero []) acts_timer_free = Some w /\
    freed w = [2%N] /\
    heap w !! 2%N = None /\
    pTimerHead (pNATState (this w)) = 2%N /\
    (forall l, ~ tlist (heap w) (pTimerHead (pNATState (this w))) l) /\
    drvNAT_UpdateTimeout 5 w 0 DRVNAT_DEFAULT_TIMEOUT = None.
Proof.
  destruct (run X0 (drvNATConstruct DRVNAT_zero []) acts_timer_free) as [w|] eqn:E;
    [|vm_compute in E; discriminate E].
  exists w. split; [reflexivity|]. concrete_run E.
  split; [reflexivity|]. split; [reflexivity|]. split; [reflexivity|].
  split; [|reflexivity].
  intros [|[a t] l]; simpl.
  - discriminate.
  - intros (<- & _ & Hh & _). vm_compute in Hh. discriminate Hh.
Qed.

(** C3: the clamp does not see an expiry that lies in the past.  With one
    timer armed for millisecond 5 and the clock at millisecond 10, the
    timeout stays at its default of 3 600 000 ms instead of becoming 0. *)
Theorem update_timeout_misses_past_expiry :
  exists w t,
    run X0 (drvNATConstruct DRVNAT_zero []) acts_timer_past = Some w /\
    tlist (heap w) (pTimerHead (pNATState (this w))) [(1%N, t)] /\
    uTimeExpire t = 5 /\
    drvNAT_UpdateTimeout 1 w (10 * 1000 * 1000) DRVNAT_DEFAULT_TIMEOUT
    = Some DRVNAT_DEFAULT_TIMEOUT.
Proof.
  destruct (run X0 (drvNATConstruct DRVNAT_zero []) acts_timer_past) as [w|] eqn:E;
    [|vm_compute in E; discriminate E].
  exists w, {| next := NULL; uTimeExpire := 5; pHandler := 7; opaque := 0 |}.
  split; [reflexivity|]. concrete_run E.
  split; [|split; reflexivity].
  simpl. repeat split; try reflexivity. discriminate.
Qed.

(** What [drvNATRecvWorker] does, whatever the device port answers: the
    device-access lock is back where it was, the counter is one lower, the
    wakeup channel is poked, and the packet buffer is freed exactly when
    the wait succeeded. *)
Lemma RecvWorker_effects (w : World) (pBuf : ptr) (cb rcWait rcRecv : Z) (fWritten : bool) :
  let w' := drvNATRecvWorker w pBuf cb rcWait rcRecv fWritten in
  DevAccessLock (this w') = DevAccessLock (this w) /\
  cPkts (this w') = wrap32 (cPkts (this w) - 1) /\
  hPipe w' = (if fWritten then hPipe w + 1 else hPipe w) /\
  freed w' = freed w ++ (if RT_SUCCESS rcWait && negb (is_null pBuf) then [pBuf] else []) /\
  heap w' = (if RT_SUCCESS rcWait && negb (is_null pBuf) then delete pBuf (heap w) else heap w).
Proof.
  unfold drvNATRecvWorker, drvNATNotifyNATThread, RTMemFree.
  destruct fWritten, (RT_SUCCESS rcWait), (is_null pBuf); simpl;
    rewrite ?app_nil_r; repeat split; lia.
Qed.

(** C4: when the device port answers the wait with TIMEOUT or INTERRUPTED,
    the worker lets go of the lock, lowers the counter and pokes the wakeup
    channel, but it does not free the packet buffer: the block stays on the
    heap and no [RTMemFree] is logged. *)
Theorem recv_worker_keeps_buffer_on_timeout
    (w : World) (pBuf : ptr) (cb rcRecv : Z) (fWritten : bool) :
  (let w' := drvNATRecvWorker w pBuf cb VERR_TIMEOUT rcRecv fWritten in
   freed w' = freed w /\ heap w' = heap w /\
   DevAccessLock (this w') = DevAccessLock (this w) /\
   cPkts (this w') = wrap32 (cPkts (this w) - 1)) /\
  (let w' := drvNATRecvWorker w pBuf cb VERR_INTERRUPTED rcRecv fWritten in
   freed w' = freed w /\ heap w' = heap w /\
   DevAccessLock (this w') = DevAccessLock (this w) /\
   cPkts (this w') = wrap32 (cPkts (this w) - 1)) /\
  exists w1,
    run X0 (drvNATConstruct DRVNAT_zero []) acts_recv_timeout = Some w1 /\
    hRecvReqQueue (this w1) = [] /\ cPkts (this w1) = 0 /\
    heap w1 !! 1%N = Some (OMem 60) /\ freed w1 = [].
Proof.
  split; [|split].
  - pose proof (RecvWorker_effects w pBuf cb VERR_TIMEOUT rcRecv fWritten) as H.
    cbv zeta in *. simpl in H. rewrite app_nil_r in H. tauto.
  - pose proof (RecvWorker_effects w pBuf cb VERR_INTERRUPTED rcRecv fWritten) as H.
    cbv zeta in *. simpl in H. rewrite app_nil_r in H. tauto.
  - destruct (run X0 (drvNATConstruct DRVNAT_zero []) acts_recv_timeout) as [w1|] eqn:E;
      [|vm_compute in E; discriminate E].
    exists w1. split; [reflexivity|]. concrete_run E. repeat split.
Qed.


(** ** The allocator invariant along runs *)

Lemma heap_fresh_eq (w w' : World) :
  heap w' = heap w -> brk w' = brk w -> heap_fresh w -> heap_fresh w'.
Proof. intros Hh Hb Hf q Hq. rewrite Hh. apply Hf. rewrite <- Hb. exact Hq. Qed.

Lemma heap_fresh_store_live (w : World) (p : ptr) (o o' : Obj) :
  heap w !! p = Some o -> heap_fresh w -> heap_fresh (store w p o').
Proof.
  intros Hp Hf. apply heap_fresh_store; [|exact Hf].
  pose proof (heap_fresh_live w p o Hf Hp). lia.
Qed.

Lemma load_timer_Some (h : gmap N Obj) (p : ptr) (t : SlirpTimer) :
  load_timer h p = Some t -> h !! p = Some (OTimer t).
Proof.
  unfold load_timer. destruct (h !! p) as [[| |t'|]|]; try discriminate.
  intros H. inversion H. reflexivity.
Qed.

Lemma heap_fresh_Notify (w : World) (f : bool) :
  heap_fresh w -> heap_fresh (drvNATNotifyNATThread w f).
Proof.
  apply heap_fresh_eq; unfold drvNATNotifyNATThread; destruct f; reflexivity.
Qed.

Lemma heap_fresh_FreeSgBuf (w : World) (p : ptr) (w' : World) :
  drvNATFreeSgBuf w p = Some w' -> heap_fresh w -> heap_fresh w'.
Proof.
  unfold drvNATFreeSgBuf, load_sg.
  destruct (heap w !! p) as [[sg| | |]|] eqn:Hp; try discriminate.
  simpl. intros H Hf. inversion H; subst; clear H.
  apply heap_fresh_RTMemFree.
  assert (Hs : forall o', heap_fresh (store w p o')).
  { intros o'. eapply heap_fresh_store_live; eassumption. }
  assert (Hb : (p <= brk w)%N).
  { pose proof (heap_fresh_live w p _ Hf Hp). lia. }
  destruct (negb (is_null (pvAllocator sg))).
  - apply heap_fresh_RTMemFree, Hs.
  - destruct (negb (is_null (pvUser sg))); [|apply Hs].
    apply heap_fresh_store.
    + unfold RTMemFree. split_cases; exact Hb.
    + apply heap_fresh_RTMemFree, heap_fresh_RTMemFree, Hs.
Qed.

Lemma heap_fresh_AllocBuf (w : World) (cbMin : Z) (g : option PDMNETWORKGSO) (f1 f2 f3 : bool) :
  heap_fresh w -> heap_fresh (drvNATNetworkUp_AllocBuf w cbMin g f1 f2 f3).2.
Proof.
  intros Hf. unfold drvNATNetworkUp_AllocBuf.
  destruct (negb (is_RUNNING (pSlirpThread (this w)))); [exact Hf|].
  pose proof (heap_fresh_RTMemAlloc w f1 (OSg sg_zero) Hf) as H1.
  unfold RTMemAlloc in *. destruct f1; simpl in *; [|exact Hf].
  rewrite is_null_succ.
  destruct g as [g|].
  - destruct (DRVNAT_MAXFRAMESIZE <=? cbHdrsTotal g + cbMaxSeg g); simpl.
    + apply heap_fresh_RTMemFree. exact H1.
    + destruct f2, f3; simpl; rewrite ?is_null_succ; simpl;
        repeat (apply heap_fresh_RTMemFree);
        try (apply heap_fresh_store; [simpl; lia|]);
        try exact H1;
        intros q Hq; simpl in *; rewrite ?lookup_insert_ne by lia; apply Hf; lia.
  - destruct (DRVNAT_MAXFRAMESIZE <=? cbMin); simpl.
    + apply heap_fresh_RTMemFree. exact H1.
    + destruct f3; simpl; rewrite ?is_null_succ; simpl;
        repeat (apply heap_fresh_RTMemFree);
        try (apply heap_fresh_store; [simpl; lia|]);
        try exact H1;
        intros q Hq; simpl in *; rewrite ?lookup_insert_ne by lia; apply Hf; lia.
Qed.

Section AllocatorInvariant.

Variable X : Externals.

Lemma heap_fresh_SendWorker (w : World) (p : ptr) (w' : World) :
  drvNATSendWorker X w p = Some w' -> heap_fresh w -> heap_fresh w'.
Proof.
  unfold drvNATSendWorker. destruct (load_sg w p) as [sg|]; [|discriminate]. simpl.
  intros H Hf.
  destruct (is_UP (enmLinkState (this w))); simpl in H;
    [|eapply heap_fresh_FreeSgBuf; eassumption].
  destruct (negb (is_null (pvAllocator sg))); simpl in H.
  - eapply heap_fresh_FreeSgBuf; [exact H|]. exact Hf.
  - destruct (load_gso w (pvUser sg)) as [g|]; [|discriminate]. simpl in H.
    destruct (PDMNetGsoIsValid X g (cbUsed sg)); simpl in H;
      [|eapply heap_fresh_FreeSgBuf; [exact H|exact Hf]].
    destruct (drvNATSendWorker_segments X _ 0 _ g (cbUsed sg) w) as [w1|] eqn:Es;
      [|discriminate].
    simpl in H. eapply heap_fresh_FreeSgBuf; [exact H|].
    eapply segments_spec; [exact Hf|exact Es].
Qed.

Lemma heap_fresh_CheckTimeout_loop (c : Z) :
  forall (fuel : nat) (w : World) (p : ptr) (w' : World),
    drvNAT_CheckTimeout_loop fuel w c p = Some w' -> heap_fresh w -> heap_fresh w'.
Proof.
  induction fuel as [|fuel IH]; intros w p w' H Hf; simpl in H.
  - destruct (is_null p); [|discriminate]. inversion H; subst. exact Hf.
  - destruct (is_null p); [inversion H; subst; exact Hf|].
    destruct (load_timer (heap w) p) as [t|] eqn:Hl; [|discriminate].
    apply load_timer_Some in Hl. rename Hl into Hp. simpl in H.
    match type of H with context [load_timer (heap ?w1) p] =>
      assert (Hs : heap_fresh w1); [|destruct (load_timer (heap w1) p) as [t'|]; [|discriminate]] end.
    { destruct (negb (uTimeExpire t =? 0)); [|exact Hf].
      destruct (to_int64 (uTimeExpire t - c) <=? 0); [|exact Hf].
      eapply heap_fresh_eq; [| |eapply heap_fresh_store_live; [exact Hp|exact Hf]]; reflexivity. }
    simpl in H. eapply IH; eassumption.
Qed.

Lemma heap_fresh_TimerFreeCb_loop (pTimer : ptr) :
  forall (fuel : nat) (w : World) (p : ptr) (w' : World),
    drvNAT_TimerFreeCb_loop fuel w pTimer p = Some w' -> heap_fresh w -> heap_fresh w'.
Proof.
  induction fuel as [|fuel IH]; intros w p w' H Hf; simpl in H.
  - destruct (is_null p); [|discriminate]. inversion H; subst. exact Hf.
  - destruct (is_null p); [inversion H; subst; exact Hf|].
    destruct (p =? pTimer)%N;
      (destruct (load_timer (heap w) p) as [t|]; [|discriminate]); simpl in H.
    + eapply IH; [exact H|]. apply heap_fresh_RTMemFree. exact Hf.
    + eapply IH; eassumption.
Qed.

Lemma heap_fresh_slirp_req (w : World) (r : Req) (w' : World) :
  slirp_req X w r = Some w' -> heap_fresh w -> heap_fresh w'.
Proof.
  destruct r; simpl; intros H Hf.
  - eapply heap_fresh_SendWorker; [exact H|exact Hf].
  - discriminate.
  - inversion H. unfold drvNATNotifyLinkChangedWorker. split_cases; exact Hf.
  - inversion H. unfold drvNATNotifyApplyPortForwardCommand. split_cases; exact Hf.
Qed.

Lemma heap_fresh_call_and_wait (w : World) (rc : Z) (f : bool) (r : Req) (w' : World) :
  call_and_wait X w rc f r = Some w' -> heap_fresh w -> heap_fresh w'.
Proof.
  apply (call_and_wait_rel X (fun w w' => heap_fresh w -> heap_fresh w')).
  - auto.
  - auto.
  - intros w0 q Hf. exact Hf.
  - intros w0 f0. apply heap_fresh_Notify.
  - apply heap_fresh_slirp_req.
Qed.

Lemma step_heap_fresh (w : World) (a : Action) (w' : World) :
  heap_fresh w -> True -> step X w a = Some w' -> heap_fresh w'.
Proof.
  intros Hf _. destruct a; simpl; intros H;
    try (inversion H; subst; clear H;
         first [ exact Hf
               | apply heap_fresh_Notify; exact Hf
               | apply heap_fresh_AllocBuf; exact Hf
               | eapply heap_fresh_eq; [| |exact Hf]; reflexivity ]; fail).
  - inversion H. unfold drvNATNetworkUp_BeginXmit.
    destruct (RT_FAILURE rcEnter); exact Hf.
  - unfold drvNATNetworkUp_FreeBuf in H.
    destruct (drvNATFreeSgBuf w pSgBuf) as [w1|] eqn:E; [|discriminate].
    simpl in H. inversion H; subst. eapply heap_fresh_FreeSgBuf; eassumption.
  - unfold drvNATNetworkUp_SendBuf in H.
    destruct (is_RUNNING (pSlirpThread (this w))).
    + destruct (RT_SUCCESS rcQueue).
      * simpl in H. inversion H. apply heap_fresh_Notify. exact Hf.
      * match type of H with context [drvNATFreeSgBuf ?w1 _] =>
          destruct (drvNATFreeSgBuf w1 pSgBuf) as [w2|] eqn:E; [|discriminate] end.
        simpl in H. inversion H; subst. eapply heap_fresh_FreeSgBuf; [exact E|exact Hf].
    + destruct (drvNATFreeSgBuf w pSgBuf) as [w2|] eqn:E; [|discriminate].
      simpl in H. inversion H; subst. eapply heap_fresh_FreeSgBuf; eassumption.
  - unfold drvNATNetworkUp_NotifyLinkChanged in H.
    destruct (negb (is_RUNNING (pSlirpThread (this w)))); [inversion H; exact Hf|].
    eapply heap_fresh_call_and_wait; eassumption.
  - unfold drvNATNetworkNatConfigRedirect in H.
    destruct (negb (is_RUNNING (pSlirpThread (this w)))); simpl in H.
    + inversion H. unfold drvNATNotifyApplyPortForwardCommand. split_cases; exact Hf.
    + destruct (call_and_wait X w rcQueue fWritten _) as [w1|] eqn:E; [|discriminate].
      simpl in H. inversion H; subst. eapply heap_fresh_call_and_wait; eassumption.
  - apply AsyncIoThread_entry_frame in H. destruct H as (st' & ->).
    unfold drvNATNotifyLinkChangedWorker. split_cases; exact Hf.
  - destruct (drvNAT_AddPollCb RT_OS_POSIX w iFd iEvents fRealloc) as [[i w1]|] eqn:E;
      [|discriminate H].
    injection H as <-. apply AddPollCb_frame in E. destruct E as (st' & ->). exact Hf.
  - inversion H. unfold drvNATAsyncIoThread_drain. split_cases; exact Hf.
  - destruct (hSlirpReqQueue (this w)) as [|r q]; [inversion H; subst; exact Hf|].
    eapply heap_fresh_slirp_req; [exact H|exact Hf].
  - eapply heap_fresh_CheckTimeout_loop; eassumption.
  - inversion H. unfold drvNAT_SendPacketCb.
    pose proof (heap_fresh_RTMemAlloc w fAlloc (OMem cb) Hf) as Ha.
    destruct (RTMemAlloc w fAlloc (OMem cb)) as [p w1]. simpl in Ha.
    split_cases; try apply heap_fresh_Notify; exact Ha.
  - destruct (hRecvReqQueue (this w)) as [|r q]; [inversion H; subst; exact Hf|].
    destruct r; try discriminate. inversion H. unfold drvNATRecvWorker.
    apply heap_fresh_Notify.
    destruct (RT_SUCCESS rcWait); [|exact Hf].
    pose proof (heap_fresh_RTMemFree w pBuf Hf) as Ha.
    unfold RTMemFree in *. destruct (is_null pBuf); [exact Hf|exact Ha].
  - inversion H. unfold drvNAT_TimerNewCb.
    pose proof (heap_fresh_RTMemAlloc w fAlloc
                  (OTimer {| next := pTimerHead (pNATState (this w)); uTimeExpire := 0;
                             pHandler := slirpTimeCb; opaque := cb_opaque |}) Hf) as Ha.
    destruct (RTMemAlloc w fAlloc _) as [p w1]. simpl in Ha.
    split_cases; exact Ha.
  - eapply heap_fresh_TimerFreeCb_loop; eassumption.
  - unfold drvNAT_TimerModCb in H.
    destruct (load_timer (heap w) pTimer) as [t|] eqn:Hl; [|discriminate].
    apply load_timer_Some in Hl.
    simpl in H. inversion H; subst. eapply heap_fresh_store_live; eassumption.
Qed.

(** Every state a run reaches satisfies the allocator invariant that the
    statements about buffers assume. *)
Lemma run_heap_fresh (pThis : DRVNAT) (rules : list Redir) (acts : list Action) (w : World) :
  run X (drvNATConstruct pThis rules) acts = Some w -> heap_fresh w.
Proof.
  intros Hrun.
  eapply (run_invariant X heap_fresh (fun _ => True));
    [apply step_heap_fresh| |apply Forall_True_actions|exact Hrun].
  intros q _. unfold drvNATConstruct. simpl.
  assert (Hh : forall rs w0, heap (drvNATConstructRedir w0 rs) = heap w0).
  { unfold drvNATConstructRedir.
    induction rs as [|[[[[u b] hp] g] gp] rs IH]; intros w0; simpl; [reflexivity|].
    rewrite IH. reflexivity. }
  rewrite Hh. apply lookup_empty.
Qed.

End AllocatorInvariant.

(** * Further properties *)

(** ** Buffers: status, cleanup and round trips *)

(** X1. The status of an allocation is decided by, in this order: the NAT
    thread not running (NET_DOWN), the S/G structure not allocated
    (NO_MEMORY), the frame too big (INVALID_PARAMETER), a later allocation
    failing (TRY_AGAIN).  Whenever the status is not success, every block
    taken on the way has been given back: the heap, the instance data and
    the trace are as before and nothing is stored to [*ppSgBuf]. *)
Theorem alloc_buf_status_and_cleanup (w : World) (cbMin : Z) (pGso : option PDMNETWORKGSO)
    (fSg fUser fSeg : bool) :
  heap_fresh w ->
  let res := drvNATNetworkUp_AllocBuf w cbMin pGso fSg fUser fSeg in
  res.1.1 = alloc_status (is_RUNNING (pSlirpThread (this w))) cbMin pGso fSg fUser fSeg /\
  (res.1.1 <> VINF_SUCCESS ->
   heap res.2 = heap w /\ this res.2 = this w /\ trace res.2 = trace w /\ res.1.2 = NULL).
Proof.
  intros Hf. unfold drvNATNetworkUp_AllocBuf, alloc_status.
  destruct (is_RUNNING (pSlirpThread (this w))); simpl; [|auto].
  unfold RTMemAlloc. destruct fSg; simpl; [|auto].
  rewrite is_null_succ.
  destruct pGso as [g|].
  - destruct (DRVNAT_MAXFRAMESIZE <=? cbHdrsTotal g + cbMaxSeg g); simpl.
    + unfold RTMemFree. rewrite is_null_succ. simpl.
      split; [reflexivity|]. intros _. repeat split. heap_eq Hf.
    + destruct fUser, fSeg; simpl; rewrite ?is_null_succ; simpl;
        (split; [reflexivity|]); intros Hne; try (exfalso; apply Hne; reflexivity);
        unfold RTMemFree; simpl; rewrite ?is_null_succ; simpl;
        repeat split; heap_eq Hf.
  - destruct (DRVNAT_MAXFRAMESIZE <=? cbMin); simpl.
    + unfold RTMemFree. rewrite is_null_succ. simpl.
      split; [reflexivity|]. intros _. repeat split. heap_eq Hf.
    + destruct fSeg; simpl; rewrite ?is_null_succ; simpl;
        (split; [reflexivity|]); intros Hne; try (exfalso; apply Hne; reflexivity);
        unfold RTMemFree; simpl; rewrite ?is_null_succ; simpl;
        repeat split; heap_eq Hf.
Qed.

Lemma alloc_buf_status_and_cleanup_witness :
  (drvNATNetworkUp_AllocBuf w_running 1500 (Some gso_tcp4) true true false).1.1 = VERR_TRY_AGAIN /\
  heap (drvNATNetworkUp_AllocBuf w_running 1500 (Some gso_tcp4) true true false).2
  = heap w_running.
Proof.
  pose proof (alloc_buf_status_and_cleanup w_running 1500 (Some gso_tcp4) true true false
                heap_fresh_w_running) as (Hs & Hc).
  split; [exact Hs|]. apply Hc. rewrite Hs. discriminate.
Defined.

(** The heap after a successful allocation: the old heap with the new
    blocks, all at addresses handed out after [w]. *)
Lemma AllocBuf_ordinary_heap (w : World) (cbMin : Z) (fUser : bool) :
  is_RUNNING (pSlirpThread (this w)) = true ->
  (DRVNAT_MAXFRAMESIZE <=? cbMin) = false ->
  forall pSgBuf w' sg,
    drvNATNetworkUp_AllocBuf w cbMin None true fUser true = (VINF_SUCCESS, pSgBuf, w') ->
    load_sg w' pSgBuf = Some sg ->
    pSgBuf = N.succ (brk w) /\ aSegs0_pvSeg sg = N.succ (N.succ (brk w)) /\
    heap w' = <[pSgBuf := OSg sg]> (<[aSegs0_pvSeg sg := OMem (aSegs0_cbSeg sg)]> (heap w)) /\
    trace w' = trace w /\ freed w' = freed w /\ brk w' = aSegs0_pvSeg sg.
Proof.
  intros Hr Hsz p w' sg. unfold drvNATNetworkUp_AllocBuf. rewrite Hr. simpl.
  rewrite is_null_succ, Hsz. simpl. rewrite is_null_succ.
  intros H. injection H as <- <-. unfold load_sg, store. simpl.
  rewrite lookup_insert_eq. intros H. injection H as <-. simpl.
  repeat split. apply map_eq. intros k.
  repeat (rewrite lookup_insert). repeat case_decide; subst; try reflexivity; lia.
Qed.

Lemma AllocBuf_gso_heap (w : World) (cbMin : Z) (g : PDMNETWORKGSO) :
  is_RUNNING (pSlirpThread (this w)) = true ->
  (DRVNAT_MAXFRAMESIZE <=? cbHdrsTotal g + cbMaxSeg g) = false ->
  forall pSgBuf w' sg,
    drvNATNetworkUp_AllocBuf w cbMin (Some g) true true true = (VINF_SUCCESS, pSgBuf, w') ->
    load_sg w' pSgBuf = Some sg ->
    pSgBuf = N.succ (brk w) /\ pvUser sg = N.succ (N.succ (brk w)) /\
    aSegs0_pvSeg sg = N.succ (N.succ (N.succ (brk w))) /\
    heap w' = <[pSgBuf := OSg sg]>
                (<[aSegs0_pvSeg sg := OMem (aSegs0_cbSeg sg)]>
                   (<[pvUser sg := OGso g]> (heap w))) /\
    trace w' = trace w /\ freed w' = freed w /\ brk w' = aSegs0_pvSeg sg.
Proof.
  intros Hr Hsz p w' sg. unfold drvNATNetworkUp_AllocBuf. rewrite Hr. simpl.
  rewrite is_null_succ, Hsz. simpl. rewrite !is_null_succ. simpl.
  intros H. injection H as <- <-. unfold load_sg, store. simpl.
  rewrite lookup_insert_eq. intros H. injection H as <-. simpl.
  repeat split. apply map_eq. intros k.
  repeat (rewrite lookup_insert). repeat case_decide; subst; try reflexivity; lia.
Qed.

(** The heap after [drvNATFreeSgBuf]: the blocks of the buffer are gone,
    every other block is as it was. *)
Lemma FreeSgBuf_ordinary_heap (w : World) (p : ptr) (sg : PDMSCATTERGATHER) (w' : World) :
  sg_ordinary w p sg ->
  drvNATFreeSgBuf w p = Some w' ->
  heap w' = delete p (delete (aSegs0_pvSeg sg) (heap w)) /\
  freed w' = freed w ++ [aSegs0_pvSeg sg; p] /\ trace w' = trace w /\ this w' = this w.
Proof.
  intros (Hl & Hp & Ha & Hu & Hs & Hm).
  unfold drvNATFreeSgBuf. rewrite Hl. simpl.
  rewrite Ha, (is_null_false _ Hs). simpl.
  unfold RTMemFree. simpl. rewrite (is_null_false _ Hs), (is_null_false _ Hp). simpl.
  intros H. injection H as <-. simpl. rewrite <- app_assoc.
  repeat split. apply map_eq. intros k.
  repeat (rewrite lookup_delete || rewrite lookup_insert).
  repeat case_decide; subst; try reflexivity; congruence.
Qed.

Lemma FreeSgBuf_gso_heap (w : World) (p : ptr) (sg : PDMSCATTERGATHER) (g : PDMNETWORKGSO)
    (w' : World) :
  sg_gso w p sg g ->
  drvNATFreeSgBuf w p = Some w' ->
  heap w' = delete p (delete (pvUser sg) (delete (aSegs0_pvSeg sg) (heap w))) /\
  freed w' = freed w ++ [aSegs0_pvSeg sg; pvUser sg; p] /\ trace w' = trace w /\
  this w' = this w.
Proof.
  intros (Hl & Hp & Ha & Hu & Hs & Hm & Hg).
  unfold drvNATFreeSgBuf. rewrite Hl. simpl.
  rewrite Ha. simpl. rewrite (is_null_false _ Hu). simpl.
  unfold RTMemFree. simpl. rewrite (is_null_false _ Hs), (is_null_false _ Hu). simpl.
  rewrite (is_null_false _ Hp).
  intros H. injection H as <-. simpl. rewrite <- !app_assoc.
  repeat split. apply map_eq. intros k.
  repeat (rewrite lookup_delete || rewrite lookup_insert).
  repeat case_decide; subst; try reflexivity; congruence.
Qed.

(** Deleting what was inserted at fresh addresses gives the old heap. *)
Lemma heap_insert2_delete2 (h : gmap N Obj) (a b : N) (x y : Obj) :
  h !! a = None -> h !! b = None ->
  delete a (delete b (<[a := x]> (<[b := y]> h))) = h.
Proof.
  intros Ha Hb. apply map_eq. intros k.
  repeat (rewrite lookup_delete || rewrite lookup_insert).
  repeat case_decide; subst; congruence.
Qed.

Lemma heap_insert3_delete3 (h : gmap N Obj) (a b c : N) (x y z : Obj) :
  h !! a = None -> h !! b = None -> h !! c = None ->
  delete a (delete c (delete b (<[a := x]> (<[b := y]> (<[c := z]> h))))) = h.
Proof.
  intros Ha Hb Hc. apply map_eq. intros k.
  repeat (rewrite lookup_delete || rewrite lookup_insert).
  repeat case_decide; subst; congruence.
Qed.

(** X2. A buffer that is allocated and handed back with the free operation
    leaves no trace on the heap: for an ordinary frame and for a GSO frame
    the heap after [drvNATNetworkUp_FreeBuf] is the heap before
    [drvNATNetworkUp_AllocBuf], and the free operation answers success. *)
Theorem alloc_free_roundtrip (w : World) (cbMin : Z) (pGso : option PDMNETWORKGSO) :
  heap_fresh w ->
  alloc_status (is_RUNNING (pSlirpThread (this w))) cbMin pGso true true true = VINF_SUCCESS ->
  exists pSgBuf w1 w2,
    drvNATNetworkUp_AllocBuf w cbMin pGso true true true = (VINF_SUCCESS, pSgBuf, w1) /\
    drvNATNetworkUp_FreeBuf w1 pSgBuf = Some (VINF_SUCCESS, w2) /\
    heap w2 = heap w /\ this w2 = this w /\ trace w2 = trace w /\
    length (freed w2) = (length (freed w) + match pGso with None => 2 | Some _ => 3 end)%nat.
Proof.
  intros Hf Hst. unfold alloc_status in Hst.
  destruct (is_RUNNING (pSlirpThread (this w))) eqn:Hr; [|discriminate]. simpl in Hst.
  destruct pGso as [g|].
  - destruct (DRVNAT_MAXFRAMESIZE <=? cbHdrsTotal g + cbMaxSeg g) eqn:Hsz; [discriminate|].
    destruct (AllocBuf_gso_ok w cbMin g Hf Hr Hsz) as (p & w1 & sg & Ha & Hwf & _ & Ht & _).
    destruct (AllocBuf_gso_heap w cbMin g Hr Hsz p w1 sg Ha (proj1 Hwf))
      as (Hp & Hu & Hs & Hh & Htr & Hfr & _).
    destruct (FreeSgBuf_released w1 p sg (or_intror (ex_intro _ g Hwf))) as (w2 & Hfree & _).
    destruct (FreeSgBuf_gso_heap w1 p sg g w2 Hwf Hfree) as (Hh2 & Hfr2 & Htr2 & Ht2).
    exists p, w1, w2. split; [exact Ha|]. unfold drvNATNetworkUp_FreeBuf. rewrite Hfree.
    split; [reflexivity|]. split; [|split; [congruence|split; [congruence|]]].
    + rewrite Hh2, Hh. apply heap_insert3_delete3; apply Hf; lia.
    + rewrite Hfr2, Hfr, length_app. reflexivity.
  - destruct (DRVNAT_MAXFRAMESIZE <=? cbMin) eqn:Hsz; [discriminate|].
    destruct (AllocBuf_ordinary_ok w cbMin true Hf Hr Hsz) as (p & w1 & sg & Ha & Hwf & _ & Ht & _).
    destruct (AllocBuf_ordinary_heap w cbMin true Hr Hsz p w1 sg Ha (proj1 Hwf))
      as (Hp & Hs & Hh & Htr & Hfr & _).
    destruct (FreeSgBuf_released w1 p sg (or_introl Hwf)) as (w2 & Hfree & _).
    destruct (FreeSgBuf_ordinary_heap w1 p sg w2 Hwf Hfree) as (Hh2 & Hfr2 & Htr2 & Ht2).
    exists p, w1, w2. split; [exact Ha|]. unfold drvNATNetworkUp_FreeBuf. rewrite Hfree.
    split; [reflexivity|]. split; [|split; [congruence|split; [congruence|]]].
    + rewrite Hh2, Hh. apply heap_insert2_delete2; apply Hf; lia.
    + rewrite Hfr2, Hfr, length_app. reflexivity.
Qed.

Lemma alloc_free_roundtrip_witness :
  exists pSgBuf w1 w2,
    drvNATNetworkUp_AllocBuf w_running 1500 (Some gso_tcp4) true true true
    = (VINF_SUCCESS, pSgBuf, w1) /\
    drvNATNetworkUp_FreeBuf w1 pSgBuf = Some (VINF_SUCCESS, w2) /\
    heap w2 = heap w_running.
Proof.
  destruct (alloc_free_roundtrip w_running 1500 (Some gso_tcp4) heap_fresh_w_running eq_refl)
    as (p & w1 & w2 & Ha & Hfree & Hh & _).
  exists p, w1, w2. auto.
Defined.

(** ** What reaches the engine *)

Lemma input_lens_app (tr l : list Event) :
  input_lens (tr ++ l) = input_lens tr ++ input_lens l.
Proof.
  induction tr as [|e tr IH]; simpl; [reflexivity|].
  rewrite IH. destruct e; reflexivity.
Qed.

Section WorkerInputs.

Variable X : Externals.

Lemma segments_inputs (n : nat) :
  forall (iSeg cSegs_ : Z) (g : PDMNETWORKGSO) (cbFrame : Z) (w w' : World),
    drvNATSendWorker_segments X n iSeg cSegs_ g cbFrame w = Some w' ->
    input_lens (trace w')
    = input_lens (trace w)
      ++ map (fun i => gso_segment_len X g cbFrame (iSeg + Z.of_nat i) cSegs_) (seq 0 n).
Proof.
  induction n as [|n IH]; intros iSeg cSegs_ g cbFrame w w' Hrun.
  - simpl in Hrun. injection Hrun as <-. simpl. rewrite app_nil_r. reflexivity.
  - cbn [drvNATSendWorker_segments] in Hrun. unfold RTMemAlloc in Hrun.
    destruct (RTMemAlloc_scratch X (brk w) iSeg); [|discriminate Hrun].
    rewrite is_null_succ in Hrun.
    cbn [seq map]. rewrite Z.add_0_r.
    destruct (PDMNetGsoCarveSegment X g cbFrame iSeg cSegs_) as [[off cbHdrs] cbPayload] eqn:E.
    assert (Hseg : gso_segment_len X g cbFrame iSeg cSegs_
                   = to_int32 (wrap32 (cbPayload + cbHdrs))).
    { unfold gso_segment_len. rewrite E. reflexivity. }
    rewrite (IH _ _ _ _ _ _ Hrun), Hseg. unfold RTMemFree. rewrite is_null_succ. simpl.
    rewrite input_lens_app. simpl. rewrite <- app_assoc. simpl.
    f_equal. f_equal. rewrite <- seq_shift, map_map.
    apply map_ext. intros i. f_equal. lia.
Qed.

(** The worker is the hand-over to the engine followed by
    [drvNATFreeSgBuf] on an unchanged heap. *)
Lemma SendWorker_decompose (w : World) (p : ptr) (sg : PDMSCATTERGATHER) :
  scratch_ok X \/ sg_ordinary w p sg \/ is_UP (enmLinkState (this w)) = false ->
  heap_fresh w ->
  sg_ordinary w p sg \/ (exists g, sg_gso w p sg g) ->
  exists w1 w',
    drvNATSendWorker X w p = Some w' /\
    drvNATFreeSgBuf w1 p = Some w' /\
    heap w1 = heap w /\ this w1 = this w /\
    input_lens (trace w1)
    = input_lens (trace w)
      ++ worker_inputs X (is_UP (enmLinkState (this w))) sg (load_gso w (pvUser sg)).
Proof.
  intros Hok Hf Hwf.
  assert (Hl : load_sg w p = Some sg).
  { destruct Hwf as [Ho|(g & Hg)]; [apply Ho|apply Hg]. }
  unfold drvNATSendWorker, worker_inputs. rewrite Hl. simpl.
  destruct (is_UP (enmLinkState (this w))).
  - destruct Hwf as [Ho|(g & Hg)].
    + pose proof Ho as (_ & _ & Ha & _ & Hs & _).
      rewrite Ha, (is_null_false _ Hs). simpl.
      destruct (FreeSgBuf_released
                  (emit (EvSlirpInput (aSegs0_pvSeg sg) (to_int32 (cbUsed sg))) w) p sg)
        as (w' & Hfr & _).
      { eapply sg_wf_heap; [|left; exact Ho]. reflexivity. }
      eexists _, w'. split; [exact Hfr|]. split; [exact Hfr|].
      split; [reflexivity|]. split; [reflexivity|].
      simpl. rewrite input_lens_app. reflexivity.
    + pose proof Hg as (_ & _ & Ha & Hu & Hs & Hm & Hgl).
      rewrite Ha. simpl. unfold load_gso. rewrite Hgl. simpl.
      destruct (PDMNetGsoIsValid X g (cbUsed sg)); simpl.
      * assert (Hok' : scratch_ok X).
        { destruct Hok as [Hok|[Ho|Hd]]; [exact Hok| |discriminate Hd].
          destruct Ho as (_ & _ & Ha' & _ & Hs' & _). rewrite Ha' in Ha.
          exfalso. apply Hs'. exact Ha. }
        set (cs := PDMNetGsoCalcSegmentCount X g (cbUsed sg)).
        destruct (segments_run X Hok' (Z.to_nat cs) 0 cs g (cbUsed sg) w) as (w1 & Hseg).
        rewrite Hseg. simpl.
        destruct (segments_spec X (Z.to_nat cs) 0 cs g (cbUsed sg) w w1 Hf Hseg)
          as (Hh & _ & _ & _).
        pose proof (segments_inputs (Z.to_nat cs) 0 cs g (cbUsed sg) w w1 Hseg) as Hin.
        pose proof (same_obs_segments X (Z.to_nat cs) 0 cs g (cbUsed sg) w w1 Hseg)
          as (Hth & _).
        destruct (FreeSgBuf_released w1 p sg) as (w' & Hfr & _).
        { eapply sg_wf_heap; [exact Hh|right; exists g; exact Hg]. }
        exists w1, w'. split; [exact Hfr|]. split; [exact Hfr|].
        split; [exact Hh|]. split; [exact Hth|]. exact Hin.
      * destruct (FreeSgBuf_released w p sg) as (w' & Hfr & _).
        { right. exists g. exact Hg. }
        exists w, w'. rewrite app_nil_r. auto.
  - simpl. destruct (FreeSgBuf_released w p sg Hwf) as (w' & Hfr & _).
    exists w, w'. rewrite app_nil_r. auto.
Qed.


End WorkerInputs.


(** ** The transmit path end to end *)

Lemma device_fill_ordinary (w : World) (p : ptr) (sg : PDMSCATTERGATHER) (cb : Z) :
  heap_fresh w -> sg_ordinary w p sg ->
  exists w',
    device_fill w p cb = Some w' /\ sg_ordinary w' p (sg_set_cbUsed cb sg) /\
    heap_fresh w' /\ heap w' = <[p := OSg (sg_set_cbUsed cb sg)]> (heap w) /\
    this w' = this w /\ trace w' = trace w.
Proof.
  intros Hf (Hl & Hp & Ha & Hu & Hs & Hm). unfold device_fill. rewrite Hl. simpl.
  eexists. split; [reflexivity|].
  assert (Hlive : heap w !! p = Some (OSg sg)).
  { unfold load_sg in Hl. destruct (heap w !! p) as [[]|]; congruence. }
  assert (Hne : p <> aSegs0_pvSeg sg) by (intros E; rewrite E, Hm in Hlive; discriminate).
  split; [|split; [eapply heap_fresh_store_live; eassumption|repeat split]].
  unfold sg_ordinary, load_sg, store. simpl. rewrite lookup_insert_eq.
  repeat split; try assumption. rewrite lookup_insert_ne by exact Hne. exact Hm.
Qed.

Lemma device_fill_gso (w : World) (p : ptr) (sg : PDMSCATTERGATHER) (g : PDMNETWORKGSO)
    (cb : Z) :
  heap_fresh w -> sg_gso w p sg g ->
  exists w',
    device_fill w p cb = Some w' /\ sg_gso w' p (sg_set_cbUsed cb sg) g /\
    heap_fresh w' /\ heap w' = <[p := OSg (sg_set_cbUsed cb sg)]> (heap w) /\
    this w' = this w /\ trace w' = trace w.
Proof.
  intros Hf (Hl & Hp & Ha & Hu & Hs & Hm & Hg). unfold device_fill. rewrite Hl. simpl.
  eexists. split; [reflexivity|].
  assert (Hlive : heap w !! p = Some (OSg sg)).
  { unfold load_sg in Hl. destruct (heap w !! p) as [[]|]; congruence. }
  assert (Hne : p <> aSegs0_pvSeg sg) by (intros E; rewrite E, Hm in Hlive; discriminate).
  assert (Hne2 : p <> pvUser sg) by (intros E; rewrite E, Hg in Hlive; discriminate).
  split; [|split; [eapply heap_fresh_store_live; eassumption|repeat split]].
  unfold sg_gso, load_sg, store. simpl. rewrite lookup_insert_eq.
  repeat split; try assumption; rewrite lookup_insert_ne by assumption; assumption.
Qed.

(** What [drvNATNetworkUp_SendBuf] does to a world whose NAT thread runs. *)
Lemma SendBuf_accepted (w : World) (p : ptr) (rcQueue : Z) (fWritten : bool) :
  is_RUNNING (pSlirpThread (this w)) = true -> RT_SUCCESS rcQueue = true ->
  exists w',
    drvNATNetworkUp_SendBuf w p rcQueue fWritten = Some (VINF_SUCCESS, w') /\
    heap w' = heap w /\ brk w' = brk w /\ freed w' = freed w /\
    enmLinkState (this w') = enmLinkState (this w) /\
    input_lens (trace w') = input_lens (trace w) /\
    hSlirpReqQueue (this w') = hSlirpReqQueue (this w) ++ [ReqSendWorker p].
Proof.
  intros Hr Hq. unfold drvNATNetworkUp_SendBuf, RTReqQueueCallEx_NoWait.
  rewrite Hr, Hq. eexists. split; [reflexivity|].
  unfold drvNATNotifyNATThread. destruct fWritten; simpl;
    rewrite ?input_lens_app; simpl; rewrite ?app_nil_r; repeat split.
Qed.

Lemma SendBuf_refused_eq (w : World) (p : ptr) (rcQueue : Z) (fWritten : bool) :
  is_RUNNING (pSlirpThread (this w)) = true -> RT_SUCCESS rcQueue = false ->
  exists w0,
    heap w0 = heap w /\ trace w0 = trace w /\
    drvNATNetworkUp_SendBuf w p rcQueue fWritten
    = (w' ← drvNATFreeSgBuf w0 p; Some (VERR_NET_NO_BUFFER_SPACE, w')).
Proof.
  intros Hr Hq. unfold drvNATNetworkUp_SendBuf, RTReqQueueCallEx_NoWait.
  rewrite Hr, Hq. eexists. split; [|split; [|reflexivity]]; reflexivity.
Qed.

Section TransmitPath.

Variable X : Externals.

(** X4. The transmit path end to end.  A frame is allocated, the device
    sets the number of bytes used, and the frame is submitted.  If the
    engine queue accepts it, the send worker then hands the engine exactly
    the inputs of that frame (one input whose length is the used bytes
    converted to [int] for an ordinary frame, one per segment for a valid
    GSO frame, nothing with the link not up) and afterwards the heap is
    what it was before the allocation; for a GSO frame with the link up
    this needs the allocator to deliver the scratch buffer of every segment.
    If the queue refuses, the send operation answers NET_NO_BUFFER_SPACE,
    nothing reaches the engine and the heap is again what it was. *)
Theorem transmit_path_end_to_end (w : World) (cbMin : Z) (pGso : option PDMNETWORKGSO)
    (cb : Z) (rcQueue : Z) (fWritten : bool) :
  heap_fresh w ->
  alloc_status (is_RUNNING (pSlirpThread (this w))) cbMin pGso true true true = VINF_SUCCESS ->
  exists pSgBuf w1 w2 rc w3,
    drvNATNetworkUp_AllocBuf w cbMin pGso true true true = (VINF_SUCCESS, pSgBuf, w1) /\
    device_fill w1 pSgBuf cb = Some w2 /\
    drvNATNetworkUp_SendBuf w2 pSgBuf rcQueue fWritten = Some (rc, w3) /\
    if RT_SUCCESS rcQueue then
      rc = VINF_SUCCESS /\
      (scratch_ok X \/ pGso = None \/ is_UP (enmLinkState (this w)) = false ->
       exists w4,
         drvNATSendWorker X w3 pSgBuf = Some w4 /\
         heap w4 = heap w /\
         input_lens (trace w4)
         = input_lens (trace w) ++ frame_inputs X (is_UP (enmLinkState (this w))) pGso cb)
    else
      rc = VERR_NET_NO_BUFFER_SPACE /\ heap w3 = heap w /\
      input_lens (trace w3) = input_lens (trace w).
Proof.
  intros Hf Hst. unfold alloc_status in Hst.
  destruct (is_RUNNING (pSlirpThread (this w))) eqn:Hr; [|discriminate]. simpl in Hst.
  destruct pGso as [g|].
  - destruct (DRVNAT_MAXFRAMESIZE <=? cbHdrsTotal g + cbMaxSeg g) eqn:Hsz; [discriminate|].
    destruct (AllocBuf_gso_ok w cbMin g Hf Hr Hsz)
      as (p & w1 & sg & Ha & Hwf & Hf1 & Ht1 & Hsg).
    destruct (AllocBuf_gso_heap w cbMin g Hr Hsz p w1 sg Ha (proj1 Hwf))
      as (Hp & Hu & Hs & Hh1 & Htr1 & _).
    destruct (device_fill_gso w1 p sg g cb Hf1 Hwf)
      as (w2 & Hfill & Hwf2 & Hf2 & Hh2 & Ht2 & Htr2).
    assert (Hr2 : is_RUNNING (pSlirpThread (this w2)) = true) by (rewrite Ht2, Ht1; exact Hr).
    assert (Hrestore : forall h', h' = heap w2 ->
              delete p (delete (pvUser sg) (delete (aSegs0_pvSeg sg) h')) = heap w).
    { intros h' ->. rewrite Hh2, Hh1. apply map_eq. intros k.
      repeat (rewrite lookup_delete || rewrite lookup_insert).
      repeat case_decide; subst; try reflexivity; try lia; symmetry; apply Hf; lia. }
    exists p, w1, w2.
    destruct (RT_SUCCESS rcQueue) eqn:Hq.
    + destruct (SendBuf_accepted w2 p rcQueue fWritten Hr2 Hq)
        as (w3 & Hsend & Hh3 & Hb3 & _ & Hl3 & Hin3 & _).
      exists VINF_SUCCESS, w3. split; [exact Ha|]. split; [exact Hfill|].
      split; [exact Hsend|]. split; [reflexivity|].
      assert (Hf3 : heap_fresh w3) by (eapply heap_fresh_eq; eassumption).
      assert (Hwf3 : sg_gso w3 p (sg_set_cbUsed cb sg) g).
      { destruct (sg_wf_heap w2 w3 p _ Hh3 (or_intror (ex_intro _ g Hwf2))) as [Ho|(g' & Hg')].
        - destruct Ho as (_ & _ & _ & Hnu & _). destruct Hwf2 as (_ & _ & _ & Hu2 & _).
          contradiction.
        - pose proof Hg' as (_ & _ & _ & _ & _ & _ & Hgl').
          pose proof Hwf2 as (_ & _ & _ & _ & _ & _ & Hgl2).
          rewrite Hh3 in Hgl'. rewrite Hgl2 in Hgl'. injection Hgl' as <-. exact Hg'. }
      intros Hok.
      assert (Hok3 : scratch_ok X \/ sg_ordinary w3 p (sg_set_cbUsed cb sg) \/
                     is_UP (enmLinkState (this w3)) = false).
      { destruct Hok as [Hok|[Hn|Hd]]; [left; exact Hok|discriminate Hn|].
        right; right. rewrite Hl3, Ht2, Ht1. exact Hd. }
      destruct (SendWorker_decompose X w3 p _ Hok3 Hf3 (or_intror (ex_intro _ g Hwf3)))
        as (w3' & w4 & Hw & Hfr & Hh3' & Ht3' & Hin).
      exists w4. split; [exact Hw|].
      assert (Hwf3' : sg_gso w3' p (sg_set_cbUsed cb sg) g).
      { unfold sg_gso, load_sg in *. rewrite Hh3'. exact Hwf3. }
      destruct (FreeSgBuf_gso_heap w3' p _ g w4 Hwf3' Hfr) as (Hh4 & _ & Htr4 & _).
      split.
      * rewrite Hh4. apply Hrestore. congruence.
      * rewrite Htr4, Hin, Hin3, Htr2, Htr1, Hl3, Ht2, Ht1. f_equal.
        unfold worker_inputs, frame_inputs.
        destruct Hwf3 as (_ & _ & Hal & _ & _ & _ & Hgl).
        rewrite Hal. unfold load_gso. rewrite Hgl. reflexivity.
    + destruct (SendBuf_refused_eq w2 p rcQueue fWritten Hr2 Hq) as (w0 & Hh0 & Htr0 & Heq).
      assert (Hwf0 : sg_gso w0 p (sg_set_cbUsed cb sg) g).
      { unfold sg_gso, load_sg in *. rewrite Hh0. exact Hwf2. }
      destruct (FreeSgBuf_released w0 p _ (or_intror (ex_intro _ g Hwf0))) as (w3 & Hfr & _).
      destruct (FreeSgBuf_gso_heap w0 p _ g w3 Hwf0 Hfr) as (Hh3 & _ & Htr3 & _).
      exists VERR_NET_NO_BUFFER_SPACE, w3. split; [exact Ha|]. split; [exact Hfill|].
      rewrite Heq, Hfr. split; [reflexivity|]. split; [reflexivity|]. split.
      * rewrite Hh3. apply Hrestore. congruence.
      * congruence.
  - destruct (DRVNAT_MAXFRAMESIZE <=? cbMin) eqn:Hsz; [discriminate|].
    destruct (AllocBuf_ordinary_ok w cbMin true Hf Hr Hsz)
      as (p & w1 & sg & Ha & Hwf & Hf1 & Ht1 & Hsg).
    destruct (AllocBuf_ordinary_heap w cbMin true Hr Hsz p w1 sg Ha (proj1 Hwf))
      as (Hp & Hs & Hh1 & Htr1 & _).
    destruct (device_fill_ordinary w1 p sg cb Hf1 Hwf)
      as (w2 & Hfill & Hwf2 & Hf2 & Hh2 & Ht2 & Htr2).
    assert (Hr2 : is_RUNNING (pSlirpThread (this w2)) = true) by (rewrite Ht2, Ht1; exact Hr).
    assert (Hrestore : forall h', h' = heap w2 ->
              delete p (delete (aSegs0_pvSeg sg) h') = heap w).
    { intros h' ->. rewrite Hh2, Hh1. apply map_eq. intros k.
      repeat (rewrite lookup_delete || rewrite lookup_insert).
      repeat case_decide; subst; try reflexivity; try lia; symmetry; apply Hf; lia. }
    exists p, w1, w2.
    destruct (RT_SUCCESS rcQueue) eqn:Hq.
    + destruct (SendBuf_accepted w2 p rcQueue fWritten Hr2 Hq)
        as (w3 & Hsend & Hh3 & Hb3 & _ & Hl3 & Hin3 & _).
      exists VINF_SUCCESS, w3. split; [exact Ha|]. split; [exact Hfill|].
      split; [exact Hsend|]. split; [reflexivity|].
      assert (Hf3 : heap_fresh w3) by (eapply heap_fresh_eq; eassumption).
      assert (Hwf3 : sg_ordinary w3 p (sg_set_cbUsed cb sg)).
      { unfold sg_ordinary, load_sg in *. rewrite Hh3. exact Hwf2. }
      intros _.
      destruct (SendWorker_decompose X w3 p _ (or_intror (or_introl Hwf3)) Hf3
                  (or_introl Hwf3))
        as (w3' & w4 & Hw & Hfr & Hh3' & Ht3' & Hin).
      exists w4. split; [exact Hw|].
      assert (Hwf3' : sg_ordinary w3' p (sg_set_cbUsed cb sg)).
      { unfold sg_ordinary, load_sg in *. rewrite Hh3'. exact Hwf3. }
      destruct (FreeSgBuf_ordinary_heap w3' p _ w4 Hwf3' Hfr) as (Hh4 & _ & Htr4 & _).
      split.
      * rewrite Hh4. apply Hrestore. congruence.
      * rewrite Htr4, Hin, Hin3, Htr2, Htr1, Hl3, Ht2, Ht1. f_equal.
        unfold worker_inputs, frame_inputs.
        destruct Hwf3 as (_ & _ & Hal & _ & Hsn & _).
        rewrite Hal, (is_null_false _ Hsn). reflexivity.
    + destruct (SendBuf_refused_eq w2 p rcQueue fWritten Hr2 Hq) as (w0 & Hh0 & Htr0 & Heq).
      assert (Hwf0 : sg_ordinary w0 p (sg_set_cbUsed cb sg)).
      { unfold sg_ordinary, load_sg in *. rewrite Hh0. exact Hwf2. }
      destruct (FreeSgBuf_released w0 p _ (or_introl Hwf0)) as (w3 & Hfr & _).
      destruct (FreeSgBuf_ordinary_heap w0 p _ w3 Hwf0 Hfr) as (Hh3 & _ & Htr3 & _).
      exists VERR_NET_NO_BUFFER_SPACE, w3. split; [exact Ha|]. split; [exact Hfill|].
      rewrite Heq, Hfr. split; [reflexivity|]. split; [reflexivity|]. split.
      * rewrite Hh3. apply Hrestore. congruence.
      * congruence.
Qed.

End TransmitPath.

Lemma transmit_path_end_to_end_witness :
  exists pSgBuf w1 w2 w3 w4,
    drvNATNetworkUp_AllocBuf w_running 60 None true true true = (VINF_SUCCESS, pSgBuf, w1) /\
    device_fill w1 pSgBuf (2 ^ 32 + 60) = Some w2 /\
    drvNATNetworkUp_SendBuf w2 pSgBuf VINF_SUCCESS true = Some (VINF_SUCCESS, w3) /\
    drvNATSendWorker X0 w3 pSgBuf = Some w4 /\
    heap w4 = heap w_running /\
    input_lens (trace w4) = [60].
Proof.
  destruct (transmit_path_end_to_end X0 w_running 60 None (2 ^ 32 + 60) VINF_SUCCESS true
              heap_fresh_w_running eq_refl)
    as (p & w1 & w2 & rc & w3 & Ha & Hfill & Hsend & Hcase).
  simpl in Hcase. destruct Hcase as (-> & Hcase).
  destruct (Hcase (or_intror (or_introl eq_refl))) as (w4 & Hw & Hh & Hin).
  exists p, w1, w2, w3, w4. repeat split; assumption.
Defined.

(** ** The size of the segment *)

Lemma round_up_bounds (cb : Z) :
  0 <= cb -> cb <= round_up cb 128 < cb + 128 /\ round_up cb 128 mod 128 = 0.
Proof.
  intros H. unfold round_up.
  pose proof (Z.div_mod (cb + 128 - 1) 128 ltac:(lia)) as Hd.
  pose proof (Z.mod_pos_bound (cb + 128 - 1) 128 ltac:(lia)) as Hm.
  split; [lia|]. apply Z.mod_mul. lia.
Qed.

(** X5. A buffer that the allocation hands out has room for what was asked
    for: when the minimum size is at most [2^64 - 128], the segment is live
    on the heap, its size is at least the minimum size, less than 128 bytes
    above it and a multiple of 128 (so a request for 0 bytes gets an empty
    segment).  For a GSO frame whose minimum size is above [2^64 - 128] the
    rounding wraps and the segment is empty. *)
Theorem alloc_buf_segment_bounds (w : World) (cbMin : Z) (pGso : option PDMNETWORKGSO) :
  heap_fresh w -> 0 <= cbMin < 2 ^ 64 ->
  alloc_status (is_RUNNING (pSlirpThread (this w))) cbMin pGso true true true = VINF_SUCCESS ->
  exists pSgBuf w1 sg,
    drvNATNetworkUp_AllocBuf w cbMin pGso true true true = (VINF_SUCCESS, pSgBuf, w1) /\
    load_sg w1 pSgBuf = Some sg /\
    heap w1 !! aSegs0_pvSeg sg = Some (OMem (cbAvailable sg)) /\
    (cbMin <= 2 ^ 64 - 128 ->
     cbMin <= cbAvailable sg < cbMin + 128 /\ cbAvailable sg mod 128 = 0) /\
    (2 ^ 64 - 128 < cbMin -> cbAvailable sg = 0).
Proof.
  intros Hf Hcb Hst. unfold alloc_status in Hst.
  destruct (is_RUNNING (pSlirpThread (this w))) eqn:Hr; [|discriminate]. simpl in Hst.
  assert (Hsize : forall sg, cbAvailable sg = RT_ALIGN_Z cbMin 128 ->
            (cbMin <= 2 ^ 64 - 128 ->
             cbMin <= cbAvailable sg < cbMin + 128 /\ cbAvailable sg mod 128 = 0) /\
            (2 ^ 64 - 128 < cbMin -> cbAvailable sg = 0)).
  { intros sg ->. split.
    - intros Hle. rewrite RT_ALIGN_Z_128 by lia. apply round_up_bounds. lia.
    - intros Hgt. apply RT_ALIGN_Z_wraps. lia. }
  destruct pGso as [g|].
  - destruct (DRVNAT_MAXFRAMESIZE <=? cbHdrsTotal g + cbMaxSeg g) eqn:Hsz; [discriminate|].
    destruct (AllocBuf_gso_ok w cbMin g Hf Hr Hsz) as (p & w1 & sg & Ha & Hwf & _ & _ & Hsg).
    exists p, w1, sg. split; [exact Ha|]. split; [apply Hwf|].
    assert (Hav : cbAvailable sg = aSegs0_cbSeg sg) by (rewrite Hsg; reflexivity).
    split; [rewrite Hav; apply Hwf|]. apply Hsize. rewrite Hsg. reflexivity.
  - destruct (DRVNAT_MAXFRAMESIZE <=? cbMin) eqn:Hsz; [discriminate|].
    destruct (AllocBuf_ordinary_ok w cbMin true Hf Hr Hsz) as (p & w1 & sg & Ha & Hwf & _ & _ & Hsg).
    exists p, w1, sg. split; [exact Ha|]. split; [apply Hwf|].
    assert (Hav : cbAvailable sg = aSegs0_cbSeg sg) by (rewrite Hsg; reflexivity).
    split; [rewrite Hav; apply Hwf|]. apply Hsize. rewrite Hsg. reflexivity.
Qed.

Lemma alloc_buf_segment_bounds_witness :
  exists pSgBuf w1 sg,
    drvNATNetworkUp_AllocBuf w_running 60 None true true true = (VINF_SUCCESS, pSgBuf, w1) /\
    load_sg w1 pSgBuf = Some sg /\
    60 <= cbAvailable sg < 60 + 128.
Proof.
  assert (Hr : 0 <= 60 < 2 ^ 64) by lia.
  assert (Hle : 60 <= 2 ^ 64 - 128) by lia.
  destruct (alloc_buf_segment_bounds w_running 60 None heap_fresh_w_running Hr eq_refl)
    as (p & w1 & sg & Ha & Hl & _ & Hb & _).
  exists p, w1, sg. split; [exact Ha|]. split; [exact Hl|]. exact (proj1 (Hb Hle)).
Defined.

(** ** The timer list as a list *)

(** The heap and the head determine the list. *)
Lemma tlist_functional (h : gmap N Obj) :
  forall (l1 l2 : list (ptr * SlirpTimer)) (p : ptr),
    tlist h p l1 -> tlist h p l2 -> l1 = l2.
Proof.
  induction l1 as [|[a t] l1 IH]; intros [|[b u] l2] p H1 H2; simpl in *.
  - reflexivity.
  - destruct H2 as (-> & Hb & _). congruence.
  - destruct H1 as (-> & Ha & _). congruence.
  - destruct H1 as (-> & Ha & Hh1 & Ht1). destruct H2 as (E & Hb & Hh2 & Ht2).
    subst b. rewrite Hh1 in Hh2. injection Hh2 as <-.
    f_equal. eapply IH; eassumption.
Qed.

(** From every member of the list a shorter list is reachable. *)
Lemma tlist_member (h : gmap N Obj) (a : ptr) :
  forall (l : list (ptr * SlirpTimer)) (p : ptr),
    tlist h p l -> In a (addrs l) ->
    exists l', tlist h a l' /\ (0 < length l' <= length l)%nat.
Proof.
  induction l as [|[b t] l IH]; intros p Hl Hin; simpl in *; [contradiction|].
  destruct Hl as (-> & Hb & Hh & Ht). destruct Hin as [<-|Hin].
  - exists ((b, t) :: l). simpl. split; [auto|lia].
  - destruct (IH _ Ht Hin) as (l' & Hl' & Hlen). exists l'. split; [exact Hl'|lia].
Qed.

(** No timer occurs twice in the list: the list ends. *)
Lemma tlist_NoDup (h : gmap N Obj) :
  forall (l : list (ptr * SlirpTimer)) (p : ptr), tlist h p l -> List.NoDup (addrs l).
Proof.
  induction l as [|[a t] l IH]; intros p Hl; simpl in *.
  - constructor.
  - pose proof Hl as (-> & Ha & Hh & Ht). constructor; [|eapply IH; exact Ht].
    intros Hin. destruct (tlist_member h a l (next t) Ht Hin) as (l' & Hl' & Hlen).
    assert (E : (a, t) :: l = l').
    { eapply tlist_functional; [|exact Hl']. simpl. auto. }
    subst l'. simpl in Hlen. lia.
Qed.

Lemma tlist_live (h : gmap N Obj) (a : ptr) :
  forall (l : list (ptr * SlirpTimer)) (p : ptr),
    tlist h p l -> In a (addrs l) -> exists t, h !! a = Some (OTimer t) /\ In (a, t) l.
Proof.
  induction l as [|[b t] l IH]; intros p Hl Hin; simpl in *; [contradiction|].
  destruct Hl as (-> & Hb & Hh & Ht). destruct Hin as [<-|Hin].
  - exists t. auto.
  - destruct (IH _ Ht Hin) as (t' & H1 & H2). exists t'. auto.
Qed.

(** A store to, or a free of, a block outside the list leaves the list as
    it is. *)
Lemma tlist_insert_other (h : gmap N Obj) (a : ptr) (o : Obj) :
  forall (l : list (ptr * SlirpTimer)) (p : ptr),
    tlist h p l -> ~ In a (addrs l) -> tlist (<[a := o]> h) p l.
Proof.
  induction l as [|[b t] l IH]; intros p Hl Hn; simpl in *; [exact Hl|].
  destruct Hl as (-> & Hb & Hh & Ht).
  split; [reflexivity|]. split; [exact Hb|]. split.
  - rewrite lookup_insert_ne by (intros E; apply Hn; left; exact (eq_sym E)). exact Hh.
  - apply IH; [exact Ht|]. intros Hin. apply Hn. right. exact Hin.
Qed.

Lemma tlist_delete_other (h : gmap N Obj) (a : ptr) :
  forall (l : list (ptr * SlirpTimer)) (p : ptr),
    tlist h p l -> ~ In a (addrs l) -> tlist (delete a h) p l.
Proof.
  induction l as [|[b t] l IH]; intros p Hl Hn; simpl in *; [exact Hl|].
  destruct Hl as (-> & Hb & Hh & Ht).
  split; [reflexivity|]. split; [exact Hb|]. split.
  - rewrite lookup_delete_ne by (intros E; apply Hn; left; exact (eq_sym E)). exact Hh.
  - apply IH; [exact Ht|]. intros Hin. apply Hn. right. exact Hin.
Qed.

Lemma tlist_fresh_not_in (w : World) (l : list (ptr * SlirpTimer)) (p a : ptr) :
  heap_fresh w -> tlist (heap w) p l -> (brk w < a)%N -> ~ In a (addrs l).
Proof.
  intros Hf Hl Ha Hin. destruct (tlist_live _ a l p Hl Hin) as (t & Hh & _).
  eapply heap_fresh_live; eassumption.
Qed.

(** X6. [drvNAT_TimerNewCb] links the new timer at the head and leaves the
    rest of the list as it is: if the timers reachable from [pTimerHead]
    were [l], they are afterwards the new timer, disarmed and carrying the
    handler and its argument, followed by [l]; the new timer is what the
    callback returns.  When the allocation fails it returns [NULL] and
    changes nothing. *)
Theorem timer_new_links_at_head (w : World) (l : list (ptr * SlirpTimer))
    (slirpTimeCb cb_opaque : Z) :
  heap_fresh w ->
  tlist (heap w) (pTimerHead (pNATState (this w))) l ->
  (let res := drvNAT_TimerNewCb w slirpTimeCb cb_opaque true in
   res.1 <> NULL /\
   pTimerHead (pNATState (this res.2)) = res.1 /\
   ~ In res.1 (addrs l) /\
   tlist (heap res.2) res.1
     ((res.1, {| next := pTimerHead (pNATState (this w)); uTimeExpire := 0;
                 pHandler := slirpTimeCb; opaque := cb_opaque |}) :: l)) /\
  drvNAT_TimerNewCb w slirpTimeCb cb_opaque false = (NULL, w).
Proof.
  intros Hf Hl. split; [|reflexivity].
  unfold drvNAT_TimerNewCb, RTMemAlloc. rewrite is_null_succ. simpl.
  assert (Hn : ~ In (N.succ (brk w)) (addrs l)).
  { eapply tlist_fresh_not_in; [exact Hf|exact Hl|lia]. }
  split; [unfold NULL; lia|]. split; [reflexivity|]. split; [exact Hn|].
  split; [reflexivity|]. split; [unfold NULL; lia|]. split; [apply lookup_insert_eq|].
  simpl. apply tlist_insert_other; assumption.
Qed.

Lemma timer_new_links_at_head_witness :
  (drvNAT_TimerNewCb (drvNATConstruct DRVNAT_zero []) 7 0 true).1 <> NULL.
Proof.
  assert (Hf : heap_fresh (drvNATConstruct DRVNAT_zero [])) by (intros q _; apply lookup_empty).
  assert (Hl : tlist (heap (drvNATConstruct DRVNAT_zero []))
                 (pTimerHead (pNATState (this (drvNATConstruct DRVNAT_zero [])))) [])
    by reflexivity.
  exact (proj1 (proj1 (timer_new_links_at_head _ [] 7 0 Hf Hl))).
Defined.

Lemma addrs_set_expire_at (a : ptr) (e : Z) (l : list (ptr * SlirpTimer)) :
  addrs (set_expire_at a e l) = addrs l.
Proof.
  unfold addrs, set_expire_at. rewrite map_map. apply map_ext.
  intros [b t]. simpl. destruct (b =? a)%N; reflexivity.
Qed.

Lemma tlist_set_expire (h : gmap N Obj) (a : ptr) (t : SlirpTimer) (e : Z) :
  h !! a = Some (OTimer t) ->
  forall (l : list (ptr * SlirpTimer)) (p : ptr),
    tlist h p l ->
    tlist (<[a := OTimer (timer_set_expire e t)]> h) p (set_expire_at a e l).
Proof.
  intros Ha. induction l as [|[b u] l IH]; intros p Hl; simpl in *; [exact Hl|].
  destruct Hl as (-> & Hb & Hh & Ht).
  destruct (N.eqb_spec b a) as [->|Hne]; simpl.
  - rewrite Ha in Hh. injection Hh as <-.
    split; [reflexivity|]. split; [exact Hb|]. split; [apply lookup_insert_eq|].
    apply IH. exact Ht.
  - split; [reflexivity|]. split; [exact Hb|]. split.
    + rewrite lookup_insert_ne by congruence. exact Hh.
    + apply IH. exact Ht.
Qed.

(** X7. [drvNAT_TimerModCb] on a timer of the list stores the low 32 bits
    of the new expiry in that timer and touches nothing else: the list
    keeps its members and their order (no relinking), and the instance data
    is as before.  An expiry that is a multiple of 2^32 therefore leaves
    the timer disarmed. *)
Theorem timer_mod_sets_expiry (w : World) (l : list (ptr * SlirpTimer))
    (pTimer : ptr) (expireTime : Z) :
  tlist (heap w) (pTimerHead (pNATState (this w))) l ->
  In pTimer (addrs l) ->
  exists w',
    drvNAT_TimerModCb w pTimer expireTime = Some w' /\
    this w' = this w /\ freed w' = freed w /\ trace w' = trace w /\
    tlist (heap w') (pTimerHead (pNATState (this w')))
      (set_expire_at pTimer (wrap32 expireTime) l) /\
    addrs (set_expire_at pTimer (wrap32 expireTime) l) = addrs l /\
    (forall t, load_timer (heap w') pTimer = Some t ->
       uTimeExpire t = wrap32 expireTime /\
       (armed t = false <-> expireTime mod 2 ^ 32 = 0)).
Proof.
  intros Hl Hin. destruct (tlist_live _ pTimer l _ Hl Hin) as (t & Hh & _).
  unfold drvNAT_TimerModCb, load_timer. rewrite Hh. simpl.
  eexists. split; [reflexivity|]. split; [reflexivity|]. split; [reflexivity|].
  split; [reflexivity|]. split; [apply tlist_set_expire; assumption|].
  split; [apply addrs_set_expire_at|].
  intros t'. unfold load_timer. simpl. rewrite lookup_insert_eq.
  intros E. injection E as <-. simpl.
  split; [reflexivity|]. unfold armed, wrap32. simpl.
  destruct (Z.eqb_spec (expireTime mod 2 ^ 32) 0); simpl; split; congruence.
Qed.

Lemma timer_mod_sets_expiry_witness :
  exists w w',
    run X0 (drvNATConstruct DRVNAT_zero []) [ActTimerNew 7 0 true] = Some w /\
    drvNAT_TimerModCb w 1%N (2 ^ 32 + 5) = Some w' /\
    load_timer (heap w') 1%N
    = Some {| next := NULL; uTimeExpire := 5; pHandler := 7; opaque := 0 |}.
Proof.
  destruct (run X0 (drvNATConstruct DRVNAT_zero []) [ActTimerNew 7 0 true]) as [w|] eqn:E;
    [|vm_compute in E; discriminate E].
  assert (Hl : tlist (heap w) (pTimerHead (pNATState (this w)))
                 [(1%N, {| next := NULL; uTimeExpire := 0; pHandler := 7; opaque := 0 |})]).
  { pose proof E as E'. vm_compute in E'. injection E' as <-.
    simpl. repeat split; try reflexivity. discriminate. }
  destruct (timer_mod_sets_expiry w _ 1%N (2 ^ 32 + 5) Hl (or_introl eq_refl))
    as (w' & Hm & _ & _ & _ & Hl' & _).
  exists w, w'. split; [reflexivity|]. split; [exact Hm|].
  simpl in Hl'. destruct Hl' as (_ & _ & Hh & _). unfold load_timer. rewrite Hh. reflexivity.
Defined.

(** The walk of [drvNAT_TimerFreeCb] over a list that does not hold the
    timer changes nothing. *)
Lemma TimerFreeCb_loop_absent (pTimer : ptr) :
  forall (l : list (ptr * SlirpTimer)) (fuel : nat) (w : World) (p : ptr),
    tlist (heap w) p l -> (length l <= fuel)%nat -> ~ In pTimer (addrs l) ->
    drvNAT_TimerFreeCb_loop fuel w pTimer p = Some w.
Proof.
  induction l as [|[b t] l IH]; intros fuel w p Hl Hf Hn; simpl in *.
  - subst p. destruct fuel; reflexivity.
  - destruct Hl as (-> & Hb & Hh & Ht). destruct fuel as [|fuel]; [lia|]. simpl.
    rewrite (is_null_false _ Hb).
    destruct (N.eqb_spec b pTimer) as [E|_]; [exfalso; apply Hn; left; exact E|].
    unfold load_timer. rewrite Hh. simpl.
    apply IH; [exact Ht|lia|]. intros Hin. apply Hn. right. exact Hin.
Qed.

Lemma TimerFreeCb_loop_member (pTimer : ptr) :
  forall (l : list (ptr * SlirpTimer)) (fuel : nat) (w : World) (p : ptr),
    tlist (heap w) p l -> (length l <= fuel)%nat -> In pTimer (addrs l) ->
    drvNAT_TimerFreeCb_loop fuel w pTimer p = Some (RTMemFree w pTimer).
Proof.
  induction l as [|[b t] l IH]; intros fuel w p Hl Hf Hin; simpl in *; [contradiction|].
  pose proof (tlist_NoDup (heap w) ((b, t) :: l) p Hl) as Hnd.
  destruct Hl as (-> & Hb & Hh & Ht). destruct fuel as [|fuel]; [lia|]. simpl.
  rewrite (is_null_false _ Hb).
  destruct (N.eqb_spec b pTimer) as [->|Hne].
  - unfold load_timer. rewrite Hh. simpl.
    inversion Hnd as [|? ? Hnotin _]; subst.
    apply TimerFreeCb_loop_absent with (l := l); [|lia|exact Hnotin].
    unfold RTMemFree. rewrite (is_null_false _ Hb). simpl.
    apply tlist_delete_other; assumption.
  - unfold load_timer. rewrite Hh. simpl.
    destruct Hin as [E|Hin]; [contradiction|].
    apply IH; [exact Ht|lia|exact Hin].
Qed.

(** X8. [drvNAT_TimerFreeCb] on a well-formed list ends and deallocates
    at most once: for a timer of the list the result is the world with
    exactly that one block handed to [RTMemFree] (one entry more in the free
    log, the block gone from the heap, every other block and the instance
    data untouched); for a pointer that is not in the list, [NULL]
    included, nothing changes at all. *)
Theorem timer_free_deallocates_once (w : World) (l : list (ptr * SlirpTimer))
    (pTimer : ptr) (fuel : nat) :
  tlist (heap w) (pTimerHead (pNATState (this w))) l ->
  (length l <= fuel)%nat ->
  (In pTimer (addrs l) ->
   exists w',
     drvNAT_TimerFreeCb fuel w pTimer = Some w' /\
     freed w' = freed w ++ [pTimer] /\ heap w' = delete pTimer (heap w) /\
     this w' = this w /\ trace w' = trace w) /\
  (~ In pTimer (addrs l) -> drvNAT_TimerFreeCb fuel w pTimer = Some w).
Proof.
  intros Hl Hf. split.
  - intros Hin. exists (RTMemFree w pTimer). unfold drvNAT_TimerFreeCb.
    split; [eapply TimerFreeCb_loop_member; eassumption|].
    destruct (tlist_live _ pTimer l _ Hl Hin) as (t & Hh & Hm).
    assert (Hnn : pTimer <> NULL).
    { clear - Hl Hin. revert Hl Hin. generalize (pTimerHead (pNATState (this w))).
      induction l as [|[b u] l IH]; intros p Hl Hin; simpl in *; [contradiction|].
      destruct Hl as (-> & Hb & _ & Ht). destruct Hin as [<-|Hin]; [exact Hb|].
      eapply IH; eassumption. }
    unfold RTMemFree. rewrite (is_null_false _ Hnn). simpl. auto.
  - intros Hn. unfold drvNAT_TimerFreeCb. eapply TimerFreeCb_loop_absent; eassumption.
Qed.

Lemma timer_free_deallocates_once_witness :
  exists w w',
    run X0 (drvNATConstruct DRVNAT_zero []) [ActTimerNew 7 0 true; ActTimerNew 8 0 true]
    = Some w /\
    drvNAT_TimerFreeCb 2 w 1%N = Some w' /\
    freed w' = freed w ++ [1%N].
Proof.
  destruct (run X0 (drvNATConstruct DRVNAT_zero [])
              [ActTimerNew 7 0 true; ActTimerNew 8 0 true]) as [w|] eqn:E;
    [|vm_compute in E; discriminate E].
  assert (Hl : tlist (heap w) (pTimerHead (pNATState (this w)))
                 [(2%N, {| next := 1%N; uTimeExpire := 0; pHandler := 8; opaque := 0 |});
                  (1%N, {| next := NULL; uTimeExpire := 0; pHandler := 7; opaque := 0 |})]).
  { pose proof E as E'. vm_compute in E'. injection E' as <-.
    simpl. repeat split; try reflexivity; discriminate. }
  destruct (proj1 (timer_free_deallocates_once w _ 1%N 2 Hl (le_n 2))
              (or_intror (or_introl eq_refl))) as (w' & Hfree & Hfr & _).
  exists w, w'. auto.
Defined.

Lemma to_int64_small (x : Z) : 0 <= x < 2 ^ 63 -> to_int64 x = x.
Proof.
  intros H. unfold to_int64, wrap64. rewrite Z.mod_small by lia.
  destruct (Z.ltb_spec x (2 ^ 63)); lia.
Qed.

Lemma wrap32_range (x : Z) : 0 <= wrap32 x < 2 ^ 32.
Proof. unfold wrap32. apply Z.mod_pos_bound. lia. Qed.

Lemma UpdateTimeout_body_bounds (c : Z) (t : SlirpTimer) (u : Z) :
  0 <= u -> 0 <= drvNAT_UpdateTimeout_body c t u <= u.
Proof.
  intros Hu. unfold drvNAT_UpdateTimeout_body.
  destruct (negb (uTimeExpire t =? 0)); [|lia].
  pose proof (wrap32_range (uTimeExpire t - c)) as Hr.
  rewrite to_int64_small by lia.
  destruct (Z.ltb_spec (wrap32 (uTimeExpire t - c)) 0); [lia|].
  destruct (Z.ltb_spec (wrap32 (uTimeExpire t - c)) u); [|lia].
  assert (E : wrap32 (wrap32 (uTimeExpire t - c)) = wrap32 (uTimeExpire t - c))
    by (unfold wrap32 at 1; apply Z.mod_small; lia).
  rewrite E. lia.
Qed.

Lemma UpdateTimeout_body_min (c : Z) (t : SlirpTimer) (u : Z) :
  0 <= u -> c <= uTimeExpire t < 2 ^ 32 -> 0 <= c ->
  drvNAT_UpdateTimeout_body c t u
  = if armed t then Z.min u (uTimeExpire t - c) else u.
Proof.
  intros Hu He Hc. unfold drvNAT_UpdateTimeout_body, armed.
  destruct (negb (uTimeExpire t =? 0)); [|reflexivity].
  assert (E : wrap32 (uTimeExpire t - c) = uTimeExpire t - c)
    by (unfold wrap32; apply Z.mod_small; lia).
  rewrite E. rewrite to_int64_small by lia.
  destruct (Z.ltb_spec (uTimeExpire t - c) 0); [lia|].
  destruct (Z.ltb_spec (uTimeExpire t - c) u); [rewrite E|]; lia.
Qed.

Lemma UpdateTimeout_fold_bounds (c : Z) (l : list (ptr * SlirpTimer)) :
  forall u, 0 <= u ->
    0 <= fold_left (fun u at_ => drvNAT_UpdateTimeout_body c at_.2 u) l u <= u.
Proof.
  induction l as [|[a t] l IH]; intros u Hu; simpl; [lia|].
  pose proof (UpdateTimeout_body_bounds c t u Hu) as Hb.
  specialize (IH _ (proj1 Hb)). simpl in *. lia.
Qed.

Lemma UpdateTimeout_fold_min (c : Z) (l : list (ptr * SlirpTimer)) :
  0 <= c ->
  (forall at_, In at_ l -> armed at_.2 = true -> c <= uTimeExpire at_.2 < 2 ^ 32) ->
  forall u, 0 <= u ->
    (forall at_, In at_ l -> armed at_.2 = true ->
       fold_left (fun u at_ => drvNAT_UpdateTimeout_body c at_.2 u) l u
       <= uTimeExpire at_.2 - c) /\
    (fold_left (fun u at_ => drvNAT_UpdateTimeout_body c at_.2 u) l u = u \/
     exists at_, In at_ l /\ armed at_.2 = true /\
       fold_left (fun u at_ => drvNAT_UpdateTimeout_body c at_.2 u) l u
       = uTimeExpire at_.2 - c).
Proof.
  intros Hc. induction l as [|[a t] l IH]; intros Hall u Hu.
  - simpl. split; [intros ? []|left; reflexivity].
  - assert (Hall' : forall at_, In at_ l -> armed at_.2 = true ->
                                c <= uTimeExpire at_.2 < 2 ^ 32).
    { intros x Hx Ha. apply Hall; [right; exact Hx|exact Ha]. }
    pose proof (UpdateTimeout_body_bounds c t u Hu) as Hb.
    destruct (IH Hall' _ (proj1 Hb)) as [IH1 IH2]. clear IH.
    pose proof (UpdateTimeout_fold_bounds c l _ (proj1 Hb)) as Hf.
    cbn [fold_left]. change ((a, t).2) with t.
    set (b := drvNAT_UpdateTimeout_body c t u) in *.
    set (r := fold_left (fun u at_ => drvNAT_UpdateTimeout_body c at_.2 u) l b) in *.
    destruct (armed t) eqn:Ea.
    + assert (Eb : b = Z.min u (uTimeExpire t - c)).
      { unfold b. rewrite UpdateTimeout_body_min; [rewrite Ea; reflexivity|exact Hu| |exact Hc].
        apply (Hall (a, t)); [left; reflexivity|exact Ea]. }
      split.
      * intros x [<-|Hin] Harm; [simpl; lia|apply IH1; assumption].
      * destruct IH2 as [E|(x & Hin & Harm & E)].
        -- destruct (Z.min_spec u (uTimeExpire t - c)) as [[_ Em]|[_ Em]].
           ++ left. lia.
           ++ right. exists (a, t). split; [left; reflexivity|]. split; [exact Ea|].
              simpl. lia.
        -- right. exists x. split; [right; exact Hin|]. split; assumption.
    + assert (Eb : b = u).
      { unfold b, drvNAT_UpdateTimeout_body. unfold armed in Ea. rewrite Ea. reflexivity. }
      split.
      * intros x [<-|Hin] Harm; [simpl in Harm; congruence|apply IH1; assumption].
      * destruct IH2 as [E|(x & Hin & Harm & E)]; [left; lia|].
        right. exists x. split; [right; exact Hin|]. split; assumption.
Qed.

(** X9. [drvNAT_UpdateTimeout] on a well-formed timer list ends with a
    new timeout that is never negative and never larger than the one passed
    in, whatever the timers hold; without an armed timer the timeout is
    returned as it is.  When no armed timer lies before the current
    millisecond count, the result is the minimum of the timeout passed in
    and the time left to the armed timers: it is at most the time left to
    each of them, and it is the old timeout or exactly the time left to one
    of them. *)
Theorem update_timeout_is_minimum (w : World) (l : list (ptr * SlirpTimer))
    (fuel : nat) (nowNs uTimeout : Z) :
  tlist (heap w) (pTimerHead (pNATState (this w))) l ->
  (length l <= fuel)%nat ->
  0 <= uTimeout ->
  let currTime := wrap32 (Z.quot nowNs (1000 * 1000)) in
  exists r,
    drvNAT_UpdateTimeout fuel w nowNs uTimeout = Some r /\
    0 <= r <= uTimeout /\
    ((forall at_, In at_ l -> armed at_.2 = false) -> r = uTimeout) /\
    ((forall at_, In at_ l -> armed at_.2 = true ->
        currTime <= uTimeExpire at_.2 < 2 ^ 32) ->
     (forall at_, In at_ l -> armed at_.2 = true -> r <= uTimeExpire at_.2 - currTime) /\
     (r = uTimeout \/
      exists at_, In at_ l /\ armed at_.2 = true /\ r = uTimeExpire at_.2 - currTime)).
Proof.
  intros Hl Hf Hu currTime. unfold drvNAT_UpdateTimeout. fold currTime.
  rewrite (UpdateTimeout_loop_tlist _ currTime l fuel _ uTimeout Hl Hf).
  eexists. split; [reflexivity|].
  split; [apply UpdateTimeout_fold_bounds; exact Hu|]. split.
  - intros Hna. clear Hl Hf. revert uTimeout Hu.
    induction l as [|[a t] l IH]; intros u Hu; simpl; [reflexivity|].
    assert (Eb : drvNAT_UpdateTimeout_body currTime t u = u).
    { unfold drvNAT_UpdateTimeout_body.
      pose proof (Hna (a, t) (or_introl eq_refl)) as Ea. unfold armed in Ea. simpl in Ea.
      rewrite Ea. reflexivity. }
    rewrite Eb. apply IH; [|exact Hu]. intros; apply Hna; right; assumption.
  - intros Hall. apply UpdateTimeout_fold_min; [|exact Hall|exact Hu].
    apply (proj1 (wrap32_range _)).
Qed.

Lemma update_timeout_is_minimum_witness :
  exists w w1 w2,
    run X0 (drvNATConstruct DRVNAT_zero []) [ActTimerNew 7 0 true; ActTimerNew 8 0 true]
    = Some w /\
    drvNAT_TimerModCb w 1%N 1500 = Some w1 /\
    drvNAT_TimerModCb w1 2%N 1200 = Some w2 /\
    drvNAT_UpdateTimeout 2 w2 (1000 * 1000 * 1000) 3600000 = Some 200.
Proof.
  destruct (run X0 (drvNATConstruct DRVNAT_zero [])
              [ActTimerNew 7 0 true; ActTimerNew 8 0 true]) as [w|] eqn:E;
    [|vm_compute in E; discriminate E].
  destruct (drvNAT_TimerModCb w 1%N 1500) as [w1|] eqn:E1;
    [|vm_compute in E; injection E as <-; vm_compute in E1; discriminate E1].
  destruct (drvNAT_TimerModCb w1 2%N 1200) as [w2|] eqn:E2;
    [|vm_compute in E; injection E as <-; vm_compute in E1; injection E1 as <-;
      vm_compute in E2; discriminate E2].
  assert (Hl : tlist (heap w2) (pTimerHead (pNATState (this w2)))
                 [(2%N, {| next := 1%N; uTimeExpire := 1200; pHandler := 8; opaque := 0 |});
                  (1%N, {| next := NULL; uTimeExpire := 1500; pHandler := 7; opaque := 0 |})]).
  { vm_compute in E; injection E as <-; vm_compute in E1; injection E1 as <-.
    vm_compute in E2; injection E2 as <-.
    simpl. repeat split; try reflexivity; discriminate. }
  destruct (update_timeout_is_minimum w2 _ 2 (1000 * 1000 * 1000) 3600000 Hl (le_n 2)
              ltac:(lia)) as (r & Hr & _ & _ & Hmin).
  exists w, w1, w2. split; [reflexivity|]. split; [exact E1|]. split; [exact E2|].
  rewrite Hr. f_equal.
  assert (Hfut : forall at_ : ptr * SlirpTimer,
             In at_
               [(2%N, {| next := 1%N; uTimeExpire := 1200; pHandler := 8; opaque := 0 |});
                (1%N, {| next := NULL; uTimeExpire := 1500; pHandler := 7; opaque := 0 |})] ->
             armed at_.2 = true ->
             wrap32 (Z.quot (1000 * 1000 * 1000) (1000 * 1000)) <= uTimeExpire at_.2 < 2 ^ 32).
  { intros at_ [<-|[<-|[]]] _; vm_compute; split; congruence. }
  destruct (Hmin Hfut) as [Hle Hat].
  pose proof (Hle _ (or_introl eq_refl) eq_refl) as H1. vm_compute in H1.
  destruct Hat as [->|(at_ & [<-|[<-|[]]] & _ & ->)].
  - exfalso. apply H1. reflexivity.
  - reflexivity.
  - exfalso. apply H1. reflexivity.
Defined.

Lemma addrs_disarm_due (c : Z) (l : list (ptr * SlirpTimer)) :
  addrs (disarm_due c l) = addrs l.
Proof.
  unfold addrs, disarm_due. rewrite map_map. apply map_ext.
  intros [b t]. simpl. destruct (due c t); reflexivity.
Qed.

Lemma fired_disarm_due (c : Z) (l : list (ptr * SlirpTimer)) :
  fired c (disarm_due c l) = [].
Proof.
  unfold fired, disarm_due. induction l as [|[a t] l IH]; simpl; [reflexivity|].
  destruct (due c t) eqn:Ed; simpl.
  - unfold due at 1. simpl. exact IH.
  - rewrite Ed. exact IH.
Qed.

(** The walk of [drvNAT_CheckTimeout] over a well-formed list. *)
Lemma CheckTimeout_loop_tlist (c : Z) :
  forall (l : list (ptr * SlirpTimer)) (fuel : nat) (w : World) (p : ptr),
    tlist (heap w) p l -> (length l <= fuel)%nat ->
    exists w',
      drvNAT_CheckTimeout_loop fuel w c p = Some w' /\
      trace w' = trace w ++ fired c l /\
      tlist (heap w') p (disarm_due c l) /\
      this w' = this w /\ freed w' = freed w /\
      (forall q, ~ In q (addrs l) -> heap w' !! q = heap w !! q).
Proof.
  induction l as [|[a t] l IH]; intros fuel w p Hl Hf.
  - simpl in Hl. subst p. exists w. destruct fuel; simpl;
      rewrite app_nil_r; repeat split; reflexivity.
  - pose proof (tlist_NoDup (heap w) ((a, t) :: l) p Hl) as Hnd.
    inversion Hnd as [|? ? Hnotin _]; subst.
    simpl in Hl. destruct Hl as (-> & Ha & Hh & Ht). simpl in Hf.
    destruct fuel as [|fuel]; [lia|].
    cbn [drvNAT_CheckTimeout_loop]. rewrite (is_null_false _ Ha).
    assert (Hlt : load_timer (heap w) a = Some t)
      by (unfold load_timer; rewrite Hh; reflexivity).
    rewrite Hlt. cbn [mbind option_bind]. cbv beta.
    unfold fired, disarm_due. cbn [List.filter map snd fst]. fold (due c t).
    change (negb (uTimeExpire t =? 0)) with (armed t).
    assert (Ed : due c t = armed t && (to_int64 (uTimeExpire t - c) <=? 0)) by reflexivity.
    destruct (armed t) eqn:Ea; [destruct (to_int64 (uTimeExpire t - c) <=? 0) eqn:El|];
      simpl in Ed; rewrite Ed.
    + set (w1 := emit (EvTimerHandler (pHandler t) (opaque t))
                   (store w a (OTimer (timer_set_expire 0 t)))).
      assert (Hh1 : heap w1 !! a = Some (OTimer (timer_set_expire 0 t)))
        by (unfold w1; simpl; apply lookup_insert_eq).
      assert (Hlt1 : load_timer (heap w1) a = Some (timer_set_expire 0 t))
        by (unfold load_timer; rewrite Hh1; reflexivity).
      rewrite Hlt1. cbn [mbind option_bind]. cbv beta. cbn [next timer_set_expire].
      assert (Ht1 : tlist (heap w1) (next t) l)
        by (unfold w1; simpl; apply tlist_insert_other; assumption).
      destruct (IH fuel w1 (next t) Ht1 ltac:(lia))
        as (w' & Hrun & Htr & Hl' & Hthis & Hfr & Hframe).
      exists w'. split; [exact Hrun|]. split.
      { rewrite Htr. unfold w1. simpl. rewrite <- app_assoc. reflexivity. }
      split.
      { simpl. split; [reflexivity|]. split; [exact Ha|]. split; [|exact Hl'].
        rewrite (Hframe a Hnotin). exact Hh1. }
      split; [rewrite Hthis; reflexivity|]. split; [rewrite Hfr; reflexivity|].
      intros q Hq. rewrite Hframe by (intros Hin; apply Hq; right; exact Hin).
      unfold w1. simpl. apply lookup_insert_ne. intros ->. apply Hq. left. reflexivity.
    + rewrite Hlt. cbn [mbind option_bind]. cbv beta.
      destruct (IH fuel w (next t) Ht ltac:(lia))
        as (w' & Hrun & Htr & Hl' & Hthis & Hfr & Hframe).
      exists w'. split; [exact Hrun|]. split; [exact Htr|]. split.
      { simpl. split; [reflexivity|]. split; [exact Ha|]. split; [|exact Hl'].
        rewrite (Hframe a Hnotin). exact Hh. }
      split; [exact Hthis|]. split; [exact Hfr|].
      intros q Hq. apply Hframe. intros Hin. apply Hq. right. exact Hin.
    + rewrite Hlt. cbn [mbind option_bind]. cbv beta.
      destruct (IH fuel w (next t) Ht ltac:(lia))
        as (w' & Hrun & Htr & Hl' & Hthis & Hfr & Hframe).
      exists w'. split; [exact Hrun|]. split; [exact Htr|]. split.
      { simpl. split; [reflexivity|]. split; [exact Ha|]. split; [|exact Hl'].
        rewrite (Hframe a Hnotin). exact Hh. }
      split; [exact Hthis|]. split; [exact Hfr|].
      intros q Hq. apply Hframe. intros Hin. apply Hq. right. exact Hin.
Qed.

Lemma due_iff (c : Z) (t : SlirpTimer) :
  0 <= uTimeExpire t < 2 ^ 32 -> 0 <= c < 2 ^ 62 ->
  (due c t = true <-> 0 < uTimeExpire t <= c).
Proof.
  intros He Hc. unfold due.
  assert (E : to_int64 (uTimeExpire t - c) = uTimeExpire t - c).
  { unfold to_int64, wrap64.
    destruct (Z.le_gt_cases c (uTimeExpire t)).
    - rewrite Z.mod_small by lia. destruct (Z.ltb_spec (uTimeExpire t - c) (2 ^ 63)); lia.
    - replace ((uTimeExpire t - c) mod 2 ^ 64) with (uTimeExpire t - c + 2 ^ 64).
      + destruct (Z.ltb_spec (uTimeExpire t - c + 2 ^ 64) (2 ^ 63)); lia.
      + apply Z.mod_unique with (q := -1); lia. }
  rewrite E. rewrite andb_true_iff, negb_true_iff, Z.eqb_neq, Z.leb_le. lia.
Qed.

(** X10. [drvNAT_CheckTimeout] on a well-formed timer list ends, calls
    the handlers of exactly the due timers, once each and in list order,
    and disarms exactly those; the list keeps its members and order, nothing
    is freed and the instance data is unchanged.  A timer with a 32-bit
    expiry is due precisely when it is armed and its expiry is not after the
    current millisecond count.  A second pass at the same clock calls no
    handler.  The handlers are engine code: their calls are recorded, and
    the statement is about handlers that leave the timer list alone. *)
Theorem check_timeout_fires_due_once (w : World) (l : list (ptr * SlirpTimer))
    (fuel : nat) (nowNs : Z) :
  tlist (heap w) (pTimerHead (pNATState (this w))) l ->
  (length l <= fuel)%nat ->
  let currTime := Z.quot nowNs (1000 * 1000) in
  exists w' w'',
    drvNAT_CheckTimeout fuel w nowNs = Some w' /\
    trace w' = trace w ++ fired currTime l /\
    tlist (heap w') (pTimerHead (pNATState (this w'))) (disarm_due currTime l) /\
    addrs (disarm_due currTime l) = addrs l /\
    this w' = this w /\ freed w' = freed w /\
    (forall at_, In at_ l -> 0 <= uTimeExpire at_.2 < 2 ^ 32 -> 0 <= currTime < 2 ^ 62 ->
       (due currTime at_.2 = true <-> 0 < uTimeExpire at_.2 <= currTime)) /\
    drvNAT_CheckTimeout fuel w' nowNs = Some w'' /\
    trace w'' = trace w'.
Proof.
  intros Hl Hf currTime. unfold drvNAT_CheckTimeout. fold currTime.
  destruct (CheckTimeout_loop_tlist currTime l fuel w _ Hl Hf)
    as (w' & Hrun & Htr & Hl' & Hthis & Hfr & _).
  rewrite <- Hthis in Hl'.
  assert (Hf' : (length (disarm_due currTime l) <= fuel)%nat)
    by (unfold disarm_due; rewrite length_map; exact Hf).
  destruct (CheckTimeout_loop_tlist currTime _ fuel w' _ Hl' Hf')
    as (w'' & Hrun' & Htr' & _).
  exists w', w''. rewrite Hthis in *.
  split; [exact Hrun|]. split; [exact Htr|]. split; [exact Hl'|].
  split; [apply addrs_disarm_due|]. split; [reflexivity|]. split; [exact Hfr|].
  split; [intros at_ _ He Hc; apply due_iff; assumption|].
  split; [exact Hrun'|].
  rewrite Htr', fired_disarm_due, app_nil_r. reflexivity.
Qed.

Lemma check_timeout_fires_due_once_witness :
  exists w w1 w2 w',
    run X0 (drvNATConstruct DRVNAT_zero []) [ActTimerNew 7 0 true; ActTimerNew 8 0 true]
    = Some w /\
    drvNAT_TimerModCb w 1%N 900 = Some w1 /\
    drvNAT_TimerModCb w1 2%N 1200 = Some w2 /\
    drvNAT_CheckTimeout 2 w2 (1000 * 1000 * 1000) = Some w' /\
    trace w' = trace w2 ++ [EvTimerHandler 7 0].
Proof.
  destruct (run X0 (drvNATConstruct DRVNAT_zero [])
              [ActTimerNew 7 0 true; ActTimerNew 8 0 true]) as [w|] eqn:E;
    [|vm_compute in E; discriminate E].
  destruct (drvNAT_TimerModCb w 1%N 900) as [w1|] eqn:E1;
    [|vm_compute in E; injection E as <-; vm_compute in E1; discriminate E1].
  destruct (drvNAT_TimerModCb w1 2%N 1200) as [w2|] eqn:E2;
    [|vm_compute in E; injection E as <-; vm_compute in E1; injection E1 as <-;
      vm_compute in E2; discriminate E2].
  assert (Hl : tlist (heap w2) (pTimerHead (pNATState (this w2)))
                 [(2%N, {| next := 1%N; uTimeExpire := 1200; pHandler := 8; opaque := 0 |});
                  (1%N, {| next := NULL; uTimeExpire := 900; pHandler := 7; opaque := 0 |})]).
  { vm_compute in E; injection E as <-; vm_compute in E1; injection E1 as <-.
    vm_compute in E2; injection E2 as <-.
    simpl. repeat split; try reflexivity; discriminate. }
  destruct (check_timeout_fires_due_once w2 _ 2 (1000 * 1000 * 1000) Hl (le_n 2))
    as (w' & w'' & Hrun & Htr & _).
  exists w, w1, w2, w'. split; [reflexivity|]. split; [exact E1|]. split; [exact E2|].
  split; [exact Hrun|]. exact Htr.
Defined.

(** ** The poll set *)

Lemma HostToSlirp_0 (os : HostOS) : drvNAT_PollEventHostToSlirp os 0 = 0.
Proof. destruct os; reflexivity. Qed.

Lemma to_int32_small (x : Z) : 0 <= x < 2 ^ 31 -> to_int32 x = x.
Proof.
  intros H. unfold to_int32, wrap32. rewrite Z.mod_small by lia.
  destruct (Z.ltb_spec x (2 ^ 31)); lia.
Qed.

(** While the doubled size in bytes fits an [int], the reallocation gives
    the array twice its capacity. *)
Lemma RTMemRealloc_polls_doubles (os : HostOS) (l : list pollfd) (cap : Z) :
  Z.of_nat (length l) = cap -> 2 * cap * sizeof_pollfd os < 2 ^ 31 ->
  RTMemRealloc_polls os l (to_int32 (wrap64 (wrap32 (cap * 2) * sizeof_pollfd os)))
  = l ++ replicate (Z.to_nat cap) pollfd_zero.
Proof.
  intros Hlen Hb.
  assert (Hsz : 0 < sizeof_pollfd os) by (destruct os; reflexivity).
  assert (Hc : 0 <= cap) by lia.
  assert (Hw : wrap32 (cap * 2) = 2 * cap).
  { unfold wrap32. rewrite Z.mod_small; [lia|]. destruct os; simpl in Hb; lia. }
  assert (Hr : 0 <= 2 * cap * sizeof_pollfd os) by (destruct os; simpl; lia).
  assert (Hw64 : wrap64 (2 * cap * sizeof_pollfd os) = 2 * cap * sizeof_pollfd os)
    by (unfold wrap64; apply Z.mod_small; lia).
  rewrite Hw, Hw64, to_int32_small by lia.
  unfold RTMemRealloc_polls. rewrite Hw64, Z.div_mul by lia.
  rewrite resize_ge by lia. f_equal. f_equal. lia.
Qed.

(** A call of [drvNAT_AddPollCb] that does not fail for want of memory. *)
Lemma AddPollCb_ok (os : HostOS) (w : World) (iFd iEvents : Z) (fRealloc : bool) :
  polls_wf (pNATState (this w)) ->
  2 * (nsock (pNATState (this w)) + 1) * sizeof_pollfd os < 2 ^ 31 ->
  (uPollCap (pNATState (this w)) <=? nsock (pNATState (this w)) + 1) && negb fRealloc = false ->
  let st := pNATState (this w) in
  exists w',
    drvNAT_AddPollCb os w iFd iEvents fRealloc = Some (nsock st, w') /\
    let st' := pNATState (this w') in
    (Z.to_nat (nsock st) < length (polls st'))%nat /\
    polls_wf st' /\
    nsock st' = nsock st + 1 /\
    uPollCap st' = (if uPollCap st <=? nsock st + 1 then 2 * uPollCap st else uPollCap st) /\
    polls st' !! Z.to_nat (nsock st) = Some (poll_entry os (iFd, iEvents)) /\
    (forall i : nat, i <> Z.to_nat (nsock st) -> (i < length (polls st))%nat ->
       polls st' !! i = polls st !! i) /\
    polls_in_use st' = polls_in_use st ++ [poll_entry os (iFd, iEvents)] /\
    heap w' = heap w /\ trace w' = trace w.
Proof.
  intros [[Hn0 Hn] Hlen] Hb Hg st.
  fold st in Hg, Hn0, Hn, Hlen, Hb.
  assert (Hb31 : nsock st + 1 < 2 ^ 27) by (destruct os; simpl in Hb; lia).
  assert (Hw : wrap32 (nsock st + 1) = nsock st + 1)
    by (unfold wrap32; apply Z.mod_small; lia).
  assert (Hi : to_int32 (nsock st) = nsock st) by (apply to_int32_small; lia).
  assert (Hlt : (Z.to_nat (nsock st) < length (polls st))%nat) by lia.
  unfold drvNAT_AddPollCb. fold st. rewrite Hw.
  destruct (Z.leb_spec (uPollCap st) (nsock st + 1)) as [Hgrow|Hroom]; rewrite Hg.
  - (* the array is doubled *)
    assert (Ecap : uPollCap st = nsock st + 1) by lia.
    assert (Hw2 : wrap32 (uPollCap st * 2) = 2 * uPollCap st)
      by (unfold wrap32; rewrite Z.mod_small by lia; lia).
    rewrite RTMemRealloc_polls_doubles by (rewrite ?Ecap; lia).
    cbn [set_polls nsock polls uPollCap]. rewrite Hi.
    assert (Hchk : (0 <=? nsock st)
                   && (nsock st <?
                       Z.of_nat (length (polls st
                                         ++ replicate (Z.to_nat (uPollCap st)) pollfd_zero)))
                   = true).
    { rewrite length_app, length_replicate.
      apply andb_true_iff. split; [apply Z.leb_le|apply Z.ltb_lt]; lia. }
    rewrite Hchk. eexists. split; [reflexivity|].
    unfold polls_wf.
    cbn [this upd set_pNATState pNATState set_polls set_nsock nsock polls uPollCap
         heap trace].
    rewrite Hw, Hw2.
    split.
    { rewrite length_insert, length_app, length_replicate. lia. }
    split.
    { split; [lia|]. rewrite length_insert, length_app, length_replicate. lia. }
    split; [reflexivity|]. split; [reflexivity|]. split.
    { apply list_lookup_insert_eq. rewrite length_app. lia. }
    split.
    { intros i Hi' Hil. rewrite list_lookup_insert_ne by congruence.
      apply lookup_app_l. exact Hil. }
    split; [|split; reflexivity].
    unfold polls_in_use.
    cbn [set_pNATState pNATState set_polls set_nsock nsock polls uPollCap].
    replace (Z.to_nat (nsock st + 1)) with (S (Z.to_nat (nsock st))) by lia.
    erewrite take_S_r
      by (apply list_lookup_insert_eq; rewrite length_app; lia).
    rewrite take_insert_ge by lia. rewrite take_app_le by lia. reflexivity.
  - rewrite Hi.
    assert (Hchk : (0 <=? nsock st) && (nsock st <? Z.of_nat (length (polls st))) = true).
    { apply andb_true_iff. split; [apply Z.leb_le|apply Z.ltb_lt]; lia. }
    rewrite Hchk. eexists. split; [reflexivity|].
    unfold polls_wf.
    cbn [this upd set_pNATState pNATState set_polls set_nsock nsock polls uPollCap
         heap trace].
    rewrite Hw.
    split; [rewrite length_insert; exact Hlt|].
    split; [split; [lia|rewrite length_insert; exact Hlen]|].
    split; [reflexivity|]. split; [reflexivity|]. split.
    { apply list_lookup_insert_eq. exact Hlt. }
    split.
    { intros i Hi' Hil. apply list_lookup_insert_ne. congruence. }
    split; [|split; reflexivity].
    unfold polls_in_use.
    cbn [set_pNATState pNATState set_polls set_nsock nsock polls uPollCap].
    replace (Z.to_nat (nsock st + 1)) with (S (Z.to_nat (nsock st))) by lia.
    erewrite take_S_r by (apply list_lookup_insert_eq; exact Hlt).
    rewrite take_insert_ge by lia. reflexivity.
Qed.

(** The bound matters: [cbNew] is an [int].  On a POSIX host with
    [uPollCap = 2^28 + 64] entries, all but one in use, the doubled size is
    [2^32 + 1024] bytes and the reallocation is asked for 1024: the array
    shrinks to 128 entries, the index [2^28 + 63] lies outside it, and the
    call stores through it all the same. *)
Lemma AddPollCb_size_wraps (w : World) (iFd iEvents : Z) :
  uPollCap (pNATState (this w)) = 2 ^ 28 + 64 ->
  nsock (pNATState (this w)) = 2 ^ 28 + 63 ->
  length (RTMemRealloc_polls RT_OS_POSIX (polls (pNATState (this w)))
            (to_int32 (wrap64 (wrap32 ((2 ^ 28 + 64) * 2) * sizeof_pollfd RT_OS_POSIX))))
  = 128%nat /\
  drvNAT_AddPollCb RT_OS_POSIX w iFd iEvents true = None.
Proof.
  intros Hc Hn. split.
  - unfold RTMemRealloc_polls. rewrite length_resize. reflexivity.
  - unfold drvNAT_AddPollCb. rewrite Hc, Hn.
    change (2 ^ 28 + 64 <=? wrap32 (2 ^ 28 + 63 + 1)) with true.
    cbn [andb negb set_polls nsock polls uPollCap].
    rewrite Hn. unfold RTMemRealloc_polls. rewrite length_resize. reflexivity.
Qed.

(** X11. [drvNAT_AddPollCb] never writes outside the array when the poll
    set is within its capacity and the size in bytes of the doubled array
    fits the [int] the code computes it in: the call has a result, it
    returns the old [nsock] as index, that index lies inside the (possibly
    doubled) array, the entry there holds the descriptor, the translated
    events and no returned events (so [drvNAT_GetREventsCb] answers 0 for
    it), every other entry is as before, and the poll set is again within
    its capacity, which doubles exactly when the new entry would fill it.
    When the doubling fails for want of memory the call returns -1 and
    changes nothing. *)
Theorem add_poll_in_bounds (os : HostOS) (w : World) (iFd iEvents : Z) (fRealloc : bool) :
  polls_wf (pNATState (this w)) ->
  2 * (nsock (pNATState (this w)) + 1) * sizeof_pollfd os < 2 ^ 31 ->
  let st := pNATState (this w) in
  let grow := uPollCap st <=? nsock st + 1 in
  let res := drvNAT_AddPollCb os w iFd iEvents fRealloc in
  (grow && negb fRealloc = true -> res = Some (-1, w)) /\
  (grow && negb fRealloc = false ->
   exists w',
     res = Some (nsock st, w') /\
     let st' := pNATState (this w') in
     (Z.to_nat (nsock st) < length (polls st'))%nat /\
     polls st' !! Z.to_nat (nsock st) = Some (poll_entry os (iFd, iEvents)) /\
     drvNAT_GetREventsCb os w' (nsock st) = Some 0 /\
     (forall i : nat, i <> Z.to_nat (nsock st) -> (i < length (polls st))%nat ->
        polls st' !! i = polls st !! i) /\
     polls_wf st' /\
     nsock st' = nsock st + 1 /\
     uPollCap st' = (if grow then 2 * uPollCap st else uPollCap st) /\
     heap w' = heap w /\ trace w' = trace w).
Proof.
  intros Hwf Hb st grow res. split.
  - intros Hg. subst res. unfold drvNAT_AddPollCb. fold st.
    assert (Hw : wrap32 (nsock st + 1) = nsock st + 1).
    { unfold wrap32. apply Z.mod_small. destruct Hwf as [[H _] _]. fold st in H, Hb.
      destruct os; simpl in Hb; lia. }
    rewrite Hw. fold grow. rewrite Hg. reflexivity.
  - intros Hg.
    destruct (AddPollCb_ok os w iFd iEvents fRealloc Hwf Hb Hg)
      as (w' & Hres & Hin & Hwf' & Hn & Hcap & Hat & Hother & _ & Hheap & Htrace).
    exists w'. split; [exact Hres|]. cbv zeta.
    split; [exact Hin|]. split; [exact Hat|]. split.
    { unfold drvNAT_GetREventsCb. unfold st. rewrite Hat. simpl.
      rewrite HostToSlirp_0. reflexivity. }
    split; [exact Hother|]. split; [exact Hwf'|]. split; [exact Hn|].
    split; [exact Hcap|]. split; [exact Hheap|exact Htrace].
Qed.

Lemma add_poll_in_bounds_witness :
  exists w',
    drvNAT_AddPollCb RT_OS_POSIX (drvNATConstruct DRVNAT_zero []) 5 SLIRP_POLL_IN true
    = Some (0, w') /\
    drvNAT_GetREventsCb RT_OS_POSIX w' 0 = Some 0.
Proof.
  assert (Hwf : polls_wf (pNATState (this (drvNATConstruct DRVNAT_zero []))))
    by (split; [split; vm_compute; congruence|reflexivity]).
  assert (Hb : 2 * (nsock (pNATState (this (drvNATConstruct DRVNAT_zero []))) + 1)
               * sizeof_pollfd RT_OS_POSIX < 2 ^ 31)
    by reflexivity.
  destruct (proj2 (add_poll_in_bounds RT_OS_POSIX (drvNATConstruct DRVNAT_zero [])
                     5 SLIRP_POLL_IN true Hwf Hb) eq_refl)
    as (w' & Hres & _ & _ & Hget & _).
  exists w'. split; [exact Hres|exact Hget].
Defined.

(** X12. Descriptors registered by successive calls of
    [drvNAT_AddPollCb] end up, in the order of the calls, right behind the
    entries that were in use before: what [poll] is handed is the old
    entries followed by one entry for each descriptor.  The poll set stays
    within its capacity, and the capacity is either the old one or at most
    twice the number of entries in use.  This holds, and every call has a
    result, while the size in bytes of twice the entries in use at the end
    fits an [int]. *)
Theorem poll_round_registers_in_order (os : HostOS) (fds : list (Z * Z)) :
  forall w : World,
    polls_wf (pNATState (this w)) ->
    2 * (nsock (pNATState (this w)) + Z.of_nat (length fds)) * sizeof_pollfd os < 2 ^ 31 ->
    exists w',
      add_polls os w fds = Some w' /\
      let st := pNATState (this w) in
      let st' := pNATState (this w') in
      polls_wf st' /\
      nsock st' = nsock st + Z.of_nat (length fds) /\
      polls_in_use st' = polls_in_use st ++ map (poll_entry os) fds /\
      (uPollCap st' = uPollCap st \/ uPollCap st' <= 2 * nsock st').
Proof.
  assert (Hsz : 0 < sizeof_pollfd os) by (destruct os; reflexivity).
  induction fds as [|[iFd iEvents] fds IH]; intros w Hwf Hb.
  - exists w. split; [reflexivity|]. cbv zeta. simpl. rewrite app_nil_r.
    split; [exact Hwf|]. split; [lia|]. split; [reflexivity|].
    left; reflexivity.
  - cbn [length] in Hb.
    assert (Hb1 : 2 * (nsock (pNATState (this w)) + 1) * sizeof_pollfd os < 2 ^ 31)
      by (destruct os; simpl in *; lia).
    assert (Hg : (uPollCap (pNATState (this w)) <=? nsock (pNATState (this w)) + 1)
                 && negb true = false) by apply andb_false_r.
    destruct (AddPollCb_ok os w iFd iEvents true Hwf Hb1 Hg)
      as (w1 & Hres & _ & Hwf1 & Hn1 & Hcap1 & _ & _ & Huse1 & _).
    cbv zeta in Hwf1, Hn1, Hcap1, Huse1.
    assert (Hb' : 2 * (nsock (pNATState (this w1)) + Z.of_nat (length fds))
                  * sizeof_pollfd os < 2 ^ 31)
      by (rewrite Hn1; destruct os; simpl in *; lia).
    destruct (IH w1 Hwf1 Hb') as (w' & Hrun & Hwf' & Hn' & Huse' & Hcap').
    exists w'. split.
    { cbn [add_polls fst snd]. rewrite Hres. exact Hrun. }
    cbv zeta. cbn [length map].
    split; [exact Hwf'|]. split; [lia|]. split.
    { rewrite Huse', Huse1, <- app_assoc. reflexivity. }
    destruct Hwf as [[Hn0 Hn] _].
    destruct (Z.leb_spec (uPollCap (pNATState (this w))) (nsock (pNATState (this w)) + 1));
      lia.
Qed.

Lemma poll_round_registers_in_order_witness :
  let w := drvNATAsyncIoThread_round_start (drvNATConstruct DRVNAT_zero []) in
  let fds := replicate 70 (5, SLIRP_POLL_IN) in
  exists w',
    add_polls RT_OS_POSIX w fds = Some w' /\
    nsock (pNATState (this w')) = 71 /\
    polls_wf (pNATState (this w')).
Proof.
  intros w fds.
  assert (Hwf : polls_wf (pNATState (this w)))
    by (split; [split; vm_compute; congruence|reflexivity]).
  assert (Hb : 2 * (nsock (pNATState (this w)) + Z.of_nat (length fds))
               * sizeof_pollfd RT_OS_POSIX < 2 ^ 31) by reflexivity.
  destruct (poll_round_registers_in_order RT_OS_POSIX fds w Hwf Hb)
    as (w' & Hrun & Hwf' & Hn & _).
  exists w'. split; [exact Hrun|]. split; [exact Hn|exact Hwf'].
Defined.

(** ** Link state changes *)

Lemma link_eqb_eq (a b : PDMNETWORKLINKSTATE) : link_eqb a b = true <-> a = b.
Proof. destruct a, b; simpl; split; congruence. Qed.

Lemma LinkChangedWorker_spec (w : World) (st : PDMNETWORKLINKSTATE) :
  let w' := drvNATNotifyLinkChangedWorker w st in
  enmLinkState (this w') = st /\ enmLinkStateWant (this w') = st /\
  trace w' = trace w ++ link_log st /\
  hSlirpReqQueue (this w') = hSlirpReqQueue (this w) /\
  pSlirpThread (this w') = pSlirpThread (this w).
Proof.
  unfold drvNATNotifyLinkChangedWorker. destruct st; simpl;
    rewrite ?app_nil_r; repeat split; reflexivity.
Qed.

(** The entry of the NAT thread leaves the link fields and the trace to
    the link worker. *)
Lemma AsyncIoThread_entry_link (w : World) (fdPipeRead : Z) (fRealloc : bool) (w' : World) :
  pSlirpThread (this w) <> PDMTHREADSTATE_INITIALIZING ->
  drvNATAsyncIoThread_entry w fdPipeRead fRealloc = Some w' ->
  enmLinkState (this w') = enmLinkStateWant (this w) /\
  enmLinkStateWant (this w') = enmLinkStateWant (this w) /\
  trace w' = trace w ++
    (if link_eqb (enmLinkStateWant (this w)) (enmLinkState (this w)) then []
     else link_log (enmLinkStateWant (this w))).
Proof.
  intros Hts H. apply AsyncIoThread_entry_frame in H. destruct H as (st' & ->).
  cbv zeta.
  destruct (link_eqb (enmLinkStateWant (this w)) (enmLinkState (this w))) eqn:El.
  - apply link_eqb_eq in El.
    destruct (pSlirpThread (this w)); simpl; rewrite ?app_nil_r;
      try (exfalso; apply Hts; reflexivity); auto.
  - destruct (pSlirpThread (this w)); try (exfalso; apply Hts; reflexivity);
      cbn [negb];
      match goal with
      | |- context [drvNATNotifyLinkChangedWorker ?a ?b] =>
          destruct (LinkChangedWorker_spec a b) as (H1 & H2 & H3 & _)
      end;
      rewrite H1, H2, H3; simpl; auto.
Qed.

(** With the poll set within its capacity the entry of the NAT thread has a
    result. *)
Lemma AsyncIoThread_entry_runs (w : World) (fdPipeRead : Z) (fRealloc : bool) :
  polls_wf (pNATState (this w)) ->
  2 * (nsock (pNATState (this w)) + 1) * sizeof_pollfd RT_OS_POSIX < 2 ^ 31 ->
  exists w', drvNATAsyncIoThread_entry w fdPipeRead fRealloc = Some w'.
Proof.
  intros Hwf Hb. unfold drvNATAsyncIoThread_entry.
  destruct ((uPollCap (pNATState (this w)) <=? nsock (pNATState (this w)) + 1)
            && negb fRealloc) eqn:Hg.
  - assert (E : drvNAT_AddPollCb RT_OS_POSIX w fdPipeRead
                  (Z.lor SLIRP_POLL_IN SLIRP_POLL_HUP) fRealloc = Some (-1, w)).
    { unfold drvNAT_AddPollCb.
      assert (Hw : wrap32 (nsock (pNATState (this w)) + 1) = nsock (pNATState (this w)) + 1).
      { unfold wrap32. apply Z.mod_small. destruct Hwf as [[H _] _].
        simpl in Hb. lia. }
      rewrite Hw, Hg. reflexivity. }
    rewrite E. cbn [mbind option_bind].
    destruct Hwf as [[Hn0 Hn] Hlen].
    destruct (polls (pNATState (this w))) as [|p0 ps]; [simpl in Hlen; lia|].
    eexists. reflexivity.
  - destruct (AddPollCb_ok RT_OS_POSIX w fdPipeRead (Z.lor SLIRP_POLL_IN SLIRP_POLL_HUP)
                fRealloc Hwf Hb Hg) as (w1 & E & Hin & _).
    rewrite E. cbn [mbind option_bind]. cbv zeta in Hin.
    destruct (polls (pNATState (this w1))) as [|p0 ps]; [simpl in Hin; lia|].
    eexists. reflexivity.
Qed.

(** The engine queue as the NAT thread works it off. *)
Section EngineQueue.
Variable X : Externals.

Lemma slirp_req_queue (w : World) (r : Req) (w' : World) :
  slirp_req X w r = Some w' -> hSlirpReqQueue (this w') = hSlirpReqQueue (this w).
Proof.
  destruct r as [p|p cb|st|fRemove fUdp h hp g gp]; simpl; intros H.
  - apply same_obs_SendWorker in H. destruct H as (-> & _). reflexivity.
  - discriminate.
  - inversion H. destruct (LinkChangedWorker_spec w st) as (_ & _ & _ & Hq & _). exact Hq.
  - inversion H. unfold drvNATNotifyApplyPortForwardCommand. destruct fRemove; reflexivity.
Qed.

(** Running the queue is taking its requests one by one. *)
Lemma RTReqQueueProcess_run (q : list Req) :
  forall w, hSlirpReqQueue (this w) = q ->
    RTReqQueueProcess X w q = run X w (replicate (length q) ActSlirpReq).
Proof.
  induction q as [|r q IH]; intros w Hq; [reflexivity|].
  cbn [RTReqQueueProcess length replicate run step]. rewrite Hq.
  destruct (slirp_req X (upd (set_hSlirpReqQueue q) w) r) as [w1|] eqn:E; [|reflexivity].
  cbn [mbind option_bind]. apply IH.
  rewrite (slirp_req_queue _ _ _ E). reflexivity.
Qed.

(** After as many requests as are parked ahead of it, a request is at the
    head of the queue. *)
Lemma run_slirp_reqs_queue (q1 : list Req) :
  forall (rest : list Req) (w1 w' : World),
    hSlirpReqQueue (this w1) = q1 ++ rest ->
    run X w1 (replicate (length q1) ActSlirpReq) = Some w' ->
    hSlirpReqQueue (this w') = rest.
Proof.
  induction q1 as [|r q1 IH]; intros rest w1 w' Hq Hrun.
  - simpl in Hrun. injection Hrun as <-. exact Hq.
  - cbn [length replicate run step] in Hrun. rewrite Hq in Hrun.
    cbn [app] in Hrun.
    destruct (slirp_req X (upd (set_hSlirpReqQueue (q1 ++ rest)) w1) r) as [w2|] eqn:E;
      [|discriminate Hrun].
    cbn [mbind option_bind] in Hrun. eapply IH; [|exact Hrun].
    rewrite (slirp_req_queue _ _ _ E). reflexivity.
Qed.

Lemma run_snoc (acts : list Action) (a : Action) :
  forall w w', run X w (acts ++ [a]) = Some w' ->
    exists w0, run X w acts = Some w0 /\ step X w0 a = Some w'.
Proof.
  induction acts as [|b acts IH]; intros w w' H.
  - simpl in H. exists w. split; [reflexivity|].
    destruct (step X w a) as [w1|]; [exact H|discriminate H].
  - cbn [app run] in H |- *.
    destruct (step X w b) as [w1|]; [|discriminate H].
    cbn [mbind option_bind] in H |- *. exact (IH w1 w' H).
Qed.

Lemma replicate_S_snoc {A : Type} (n : nat) (a : A) :
  replicate (S n) a = replicate n a ++ [a].
Proof. induction n as [|n IH]; [reflexivity|]. simpl. f_equal. exact IH. Qed.

(** X13. A link change reaches the link worker on every route.  Asked
    for while the NAT thread is not running, [drvNATNetworkUp_NotifyLinkChanged]
    only records the wanted state; the next entry of the thread in a state
    other than INITIALIZING then makes it the link state, logging only when
    it differs from the state in force (the entry has a result when the
    poll set is within its capacity and small enough for its size to fit
    an [int]).  Asked for while the thread runs,
    the request is parked at the end of the engine queue: when the queue
    answers TIMEOUT, behind one wakeup; when it answers success, the thread
    has already worked the queue off up to and including the request.
    Wherever a queue holds the request behind others, once the thread has
    taken those, its next step applies the change: both link fields hold
    the new state, the log has the line of that state, and the queue is
    empty.  On any other answer of the queue nothing is parked and the
    change is lost. *)
Theorem link_change_reaches_worker (w : World)
    (st : PDMNETWORKLINKSTATE) (rcQueue : Z) (fWritten : bool) :
  let res := drvNATNetworkUp_NotifyLinkChanged X w st rcQueue fWritten in
  let q := hSlirpReqQueue (this w) in
  let parked := upd (set_hSlirpReqQueue (q ++ [ReqLinkChangedWorker st])) w in
  (is_RUNNING (pSlirpThread (this w)) = false ->
   res = Some (upd (set_enmLinkStateWant st) w) /\
   forall ts fdPipeRead fRealloc,
     ts <> PDMTHREADSTATE_INITIALIZING ->
     let w1 := upd (set_pSlirpThread ts) (upd (set_enmLinkStateWant st) w) in
     (polls_wf (pNATState (this w)) ->
      2 * (nsock (pNATState (this w)) + 1) * sizeof_pollfd RT_OS_POSIX < 2 ^ 31 ->
      exists w2, drvNATAsyncIoThread_entry w1 fdPipeRead fRealloc = Some w2) /\
     (forall w2,
        drvNATAsyncIoThread_entry w1 fdPipeRead fRealloc = Some w2 ->
        enmLinkState (this w2) = st /\ enmLinkStateWant (this w2) = st /\
        trace w2 = trace w ++
          (if link_eqb st (enmLinkState (this w)) then [] else link_log st))) /\
  (is_RUNNING (pSlirpThread (this w)) = true -> rcQueue = VERR_TIMEOUT ->
   res = Some (drvNATNotifyNATThread parked fWritten)) /\
  (is_RUNNING (pSlirpThread (this w)) = true -> RT_SUCCESS rcQueue = true ->
   res = run X parked (replicate (S (length q)) ActSlirpReq) /\
   forall w', res = Some w' ->
     enmLinkState (this w') = st /\ enmLinkStateWant (this w') = st /\
     hSlirpReqQueue (this w') = []) /\
  (is_RUNNING (pSlirpThread (this w)) = true -> RT_SUCCESS rcQueue = false ->
   rcQueue <> VERR_TIMEOUT -> res = Some w) /\
  (forall (q1 : list Req) (w1 w' : World),
     hSlirpReqQueue (this w1) = q1 ++ [ReqLinkChangedWorker st] ->
     run X w1 (replicate (length q1) ActSlirpReq) = Some w' ->
     exists w2,
       step X w' ActSlirpReq = Some w2 /\
       enmLinkState (this w2) = st /\ enmLinkStateWant (this w2) = st /\
       trace w2 = trace w' ++ link_log st /\
       hSlirpReqQueue (this w2) = []).
Proof.
  intros res q parked.
  assert (Hgen : forall (q1 : list Req) (w1 w' : World),
            hSlirpReqQueue (this w1) = q1 ++ [ReqLinkChangedWorker st] ->
            run X w1 (replicate (length q1) ActSlirpReq) = Some w' ->
            exists w2,
              step X w' ActSlirpReq = Some w2 /\
              enmLinkState (this w2) = st /\ enmLinkStateWant (this w2) = st /\
              trace w2 = trace w' ++ link_log st /\
              hSlirpReqQueue (this w2) = []).
  { intros q1 w1 w' Hq Hrun.
    pose proof (run_slirp_reqs_queue q1 _ w1 w' Hq Hrun) as Hq'.
    unfold step. rewrite Hq'. unfold slirp_req.
    eexists. split; [reflexivity|].
    destruct (LinkChangedWorker_spec (upd (set_hSlirpReqQueue []) w') st)
      as (H1 & H2 & H3 & H4 & _).
    rewrite H1, H2, H3, H4. auto. }
  subst res.
  unfold drvNATNetworkUp_NotifyLinkChanged, call_and_wait.
  split; [|split; [|split; [|split]]].
  - intros Hr. rewrite Hr. cbn [negb]. split; [reflexivity|].
    intros ts fdPipe fRealloc Hts.
    set (w1 := upd (set_pSlirpThread ts) (upd (set_enmLinkStateWant st) w)).
    split.
    { intros Hwf Hb. apply AsyncIoThread_entry_runs; [exact Hwf|exact Hb]. }
    intros w2 He.
    destruct (AsyncIoThread_entry_link w1 fdPipe fRealloc w2 Hts He) as (H1 & H2 & H3).
    rewrite H1, H2, H3. auto.
  - intros Hr ->. rewrite Hr. reflexivity.
  - intros Hr Hs. rewrite Hr. cbn [negb].
    destruct (Z.eqb_spec rcQueue VERR_TIMEOUT) as [->|_]; [discriminate Hs|].
    rewrite Hs. cbv zeta.
    change (upd (fun d => set_hSlirpReqQueue
                            (hSlirpReqQueue d ++ [ReqLinkChangedWorker st]) d) w)
      with parked.
    rewrite (RTReqQueueProcess_run _ parked eq_refl).
    replace (length (hSlirpReqQueue (this parked))) with (S (length q))
      by (unfold parked; cbn [this upd hSlirpReqQueue set_hSlirpReqQueue];
          rewrite length_app; simpl; lia).
    split; [reflexivity|].
    intros w' Hres. rewrite replicate_S_snoc in Hres.
    apply run_snoc in Hres. destruct Hres as (w0 & Hrun & Hstep).
    destruct (Hgen q parked w0 eq_refl Hrun) as (w2 & Hstep2 & H1 & H2 & _ & H4).
    rewrite Hstep in Hstep2. injection Hstep2 as ->. auto.
  - intros Hr Hs Hne. rewrite Hr. cbn [negb].
    destruct (Z.eqb_spec rcQueue VERR_TIMEOUT) as [E|_]; [contradiction|].
    rewrite Hs. reflexivity.
  - exact Hgen.
Qed.

End EngineQueue.

Lemma link_change_reaches_worker_witness :
  let w1 := drvNATNotifyNATThread
              (upd (set_hSlirpReqQueue [ReqLinkChangedWorker PDMNETWORKLINKSTATE_UP])
                   w_running) true in
  let w2 := drvNATNotifyNATThread
              (upd (set_hSlirpReqQueue [ReqLinkChangedWorker PDMNETWORKLINKSTATE_UP;
                                        ReqLinkChangedWorker PDMNETWORKLINKSTATE_DOWN])
                   w1) true in
  drvNATNetworkUp_NotifyLinkChanged X0 w_running PDMNETWORKLINKSTATE_UP VERR_TIMEOUT true
  = Some w1 /\
  drvNATNetworkUp_NotifyLinkChanged X0 w1 PDMNETWORKLINKSTATE_DOWN VERR_TIMEOUT true
  = Some w2 /\
  exists w3 w4,
    run X0 w2 [ActSlirpReq] = Some w3 /\
    step X0 w3 ActSlirpReq = Some w4 /\
    enmLinkState (this w4) = PDMNETWORKLINKSTATE_DOWN /\
    hSlirpReqQueue (this w4) = [].
Proof.
  intros w1 w2.
  destruct (link_change_reaches_worker X0 w_running PDMNETWORKLINKSTATE_UP
              VERR_TIMEOUT true) as (_ & Ha & _).
  destruct (link_change_reaches_worker X0 w1 PDMNETWORKLINKSTATE_DOWN
              VERR_TIMEOUT true) as (_ & Hb & _ & _ & Hc).
  split; [exact (Ha eq_refl eq_refl)|]. split; [exact (Hb eq_refl eq_refl)|].
  destruct (run X0 w2 [ActSlirpReq]) as [w3|] eqn:E3;
    [|vm_compute in E3; discriminate E3].
  destruct (Hc [ReqLinkChangedWorker PDMNETWORKLINKSTATE_UP] w2 w3 eq_refl E3)
    as (w4 & Hstep & Hl & _ & _ & Hq).
  exists w3, w4. auto.
Defined.

(** ** The way to the guest *)

Lemma recv_lens_app (tr l : list Event) :
  recv_lens (tr ++ l) = recv_lens tr ++ recv_lens l.
Proof.
  induction tr as [|e tr IH]; simpl; [reflexivity|].
  rewrite IH. destruct e; reflexivity.
Qed.

Lemma parked_pkts_app (q l : list Req) :
  parked_pkts (q ++ l) = parked_pkts q ++ parked_pkts l.
Proof.
  induction q as [|r q IH]; simpl; [reflexivity|].
  rewrite IH. destruct r; reflexivity.
Qed.

Lemma SendPacketCb_accepted (w : World) (cb rcQueue : Z) (fWritten : bool) :
  is_RUNNING (pSlirpThread (this w)) = true ->
  RT_SUCCESS rcQueue = true ->
  let res := drvNAT_SendPacketCb w cb true rcQueue fWritten in
  res.1 = cb /\
  heap res.2 = <[N.succ (brk w) := OMem cb]> (heap w) /\
  brk res.2 = N.succ (brk w) /\
  hRecvReqQueue (this res.2)
  = hRecvReqQueue (this w) ++ [ReqRecvWorker (N.succ (brk w)) cb] /\
  pSlirpThread (this res.2) = pSlirpThread (this w) /\
  recv_lens (trace res.2) = recv_lens (trace w).
Proof.
  intros Hr Hs. unfold drvNAT_SendPacketCb, RTMemAlloc. simpl.
  rewrite is_null_succ. simpl. rewrite Hr. simpl.
  unfold drvNATNotifyNATThread, drvNATRecvWakeup, RTReqQueueCallEx_NoWait.
  rewrite Hs. destruct fWritten; simpl; rewrite ?recv_lens_app; simpl;
    rewrite ?app_nil_r; repeat split; reflexivity.
Qed.

Lemma RecvWorker_delivers (w : World) (p : ptr) (cb rcWait rcRecv : Z) (f : bool) :
  RT_SUCCESS rcWait = true -> p <> NULL ->
  let w' := drvNATRecvWorker w p cb rcWait rcRecv f in
  heap w' = delete p (heap w) /\
  brk w' = brk w /\
  hRecvReqQueue (this w') = hRecvReqQueue (this w) /\
  pSlirpThread (this w') = pSlirpThread (this w) /\
  recv_lens (trace w') = recv_lens (trace w) ++ [cb].
Proof.
  intros Hs Hp. unfold drvNATRecvWorker, drvNATNotifyNATThread, RTMemFree.
  rewrite Hs. simpl. rewrite (is_null_false _ Hp).
  destruct f; simpl; rewrite ?recv_lens_app; simpl;
    rewrite ?app_nil_r; repeat split; reflexivity.
Qed.

Section ReceivePath.
Variable X : Externals.

Lemma step_rx_inv (h0 : gmap N Obj) (w : World) (a : Action) :
  rx_inv h0 w -> rx_action a ->
  exists w',
    step X w a = Some w' /\ rx_inv h0 w' /\
    recv_lens (trace w') ++ map snd (parked_pkts (hRecvReqQueue (this w')))
    = recv_lens (trace w) ++ map snd (parked_pkts (hRecvReqQueue (this w))) ++ emitted [a].
Proof.
  intros (Hr & Hf & Hall & Hnd & Hin & Hout) Ha.
  destruct a; simpl in Ha; try contradiction.
  - (* a packet from the engine *)
    destruct Ha as [-> Hs].
    destruct (SendPacketCb_accepted w cb rcQueue fWritten Hr Hs)
      as (_ & Hh & Hb & Hq & Ht & Htr).
    simpl. eexists. split; [reflexivity|].
    set (w' := (drvNAT_SendPacketCb w cb true rcQueue fWritten).2) in *.
    set (p := N.succ (brk w)) in *.
    assert (Hpn : ~ In p (map fst (parked_pkts (hRecvReqQueue (this w))))).
    { intros Hi. apply in_map_iff in Hi. destruct Hi as ([p' cb'] & E & Hi).
      simpl in E. subst p'. destruct (Hin _ _ Hi) as (_ & Hl & _).
      assert (E : heap w !! p = None) by (apply Hf; unfold p; lia).
      unfold ptr in *. rewrite E in Hl. discriminate Hl. }
    assert (Hp0 : h0 !! p = None).
    { transitivity (heap w !! p); [symmetry; exact (Hout p Hpn)|].
      apply Hf. unfold p. lia. }
    split.
    + unfold rx_inv, heap_fresh. rewrite Ht, Hq, Hh, Hb, parked_pkts_app. simpl.
      split; [exact Hr|]. split.
      { intros q Hlt. rewrite lookup_insert_ne by lia.
        apply Hf. unfold p in Hlt. lia. }
      split.
      { apply Forall_app. split; [exact Hall|]. constructor; [exact I|constructor]. }
      split.
      { rewrite map_app. simpl. apply List.NoDup_app; [exact Hnd| |].
        - constructor; [intros []|constructor].
        - intros x Hx [<-|[]]. exact (Hpn Hx). }
      split.
      { intros p' cb' Hi. apply in_app_or in Hi. destruct Hi as [Hi|[E|[]]].
        - destruct (Hin _ _ Hi) as (H1 & H2 & H3).
          split; [exact H1|]. split; [|exact H3].
          rewrite lookup_insert_ne; [exact H2|].
          intros <-. apply Hpn. apply in_map_iff. exists (p, cb'). split; [reflexivity|exact Hi].
        - injection E as <- <-. split; [unfold p, NULL; lia|].
          split; [apply lookup_insert_eq|exact Hp0]. }
      intros q Hq'. rewrite map_app in Hq'. simpl in Hq'.
      rewrite lookup_insert_ne.
      * apply Hout. intros Hi. apply Hq'. apply in_or_app. left. exact Hi.
      * intros <-. apply Hq'. apply in_or_app. right. left. reflexivity.
    + rewrite Htr, Hq, parked_pkts_app, map_app. reflexivity.
  - (* the receive thread takes a request *)
    simpl. destruct (hRecvReqQueue (this w)) as [|r q] eqn:Eq.
    + exists w. split; [reflexivity|]. split.
      * unfold rx_inv. rewrite Eq. repeat (split; [assumption|]). assumption.
      * rewrite Eq. simpl. rewrite app_nil_r. reflexivity.
    + inversion Hall as [|? ? Hr0 Hall']; subst.
      destruct r as [|p cb| |]; try contradiction.
      simpl in Hnd, Hin, Hout.
      destruct (Hin p cb (or_introl eq_refl)) as (Hpn & Hl & Hp0).
      eexists. split; [reflexivity|].
      destruct (RecvWorker_delivers (upd (set_hRecvReqQueue q) w) p cb rcWait rcRecv
                  fWritten Ha Hpn) as (Hh & Hb & Hq & Ht & Htr).
      set (w' := drvNATRecvWorker _ p cb rcWait rcRecv fWritten) in *.
      simpl in Hh, Hb, Hq, Ht, Htr.
      apply List.NoDup_cons_iff in Hnd. destruct Hnd as [Hnotin Hnd'].
      split.
      * unfold rx_inv, heap_fresh. rewrite Ht, Hq, Hh, Hb.
        split; [exact Hr|]. split.
        { intros x Hlt.
          destruct (N.eq_dec p x) as [->|Hne]; [apply lookup_delete_eq|].
          rewrite lookup_delete_ne by exact Hne. apply Hf. exact Hlt. }
        split; [exact Hall'|]. split; [exact Hnd'|]. split.
        { intros p' cb' Hi. destruct (Hin p' cb' (or_intror Hi)) as (H1 & H2 & H3).
          split; [exact H1|]. split; [|exact H3].
          rewrite lookup_delete_ne; [exact H2|].
          intros <-. apply Hnotin. apply in_map_iff. exists (p, cb'). split; [reflexivity|exact Hi]. }
        intros x Hx. destruct (N.eq_dec p x) as [<-|Hne].
        -- rewrite lookup_delete_eq. symmetry. exact Hp0.
        -- rewrite lookup_delete_ne by exact Hne. apply Hout.
           intros [E|Hi]; [exact (Hne E)|exact (Hx Hi)].
      * rewrite Htr, Hq. simpl. rewrite app_nil_r, <- app_assoc. reflexivity.
Qed.

Lemma run_rx_inv (h0 : gmap N Obj) (acts : list Action) :
  forall w, rx_inv h0 w -> Forall rx_action acts ->
    exists w',
      run X w acts = Some w' /\ rx_inv h0 w' /\
      recv_lens (trace w') ++ map snd (parked_pkts (hRecvReqQueue (this w')))
      = recv_lens (trace w) ++ map snd (parked_pkts (hRecvReqQueue (this w)))
        ++ emitted acts.
Proof.
  induction acts as [|a acts IH]; intros w Hi Hall.
  - exists w. simpl. rewrite app_nil_r. auto.
  - inversion Hall as [|? ? Ha Hall']; subst.
    destruct (step_rx_inv h0 w a Hi Ha) as (w1 & Hs & Hi1 & E1).
    destruct (IH w1 Hi1 Hall') as (w' & Hrun & Hi' & E').
    exists w'. simpl. rewrite Hs. simpl. split; [exact Hrun|]. split; [exact Hi'|].
    rewrite E', app_assoc, E1, <- !app_assoc. do 2 f_equal.
    destruct a; reflexivity.
Qed.

(** X14. Packets reach the guest in the order in which the engine put
    them out.  In any run of [drvNAT_SendPacketCb] calls and steps of the
    receive thread in which nothing is refused, started with the NAT thread
    running and an empty receive queue, what the device has been handed so
    far followed by what is still parked is exactly what the engine has
    emitted, each packet with its own length; every parked packet owns a
    live copy, and once the queue is empty again the heap is what it was
    before the run. *)
Theorem packets_reach_guest_in_order (w : World) (acts : list Action) :
  heap_fresh w ->
  is_RUNNING (pSlirpThread (this w)) = true ->
  hRecvReqQueue (this w) = [] ->
  Forall rx_action acts ->
  exists w',
    run X w acts = Some w' /\
    recv_lens (trace w') ++ map snd (parked_pkts (hRecvReqQueue (this w')))
    = recv_lens (trace w) ++ emitted acts /\
    (forall p cb, In (p, cb) (parked_pkts (hRecvReqQueue (this w'))) ->
       heap w' !! p = Some (OMem cb)) /\
    (hRecvReqQueue (this w') = [] -> heap w' = heap w).
Proof.
  intros Hf Hr Hq Hall.
  assert (Hi : rx_inv (heap w) w).
  { unfold rx_inv. rewrite Hq. simpl.
    split; [exact Hr|]. split; [exact Hf|]. split; [constructor|].
    split; [constructor|]. split; [intros ? ? []|]. reflexivity. }
  destruct (run_rx_inv (heap w) acts w Hi Hall) as (w' & Hrun & Hi' & E).
  exists w'. split; [exact Hrun|]. split.
  { rewrite E, Hq. reflexivity. }
  destruct Hi' as (_ & _ & _ & _ & Hin & Hout). split.
  - intros p cb Hp. apply (Hin p cb Hp).
  - intros Hq'. apply map_eq. intros q. apply Hout. rewrite Hq'. intros [].
Qed.

End ReceivePath.

Lemma packets_reach_guest_in_order_witness :
  exists w',
    run X0 w_running
      [ActSendPacket 60 true VINF_SUCCESS true; ActSendPacket 1514 true VINF_SUCCESS false;
       ActRecvReq VINF_SUCCESS VINF_SUCCESS true; ActRecvReq VINF_SUCCESS VINF_SUCCESS true]
    = Some w' /\
    recv_lens (trace w') = [60; 1514] /\ heap w' = heap w_running.
Proof.
  destruct (packets_reach_guest_in_order X0 w_running
              [ActSendPacket 60 true VINF_SUCCESS true;
               ActSendPacket 1514 true VINF_SUCCESS false;
               ActRecvReq VINF_SUCCESS VINF_SUCCESS true;
               ActRecvReq VINF_SUCCESS VINF_SUCCESS true]
              heap_fresh_w_running eq_refl eq_refl)
    as (w' & Hrun & Hfifo & _ & Hheap).
  { repeat constructor. }
  exists w'. split; [exact Hrun|].
  assert (Hq : hRecvReqQueue (this w') = []).
  { pose proof Hrun as E. vm_compute in E. injection E as <-. reflexivity. }
  rewrite Hq in Hfifo. simpl in Hfifo. rewrite app_nil_r in Hfifo.
  split; [exact Hfifo|]. apply Hheap. exact Hq.
Defined.

(** ** Port forwarding commands *)

Section Redirect.
Variable X : Externals.

Lemma ApplyPortForwardCommand_call (w : World) (fRemove fUdp : bool)
    (pHostIp : option (list Z)) (hp : Z) (pGuestIp : option (list Z)) (gp : Z) :
  drvNATNotifyApplyPortForwardCommand X w fRemove fUdp pHostIp hp pGuestIp gp
  = emit (fwd_call X (GuestIP (this w)) fRemove fUdp pHostIp hp pGuestIp gp) w.
Proof.
  unfold drvNATNotifyApplyPortForwardCommand, fwd_call.
  destruct pHostIp as [h|], pGuestIp as [g|]; simpl;
    try destruct (inet_aton X h); try destruct (inet_aton X g);
    destruct fRemove; reflexivity.
Qed.

Lemma slirp_reqs_GuestIP (acts : list Action) :
  forall w w', run X w acts = Some w' -> GuestIP (this w') = GuestIP (this w).
Proof.
  induction acts as [|a acts IH]; intros w w' H; simpl in H.
  - injection H as <-. reflexivity.
  - destruct (step X w a) as [w1|] eqn:E; [|discriminate H]. simpl in H.
    rewrite (IH _ _ H). apply (step_GuestIP X _ _ _ E).
Qed.

(** X15. A port forwarding command ends in the same engine call on
    every route.  With the NAT thread not running
    [drvNATNetworkNatConfigRedirect] makes the call itself and answers
    success.  With the thread running the request is parked at the end of
    the engine queue: when the queue answers TIMEOUT, behind one wakeup and
    with success returned; when it answers success, the thread has already
    worked the queue off up to and including the request, and the queue's
    status is returned.  Wherever a queue of this instance holds the request
    behind others, once the thread has taken those, its next step makes the
    very same call and leaves the queue empty.  On any other answer of the
    queue nothing is parked, nothing is called and the failure is returned.
    A missing or unparsable host address stands for [INADDR_ANY], a missing
    or unparsable guest address for the instance's guest address, and a
    removal ignores the guest side altogether. *)
Theorem redirect_same_call_on_every_route (w : World) (fRemove fUdp : bool)
    (pHostIp : option (list Z)) (hp : Z) (pGuestIp : option (list Z)) (gp : Z)
    (rcQueue : Z) (fWritten : bool) :
  let res := drvNATNetworkNatConfigRedirect X w fRemove fUdp pHostIp hp pGuestIp gp
               rcQueue fWritten in
  let call := fwd_call X (GuestIP (this w)) fRemove fUdp pHostIp hp pGuestIp gp in
  let r := ReqApplyPortForwardCommand fRemove fUdp pHostIp hp pGuestIp gp in
  let q := hSlirpReqQueue (this w) in
  let parked := upd (set_hSlirpReqQueue (q ++ [r])) w in
  (is_RUNNING (pSlirpThread (this w)) = false ->
   res = Some (VINF_SUCCESS, emit call w)) /\
  (is_RUNNING (pSlirpThread (this w)) = true -> rcQueue = VERR_TIMEOUT ->
   res = Some (VINF_SUCCESS, drvNATNotifyNATThread parked fWritten)) /\
  (is_RUNNING (pSlirpThread (this w)) = true -> RT_SUCCESS rcQueue = true ->
   res = (w' ← run X parked (replicate (S (length q)) ActSlirpReq); Some (rcQueue, w')) /\
   forall rc w', res = Some (rc, w') ->
     rc = rcQueue /\ hSlirpReqQueue (this w') = [] /\
     exists w0, run X parked (replicate (length q) ActSlirpReq) = Some w0 /\
                trace w' = trace w0 ++ [call]) /\
  (is_RUNNING (pSlirpThread (this w)) = true -> RT_SUCCESS rcQueue = false ->
   rcQueue <> VERR_TIMEOUT -> res = Some (rcQueue, w)) /\
  (hSlirpReqQueue (this (drvNATNotifyNATThread parked fWritten)) = q ++ [r] /\
   GuestIP (this (drvNATNotifyNATThread parked fWritten)) = GuestIP (this w) /\
   hSlirpReqQueue (this parked) = q ++ [r] /\
   GuestIP (this parked) = GuestIP (this w)) /\
  (forall (q1 : list Req) (w1 w' : World),
     hSlirpReqQueue (this w1) = q1 ++ [r] ->
     GuestIP (this w1) = GuestIP (this w) ->
     run X w1 (replicate (length q1) ActSlirpReq) = Some w' ->
     exists w2,
       step X w' ActSlirpReq = Some w2 /\
       trace w2 = trace w' ++ [call] /\ hSlirpReqQueue (this w2) = []) /\
  (fRemove = true ->
   forall pGuestIp' gp',
     fwd_call X (GuestIP (this w)) true fUdp pHostIp hp pGuestIp' gp' = call).
Proof.
  intros res call r q parked.
  assert (Hgen : forall (q1 : list Req) (w1 w' : World),
            hSlirpReqQueue (this w1) = q1 ++ [r] ->
            GuestIP (this w1) = GuestIP (this w) ->
            run X w1 (replicate (length q1) ActSlirpReq) = Some w' ->
            exists w2,
              step X w' ActSlirpReq = Some w2 /\
              trace w2 = trace w' ++ [call] /\ hSlirpReqQueue (this w2) = []).
  { intros q1 w1 w' Hq Hg Hrun.
    pose proof (run_slirp_reqs_queue X q1 _ w1 w' Hq Hrun) as Hq'.
    pose proof (slirp_reqs_GuestIP _ _ _ Hrun) as Hg'.
    unfold step. rewrite Hq'. unfold r, slirp_req.
    rewrite ApplyPortForwardCommand_call.
    cbn [this upd GuestIP set_hSlirpReqQueue].
    eexists. split; [reflexivity|].
    split.
    + cbn [trace emit]. unfold call. rewrite <- Hg, <- Hg'. reflexivity.
    + reflexivity. }
  subst res.
  unfold drvNATNetworkNatConfigRedirect, call_and_wait.
  rewrite !ApplyPortForwardCommand_call. fold call.
  split; [|split; [|split; [|split; [|split; [|split]]]]].
  - intros ->. reflexivity.
  - intros -> ->. reflexivity.
  - intros -> Hs. cbn [negb].
    destruct (Z.eqb_spec rcQueue VERR_TIMEOUT) as [->|_]; [discriminate Hs|].
    rewrite Hs. cbv zeta.
    change (upd (fun d => set_hSlirpReqQueue
                            (hSlirpReqQueue d ++
                             [ReqApplyPortForwardCommand fRemove fUdp pHostIp hp pGuestIp gp])
                            d) w)
      with parked.
    rewrite (RTReqQueueProcess_run X _ parked eq_refl).
    replace (length (hSlirpReqQueue (this parked))) with (S (length q))
      by (unfold parked; cbn [this upd hSlirpReqQueue set_hSlirpReqQueue];
          rewrite length_app; simpl; lia).
    split; [reflexivity|].
    intros rc w' Hres.
    destruct (run X parked (replicate (S (length q)) ActSlirpReq)) as [w1|] eqn:E;
      [|discriminate Hres].
    cbn [mbind option_bind] in Hres. injection Hres as <- <-.
    rewrite replicate_S_snoc in E.
    apply run_snoc in E. destruct E as (w0 & Hrun & Hstep).
    destruct (Hgen q parked w0 eq_refl eq_refl Hrun) as (w2 & Hstep2 & Ht & Hq2).
    rewrite Hstep in Hstep2. injection Hstep2 as ->.
    split; [reflexivity|]. split; [exact Hq2|]. exists w0. split; [exact Hrun|exact Ht].
  - intros -> Hs Hne. cbn [negb].
    destruct (Z.eqb_spec rcQueue VERR_TIMEOUT) as [E|_]; [contradiction|].
    rewrite Hs. reflexivity.
  - unfold drvNATNotifyNATThread. destruct fWritten; repeat split; reflexivity.
  - exact Hgen.
  - intros -> pGuestIp' gp'. reflexivity.
Qed.

End Redirect.

Lemma redirect_same_call_on_every_route_witness :
  let r1 := ReqLinkChangedWorker PDMNETWORKLINKSTATE_DOWN in
  let r2 := ReqApplyPortForwardCommand false true None 8080 None 80 in
  let w0 := upd (set_hSlirpReqQueue [r1]) w_running in
  let w1 := drvNATNotifyNATThread (upd (set_hSlirpReqQueue [r1; r2]) w0) true in
  drvNATNetworkNatConfigRedirect X0 w0 false true None 8080 None 80 VERR_TIMEOUT true
  = Some (VINF_SUCCESS, w1) /\
  exists w2 w3,
    run X0 w1 [ActSlirpReq] = Some w2 /\
    step X0 w2 ActSlirpReq = Some w3 /\
    trace w3 = trace w2 ++ [EvAddHostFwd true INADDR_ANY 8080 0 80] /\
    hSlirpReqQueue (this w3) = [].
Proof.
  intros r1 r2 w0 w1.
  destruct (redirect_same_call_on_every_route X0 w0 false true None 8080 None 80
              VERR_TIMEOUT true) as (_ & Ha & _ & _ & _ & Hc & _).
  split; [exact (Ha eq_refl eq_refl)|].
  destruct (run X0 w1 [ActSlirpReq]) as [w2|] eqn:E;
    [|vm_compute in E; discriminate E].
  destruct (Hc [r1] w1 w2 eq_refl eq_refl E) as (w3 & Hstep & Ht & Hq).
  exists w2, w3. auto.
Defined.

(** X16. [drvNAT_SendPacketCb] answers -1 and parks nothing when the
    copy cannot be allocated or the NAT thread is not running; in the second
    case the copy has been allocated and is never freed: it stays on the
    heap as a new block, with no request owning it.  With the thread running
    the call answers the packet length, signals the receive thread and sends
    one wakeup, and it does so even when the receive queue refuses the
    request. *)
Theorem send_packet_refusals (w : World) (cb rcQueue : Z) (fAlloc fWritten : bool) :
  heap_fresh w ->
  let res := drvNAT_SendPacketCb w cb fAlloc rcQueue fWritten in
  (fAlloc = false -> res = (-1, w)) /\
  (fAlloc = true -> is_RUNNING (pSlirpThread (this w)) = false ->
   res.1 = -1 /\
   heap w !! N.succ (brk w) = None /\
   heap res.2 = <[N.succ (brk w) := OMem cb]> (heap w) /\
   freed res.2 = freed w /\ this res.2 = this w /\ trace res.2 = trace w) /\
  (fAlloc = true -> is_RUNNING (pSlirpThread (this w)) = true ->
   res.1 = cb /\
   trace res.2 = trace w ++ EvSemEventSignal :: (if fWritten then [EvPipeWrite 1] else []) /\
   cPkts (this res.2) = wrap32 (cPkts (this w) + 1) /\
   hRecvReqQueue (this res.2)
   = (if RT_SUCCESS rcQueue
      then hRecvReqQueue (this w) ++ [ReqRecvWorker (N.succ (brk w)) cb]
      else hRecvReqQueue (this w)) /\
   heap res.2 = <[N.succ (brk w) := OMem cb]> (heap w) /\
   freed res.2 = freed w).
Proof.
  intros Hf res. subst res. split; [|split].
  - intros ->. reflexivity.
  - intros -> Hr. unfold drvNAT_SendPacketCb, RTMemAlloc. simpl.
    rewrite is_null_succ. simpl. rewrite Hr. simpl.
    split; [reflexivity|]. split; [apply Hf; lia|]. auto.
  - intros -> Hr. unfold drvNAT_SendPacketCb, RTMemAlloc. simpl.
    rewrite is_null_succ. simpl. rewrite Hr. simpl.
    unfold drvNATNotifyNATThread, drvNATRecvWakeup, RTReqQueueCallEx_NoWait.
    destruct fWritten, (RT_SUCCESS rcQueue); simpl;
      rewrite <- ?app_assoc; simpl; repeat split; reflexivity.
Qed.

Lemma send_packet_refusals_witness :
  let w := upd (set_pSlirpThread PDMTHREADSTATE_SUSPENDED) w_running in
  let res := drvNAT_SendPacketCb w 60 true VINF_SUCCESS true in
  res.1 = -1 /\ heap res.2 !! 1%N = Some (OMem 60) /\ freed res.2 = [].
Proof.
  intros w res.
  assert (Hf : heap_fresh w) by (intros q _; apply lookup_empty).
  destruct (send_packet_refusals w 60 VINF_SUCCESS true true Hf) as (_ & H & _).
  destruct (H eq_refl eq_refl) as (H1 & _ & H2 & H3 & _).
  split; [exact H1|]. split; [|exact H3].
  fold res in H2. rewrite H2. reflexivity.
Defined.

(** ** The polling loop *)

Lemma drain_round (w : World) (revents0 : Z) :
  wakeup_inv w -> hPipe w < 2 ^ 64 ->
  tst revents0 (Z.lor (Z.lor (POLLRDNORM RT_OS_POSIX) (POLLPRI RT_OS_POSIX))
                      (POLLRDBAND RT_OS_POSIX)) = true ->
  let w' := drvNATAsyncIoThread_drain w revents0 in
  wakeup_inv w' /\ hPipe w' = Z.max 0 (hPipe w - 1024).
Proof.
  intros Hi Hlt Ht w'. split; [apply wakeup_inv_drain; exact Hi|].
  pose proof (drain_reads w Hi) as (Hr & Hb).
  destruct Hi as (H1 & H2 & H3).
  assert (Hc : cbWakeupNotifs (this w) = hPipe w)
    by (rewrite H3; unfold wrap64; apply Z.mod_small; lia).
  subst w'. unfold drvNATAsyncIoThread_drain. rewrite Ht. simpl.
  rewrite Hr, Hc. lia.
Qed.

(** X17. Wakeups are drained 1024 at a time and none is lost: after [k]
    rounds of the polling loop that find the pipe readable, the pipe and the
    counter [cbWakeupNotifs] both hold what was there before less [1024 * k],
    and nothing once that would be negative; a round that does not find the
    pipe readable changes nothing. *)
Theorem wakeups_drained_in_rounds (w : World) (revents0 : Z) (k : nat) :
  wakeup_inv w -> hPipe w < 2 ^ 64 ->
  let mask := Z.lor (Z.lor (POLLRDNORM RT_OS_POSIX) (POLLPRI RT_OS_POSIX))
                    (POLLRDBAND RT_OS_POSIX) in
  (tst revents0 mask = true ->
   let w' := drain_rounds k w revents0 in
   hPipe w' = Z.max 0 (hPipe w - 1024 * Z.of_nat k) /\
   cbWakeupNotifs (this w') = hPipe w' /\
   (hPipe w <= 1024 * Z.of_nat k -> hPipe w' = 0 /\ cbWakeupNotifs (this w') = 0)) /\
  (tst revents0 mask = false -> drain_rounds k w revents0 = w).
Proof.
  intros Hi Hlt mask. split.
  - intros Ht.
    assert (H : wakeup_inv (drain_rounds k w revents0) /\
                hPipe (drain_rounds k w revents0) = Z.max 0 (hPipe w - 1024 * Z.of_nat k)).
    { induction k as [|k IH].
      - simpl. destruct Hi as (H1 & H2 & H3). split; [repeat split; assumption|lia].
      - destruct IH as (IHi & IHp).
        change (drain_rounds (S k) w revents0)
          with (drvNATAsyncIoThread_drain (drain_rounds k w revents0) revents0).
        destruct Hi as (_ & H2 & _).
        destruct (drain_round (drain_rounds k w revents0) revents0 IHi ltac:(lia) Ht)
          as (Hi' & Hp').
        split; [exact Hi'|]. rewrite Hp', IHp. lia. }
    destruct H as ((H1 & H2 & H3) & Hp). cbv zeta.
    destruct Hi as (_ & Hw2 & _).
    assert (Hc : cbWakeupNotifs (this (drain_rounds k w revents0))
                 = hPipe (drain_rounds k w revents0))
      by (rewrite H3; unfold wrap64; apply Z.mod_small; lia).
    split; [exact Hp|]. split; [exact Hc|]. intros Hle. rewrite Hc, Hp. lia.
  - intros Ht. induction k as [|k IH]; [reflexivity|].
    change (drain_rounds (S k) w revents0)
      with (drvNATAsyncIoThread_drain (drain_rounds k w revents0) revents0).
    rewrite IH. unfold drvNATAsyncIoThread_drain. fold mask. rewrite Ht. reflexivity.
Qed.

Lemma wakeups_drained_in_rounds_witness :
  let w := drvNATNotifyNATThread (drvNATNotifyNATThread w_running true) true in
  let w' := drain_rounds 1 w (POLLRDNORM RT_OS_POSIX) in
  hPipe w = 2 /\ hPipe w' = 0 /\ cbWakeupNotifs (this w') = 0.
Proof.
  intros w w'.
  assert (Hi : wakeup_inv w)
    by (split; [reflexivity|split; [vm_compute; congruence|reflexivity]]).
  assert (Hlt : hPipe w < 2 ^ 64) by reflexivity.
  destruct (proj1 (wakeups_drained_in_rounds w (POLLRDNORM RT_OS_POSIX) 1 Hi Hlt) eq_refl)
    as (_ & _ & H).
  split; [reflexivity|]. apply H. vm_compute. congruence.
Defined.

Lemma poll_rounds_app (outs : list (Z * bool)) (c : Z) (logs0 : list Z) :
  fold_left (fun '(c, logs) '(cChangedFDs, fEINTR) =>
               let '(_, c', l) := drvNATAsyncIoThread_poll_result cChangedFDs fEINTR c in
               (c', logs ++ match l with Some n => [n] | None => [] end))
            outs (c, logs0)
  = let r := poll_rounds outs c in (r.1, logs0 ++ r.2).
Proof.
  unfold poll_rounds. revert c logs0.
  induction outs as [|[n e] outs IH]; intros c logs0; cbn [fold_left].
  - cbv zeta. cbn [fst snd]. rewrite app_nil_r. reflexivity.
  - destruct (drvNATAsyncIoThread_poll_result n e c) as [[x c'] l].
    rewrite (IH c' (logs0 ++ _)), (IH c' ([] ++ _)). cbv zeta. cbn [fst snd].
    rewrite app_nil_l, app_assoc. reflexivity.
Qed.

Lemma poll_rounds_cons (n : Z) (e : bool) (outs : list (Z * bool)) (c : Z) :
  poll_rounds ((n, e) :: outs) c
  = let r := poll_rounds outs (drvNATAsyncIoThread_poll_result n e c).1.2 in
    (r.1, match (drvNATAsyncIoThread_poll_result n e c).2 with
          | Some x => [x]
          | None => []
          end ++ r.2).
Proof.
  unfold poll_rounds at 1. cbn [fold_left].
  destruct (drvNATAsyncIoThread_poll_result n e c) as [[x c'] l].
  rewrite poll_rounds_app. reflexivity.
Qed.

(** X18. The release log gets one line for every 130 failures of [poll]
    that are not [EINTR], whatever lies between them: started at 0, the
    counter [cPollNegRet] and the number of lines written account for every
    such failure, the counter never exceeds 129, and every line reports the
    count 130.  A [poll] cut short by a signal is turned into the result 0
    and leaves the counter alone, as does a [poll] that succeeds. *)
Theorem poll_failures_logged_every_130 (outs : list (Z * bool)) (c0 : Z) :
  0 <= c0 <= 129 ->
  let r := poll_rounds outs c0 in
  c0 + hard_failures outs = 130 * Z.of_nat (length r.2) + r.1 /\
  0 <= r.1 <= 129 /\
  Forall (fun n => n = 130) r.2 /\
  (forall n c, (drvNATAsyncIoThread_poll_result n true c).1.1 = (if n <? 0 then 0 else n) /\
               (drvNATAsyncIoThread_poll_result n true c).1.2 = c) /\
  (forall n e c, 0 <= n -> drvNATAsyncIoThread_poll_result n e c = (n, c, None)).
Proof.
  intros Hc r. subst r.
  assert (H : c0 + hard_failures outs
              = 130 * Z.of_nat (length (poll_rounds outs c0).2) + (poll_rounds outs c0).1 /\
              0 <= (poll_rounds outs c0).1 <= 129 /\
              Forall (fun n => n = 130) (poll_rounds outs c0).2).
  { revert c0 Hc. induction outs as [|[n e] outs IH]; intros c0 Hc.
    - unfold hard_failures. simpl. split; [lia|]. split; [exact Hc|constructor].
    - rewrite poll_rounds_cons. cbv zeta. cbn [fst snd].
      unfold hard_failures. cbn [List.filter].
      unfold drvNATAsyncIoThread_poll_result.
      assert (Hw : wrap32 (c0 + 1) = c0 + 1) by (unfold wrap32; apply Z.mod_small; lia).
      destruct (Z.ltb_spec n 0) as [Hn|Hn]; [destruct e|]; cbn [andb negb fst snd app].
      + specialize (IH c0 Hc). unfold hard_failures in IH. exact IH.
      + destruct (Z.ltb_spec 128 c0) as [Hbig|Hsmall]; cbn [fst snd app length];
          rewrite ?Hw.
        * destruct (IH 0 ltac:(lia)) as (I1 & I2 & I3). unfold hard_failures in I1.
          split; [lia|]. split; [exact I2|]. constructor; [lia|exact I3].
        * destruct (IH (c0 + 1) ltac:(lia)) as (I1 & I2 & I3). unfold hard_failures in I1.
          split; [lia|]. split; [exact I2|exact I3].
      + specialize (IH c0 Hc). unfold hard_failures in IH. exact IH. }
  destruct H as (H1 & H2 & H3).
  split; [exact H1|]. split; [exact H2|]. split; [exact H3|]. split.
  - intros n c. unfold drvNATAsyncIoThread_poll_result.
    destruct (n <? 0); split; reflexivity.
  - intros n e c Hn. unfold drvNATAsyncIoThread_poll_result.
    destruct (Z.ltb_spec n 0); [lia|reflexivity].
Qed.

Lemma poll_failures_logged_every_130_witness :
  let r := poll_rounds (replicate 131 (-1, false) ++ [(-1, true); (3, false)]) 0 in
  r = (1, [130]).
Proof.
  intros r.
  destruct (poll_failures_logged_every_130
              (replicate 131 (-1, false) ++ [(-1, true); (3, false)]) 0 ltac:(lia))
    as (H1 & H2 & H3 & _).
  fold r in H1, H2, H3. vm_compute. reflexivity.
Defined.

(** ** Translating unions of poll flags *)

Lemma tst_lor (a b m : Z) : tst (Z.lor a b) m = tst a m || tst b m.
Proof.
  unfold tst. rewrite Z.land_lor_distr_l.
  destruct (Z.eqb_spec (Z.land a m) 0) as [Ea|Ea], (Z.eqb_spec (Z.land b m) 0) as [Eb|Eb];
    simpl.
  - rewrite Ea, Eb. reflexivity.
  - rewrite Ea, Z.lor_0_l. apply negb_true_iff, Z.eqb_neq. exact Eb.
  - rewrite Eb, Z.lor_0_r. apply negb_true_iff, Z.eqb_neq. exact Ea.
  - apply negb_true_iff, Z.eqb_neq. intros E. apply Z.lor_eq_0_iff in E. tauto.
Qed.

(** X19. Both translations of poll flags act flag by flag: the
    translation of the union of two flag words is the union of their
    translations, on either host and for any two words, so nothing depends on
    which other flags are set.  Whatever bits the host reports, the engine is
    handed nothing but the five engine flags, and a word without any of the
    flags a translation knows translates to 0. *)
Theorem poll_translation_is_flagwise (os : HostOS) (a b : Z) :
  drvNAT_PollEventSlirpToHost os (Z.lor a b)
  = Z.lor (drvNAT_PollEventSlirpToHost os a) (drvNAT_PollEventSlirpToHost os b) /\
  drvNAT_PollEventHostToSlirp os (Z.lor a b)
  = Z.lor (drvNAT_PollEventHostToSlirp os a) (drvNAT_PollEventHostToSlirp os b) /\
  slirp_flags (drvNAT_PollEventHostToSlirp os a) /\
  drvNAT_PollEventSlirpToHost os 0 = 0 /\
  drvNAT_PollEventHostToSlirp os 0 = 0.
Proof.
  split; [|split; [|split; [|split]]].
  - unfold drvNAT_PollEventSlirpToHost, or_if. rewrite !tst_lor.
    destruct os;
      destruct (tst a SLIRP_POLL_IN), (tst a SLIRP_POLL_OUT), (tst a SLIRP_POLL_PRI),
               (tst a SLIRP_POLL_ERR), (tst a SLIRP_POLL_HUP),
               (tst b SLIRP_POLL_IN), (tst b SLIRP_POLL_OUT), (tst b SLIRP_POLL_PRI),
               (tst b SLIRP_POLL_ERR), (tst b SLIRP_POLL_HUP); reflexivity.
  - unfold drvNAT_PollEventHostToSlirp, or_if. rewrite !tst_lor.
    destruct os.
    + destruct (tst a (POLLIN RT_OS_POSIX)), (tst a (POLLOUT RT_OS_POSIX)),
               (tst a (POLLPRI RT_OS_POSIX)), (tst a (POLLERR RT_OS_POSIX)),
               (tst a (POLLHUP RT_OS_POSIX)),
               (tst b (POLLIN RT_OS_POSIX)), (tst b (POLLOUT RT_OS_POSIX)),
               (tst b (POLLPRI RT_OS_POSIX)), (tst b (POLLERR RT_OS_POSIX)),
               (tst b (POLLHUP RT_OS_POSIX)); reflexivity.
    + destruct (tst a (Z.lor (POLLRDNORM RT_OS_WINDOWS) (POLLRDBAND RT_OS_WINDOWS))),
               (tst a (POLLWRNORM RT_OS_WINDOWS)),
               (tst a (POLLPRI RT_OS_WINDOWS)), (tst a (POLLERR RT_OS_WINDOWS)),
               (tst a (POLLHUP RT_OS_WINDOWS)),
               (tst b (Z.lor (POLLRDNORM RT_OS_WINDOWS) (POLLRDBAND RT_OS_WINDOWS))),
               (tst b (POLLWRNORM RT_OS_WINDOWS)),
               (tst b (POLLPRI RT_OS_WINDOWS)), (tst b (POLLERR RT_OS_WINDOWS)),
               (tst b (POLLHUP RT_OS_WINDOWS)); reflexivity.
  - unfold drvNAT_PollEventHostToSlirp, or_if, slirp_flags.
    destruct os.
    + destruct (tst a (POLLIN RT_OS_POSIX)), (tst a (POLLOUT RT_OS_POSIX)),
               (tst a (POLLPRI RT_OS_POSIX)), (tst a (POLLERR RT_OS_POSIX)),
               (tst a (POLLHUP RT_OS_POSIX)); vm_compute; split; congruence.
    + destruct (tst a (Z.lor (POLLRDNORM RT_OS_WINDOWS) (POLLRDBAND RT_OS_WINDOWS))),
               (tst a (POLLWRNORM RT_OS_WINDOWS)),
               (tst a (POLLPRI RT_OS_WINDOWS)), (tst a (POLLERR RT_OS_WINDOWS)),
               (tst a (POLLHUP RT_OS_WINDOWS)); vm_compute; split; congruence.
  - destruct os; reflexivity.
  - destruct os; reflexivity.
Qed.
